(** * Payment relay: order/payment orchestration and response normalisation

    A shallow embedding of the four request handlers of the repository:

    - [Server.create_payment]          server.js, POST /api/create-payment
    - [Server.create_applepay_payment] server.js, POST /api/create-applepay-payment
    - [Api.create_payment]             api/create-payment.js
    - [Api.create_applepay_payment]    api/create-applepay-payment.js

    JavaScript values are an inductive type, the gateway is a function from
    outbound calls to answers, and a handler is a computation in a monad
    that records the outbound calls and may throw.  A handler begins by
    destructuring the request body, which throws on a body that is
    undefined or null; the fields are then read where they are used.

    Left out: the CORS headers, the console output, the routing of express,
    the health endpoints and the merchant-validation route. *)

From Stdlib Require Import String Ascii List ZArith Bool Lia DecimalString.
Import ListNotations.
Local Open Scope string_scope.
Local Open Scope Z_scope.

(** ** Strings

    A JavaScript string is modelled by [string]; one [ascii] stands for one
    code unit. *)

Module Str.

Fixpoint starts_with (p s : string) : bool :=
  match p, s with
  | EmptyString, _ => true
  | String a p', String b s' => Ascii.eqb a b && starts_with p' s'
  | String _ _, EmptyString => false
  end.

(** [String.prototype.includes]. *)
Fixpoint includes (s sub : string) : bool :=
  starts_with sub s ||
  match s with
  | EmptyString => false
  | String _ s' => includes s' sub
  end.

(** [s.substring(0, n)]. *)
Fixpoint substring0 (n : nat) (s : string) : string :=
  match n, s with
  | S n', String c s' => String c (substring0 n' s')
  | _, _ => EmptyString
  end.

Definition is_empty (s : string) : bool :=
  match s with EmptyString => true | _ => false end.

Fixpoint all_chars (p : ascii -> bool) (s : string) : bool :=
  match s with
  | EmptyString => true
  | String c s' => p c && all_chars p s'
  end.

(** First character of [s] satisfies [p], or [s] is empty. *)
Definition stops_at (p : ascii -> bool) (s : string) : bool :=
  match s with
  | EmptyString => true
  | String c _ => p c
  end.

End Str.

(** ** Regular expressions

    Every regular expression of the source has the shape
    [lit ( [class]+ ) tail]: a literal prefix made of single-character
    atoms, one capturing group holding a greedy non-empty run of a
    character class, and a (possibly empty) tail of atoms.  [exec] is
    [String.prototype.match] for a non-global expression of that shape and
    returns capture group 1 of the leftmost match. *)

Module Regex.

Inductive atom :=
| Chr (c : ascii)
| Set_ (p : ascii -> bool).

Record t := Build { lit : list atom; class : ascii -> bool; tail : list atom }.

Definition atom_ok (a : atom) (c : ascii) : bool :=
  match a with
  | Chr d => Ascii.eqb d c
  | Set_ p => p c
  end.

(** The atoms match a prefix of [s]; the rest of [s] is returned. *)
Fixpoint atoms (l : list atom) (s : string) : option string :=
  match l with
  | [] => Some s
  | a :: l' =>
      match s with
      | String c s' => if atom_ok a c then atoms l' s' else None
      | EmptyString => None
      end
  end.

(** [( [class]+ ) tail] at the start of [s], longest run first, giving a
    character back while the tail does not match. *)
Fixpoint run (p : ascii -> bool) (tl : list atom) (s : string) : option string :=
  match s with
  | String c s' =>
      if p c then
        match run p tl s' with
        | Some cap => Some (String c cap)
        | None =>
            match atoms tl s' with
            | Some _ => Some (String c EmptyString)
            | None => None
            end
        end
      else None
  | EmptyString => None
  end.

Definition here (r : t) (s : string) : option string :=
  match atoms (lit r) s with
  | Some rest => run (class r) (tail r) rest
  | None => None
  end.

Fixpoint exec (r : t) (s : string) : option string :=
  match here r s with
  | Some cap => Some cap
  | None =>
      match s with
      | String _ s' => exec r s'
      | EmptyString => None
      end
  end.

Definition chars (s : string) : list atom :=
  map Chr (list_ascii_of_string s).

Definition not_char (c : ascii) : ascii -> bool :=
  fun d => negb (Ascii.eqb c d).

Definition in_range (lo hi : ascii) (c : ascii) : bool :=
  (N.leb (N_of_ascii lo) (N_of_ascii c) && N.leb (N_of_ascii c) (N_of_ascii hi))%bool.

(** [[a-zA-Z0-9_]] *)
Definition word_char (c : ascii) : bool :=
  in_range "a" "z" c || in_range "A" "Z" c || in_range "0" "9" c
  || Ascii.eqb c "_".

(** The double quote character, written DQ in the comments below. *)
Definition dquote : ascii := "034"%char.

(** [/url=([^DQ]+)/] in server.js. *)
Definition url_target : t :=
  Build (chars "url=") (not_char dquote) [].

(** [/url=([^DQ]+)DQ/] in api/create-payment.js and
    api/create-applepay-payment.js. *)
Definition url_target_quoted : t :=
  Build (chars "url=") (not_char dquote) [Chr dquote].

(** [/payments\/([^/]+)/] in server.js. *)
Definition payments_segment : t :=
  Build (chars "payments/") (not_char "/") [].

(** [/razorpay_payment_id[=:]([a-zA-Z0-9_]+)/] in the two api handlers. *)
Definition payment_id_key : t :=
  Build (chars "razorpay_payment_id"
           ++ [Set_ (fun c => Ascii.eqb c "=" || Ascii.eqb c ":")])
        word_char [].

End Regex.


(** ** JavaScript values

    The values that reach the handlers come from JSON documents or from
    missing properties: [VUndef] is [undefined].  Numbers are the integers
    (amounts in the smallest currency unit, status codes, lengths); an
    object is the list of its own properties in insertion order. *)

#[local] Set Warnings "-register-all".

Inductive value :=
| VUndef
| VNull
| VBool (b : bool)
| VNum (n : Z)
| VStr (s : string)
| VArr (items : list value)
| VObj (fields : list (string * value)).

Inductive exn :=
| TypeError_read (target : value) (prop : string)
    (* a property of undefined or null is read *)
| TypeError_call (prop : string)
    (* a property that is not a function is called *)
| TypeError_primitive
    (* an object cannot be converted to a primitive value *)
| SyntaxError_json (body : string)
    (* response.json() on a body that is not a JSON document *)
| FetchError (reason : string)
    (* fetch rejects: the gateway cannot be reached *)
| Error (msg : string).
    (* throw new Error(msg) *)

Definition result (A : Type) : Type := exn + A.

Module Js.

Definition is_nullish (v : value) : bool :=
  match v with VUndef | VNull => true | _ => false end.

(** ToBoolean: what [!v], [v && ...] and [v || ...] test. *)
Definition truthy (v : value) : bool :=
  match v with
  | VUndef | VNull => false
  | VBool b => b
  | VNum n => negb (n =? 0)
  | VStr s => negb (Str.is_empty s)
  | VArr _ | VObj _ => true
  end.

(** [a || b] *)
Definition or_else (a b : value) : value := if truthy a then a else b.

Fixpoint lookup (k : string) (fs : list (string * value)) : option value :=
  match fs with
  | [] => None
  | (k', v) :: fs' => if String.eqb k k' then Some v else lookup k fs'
  end.

Definition has_key (k : string) (fs : list (string * value)) : bool :=
  match lookup k fs with Some _ => true | None => false end.

Definition str_length (s : string) : Z := Z.of_nat (String.length s).

(** [v.k] for a [v] that is neither undefined nor null, and a name [k]
    that the prototypes of Object, Array and String do not define (the
    handlers read no other name but [length]). *)
Definition prop (v : value) (k : string) : value :=
  match v with
  | VObj fs => match lookup k fs with Some x => x | None => VUndef end
  | VStr s => if String.eqb k "length" then VNum (str_length s) else VUndef
  | VArr l => if String.eqb k "length" then VNum (Z.of_nat (List.length l)) else VUndef
  | _ => VUndef
  end.

(** [v.k], which throws a TypeError on undefined and null. *)
Definition get (v : value) (k : string) : result value :=
  if is_nullish v then inl (TypeError_read v k) else inr (prop v k).

(** [obj[k] = v]: an existing property keeps its place. *)
Fixpoint set (k : string) (v : value) (fs : list (string * value))
  : list (string * value) :=
  match fs with
  | [] => [(k, v)]
  | (k', x) :: fs' =>
      if String.eqb k k' then (k, v) :: fs' else (k', x) :: set k v fs'
  end.

(** [if (v) obj[k] = v;] *)
Definition set_if_truthy (k : string) (v : value) (fs : list (string * value))
  : list (string * value) :=
  if truthy v then set k v fs else fs.

Definition decimal (n : Z) : string := NilZero.string_of_int (Z.to_int n).

(** ToString, as applied by template literals, by ['20' + v] and by
    [obj[v]].  An array joins its elements with commas; an object without a
    [toString] property of its own prints as [[object Object]], and one
    with such a property (never a function in a JSON document) cannot be
    converted. *)
Fixpoint to_string (v : value) : result string :=
  match v with
  | VUndef => inr "undefined"
  | VNull => inr "null"
  | VBool true => inr "true"
  | VBool false => inr "false"
  | VNum n => inr (decimal n)
  | VStr s => inr s
  | VArr l =>
      (fix join (l : list value) : result string :=
         match l with
         | [] => inr ""
         | x :: r =>
             match (if is_nullish x then inr "" else to_string x) with
             | inl e => inl e
             | inr sx =>
                 match r with
                 | [] => inr sx
                 | _ :: _ =>
                     match join r with
                     | inl e => inl e
                     | inr sr => inr (sx ++ "," ++ sr)
                     end
                 end
             end
         end) l
  | VObj fs =>
      if has_key "toString" fs then inl TypeError_primitive
      else inr "[object Object]"
  end.

(** [JSON.stringify] followed by the receiver's parse: properties whose
    value is undefined are left out, undefined array items become null. *)
Fixpoint stringify (v : value) : value :=
  match v with
  | VArr l =>
      VArr (map (fun x => match x with VUndef => VNull | _ => stringify x end) l)
  | VObj fs =>
      VObj ((fix go (fs : list (string * value)) : list (string * value) :=
               match fs with
               | [] => []
               | (k, x) :: r =>
                   match x with
                   | VUndef => go r
                   | _ => (k, stringify x) :: go r
                   end
               end) fs)
  | _ => v
  end.

(** [x === 'literal'] *)
Definition is_string (lit : string) (x : value) : bool :=
  match x with VStr s => String.eqb s lit | _ => false end.

(** [x === n] *)
Definition is_number (n : Z) (x : value) : bool :=
  match x with VNum m => m =? n | _ => false end.

Fixpoint indexed (i : nat) (l : list value) : list (string * value) :=
  match l with
  | [] => []
  | x :: r => (decimal (Z.of_nat i), x) :: indexed (S i) r
  end.

Fixpoint letters (s : string) : list value :=
  match s with
  | EmptyString => []
  | String c s' => VStr (String c EmptyString) :: letters s'
  end.

(** The own enumerable properties that [{...v}] copies. *)
Definition spread (v : value) : list (string * value) :=
  match v with
  | VObj fs => fs
  | VArr l => indexed 0 l
  | VStr s => indexed 0 (letters s)
  | _ => []
  end.

End Js.

(** ** The gateway and the handlers' effects *)

(** What [fetch] resolves to.  [json] is the document that [response.json()]
    yields, [None] when the body is no JSON document; [text] is what
    [response.text()] yields; [content_type] is
    [headers.get('content-type')]. *)
Record response := Response {
  status : Z;
  content_type : option string;
  text : string;
  json : option value
}.

(** [response.ok] *)
Definition ok (r : response) : bool := (200 <=? status r) && (status r <=? 299).

(** An outbound POST: [sent] is the document that JSON.stringify put in the
    request body. *)
Record call := Call {
  endpoint : string;
  authorization : string;
  sent : value
}.

Inductive fetched :=
| Unreachable (reason : string)
| Answer (r : response).

(** What the handler sends back: [res.status(code).json(payload)], or
    [res.status(code).end()] when there is no payload. *)
Record reply := Reply {
  code : Z;
  payload : option value
}.

(** An inbound request of the serverless platform. *)
Record request := Request {
  http_method : string;
  body : value
}.

(** Everything a handler reads from outside its arguments. *)
Record World := {
  env : string -> option string;      (* process.env *)
  gateway : call -> fetched;          (* the gateway behind fetch *)
  now : Z;                            (* Date.now() *)
  base64 : string -> string;          (* Buffer.from(s).toString('base64') *)
  engine_message : exn -> string      (* error.message of errors thrown by the runtime *)
}.

(** [error.message] *)
Definition message (w : World) (e : exn) : string :=
  match e with
  | Error m => m
  | FetchError m => m
  | _ => engine_message w e
  end.

(** A computation records the calls it issued and returns or throws. *)
Definition M (A : Type) : Type := list call -> list call * result A.

Definition ret {A} (x : A) : M A := fun log => (log, inr x).

Definition throw {A} (e : exn) : M A := fun log => (log, inl e).

Definition bind {A B} (c : M A) (k : A -> M B) : M B :=
  fun log =>
    match c log with
    | (log', inr x) => k x log'
    | (log', inl e) => (log', inl e)
    end.

Definition lift {A} (r : result A) : M A :=
  match r with
  | inr x => ret x
  | inl e => throw e
  end.

Declare Scope js_scope.
Delimit Scope js_scope with js.
Notation "x <- c ;; k" := (bind c (fun x => k))
  (at level 61, c at next level, right associativity) : js_scope.
Notation "c ;;; k" := (bind c (fun _ => k))
  (at level 61, right associativity) : js_scope.
Local Open Scope js_scope.

(** [await fetch(url, {method: 'POST', headers, body})] *)
Definition fetch (w : World) (c : call) : M response :=
  fun log =>
    ((log ++ [c])%list,
     match gateway w c with
     | Unreachable reason => inl (FetchError reason)
     | Answer r => inr r
     end).

(** [await response.json()] *)
Definition json_of (r : response) : result value :=
  match json r with
  | Some v => inr v
  | None => inl (SyntaxError_json (text r))
  end.

(** [try { body } catch (error) { handler }], run from an empty log. *)
Definition try_catch (body : M reply) (handler : exn -> reply) : list call * reply :=
  match body [] with
  | (log, inr r) => (log, r)
  | (log, inl e) => (log, handler e)
  end.

(** [res.status(code).json(v)] *)
Definition respond (code : Z) (v : value) : reply :=
  Reply code (Some (Js.stringify v)).

(** [contentType && contentType.includes('application/json')] *)
Definition is_json (r : response) : bool :=
  match content_type r with
  | Some ct => Js.truthy (VStr ct) && Str.includes ct "application/json"
  | None => false
  end.

(** ** The region table *)

Definition env_value (w : World) (k : string) : value :=
  match env w k with
  | Some s => VStr s
  | None => VUndef
  end.

Definition region (keyId keySecret : value) (currency : string) : value :=
  VObj [("keyId", keyId); ("keySecret", keySecret); ("currency", VStr currency)].

(** Names that every object literal inherits from Object.prototype. *)
Definition object_prototype_names : list string :=
  ["constructor"; "__proto__"; "hasOwnProperty"; "isPrototypeOf";
   "propertyIsEnumerable"; "toLocaleString"; "toString"; "valueOf";
   "__defineGetter__"; "__defineSetter__"; "__lookupGetter__";
   "__lookupSetter__"].

(** [table[key]]: the key is converted to a string; an inherited member is
    an object with none of the properties the handlers read. *)
Definition index (table : list (string * value)) (key : value) : result value :=
  match Js.to_string key with
  | inl e => inl e
  | inr k =>
      inr match Js.lookup k table with
          | Some v => v
          | None =>
              if existsb (String.eqb k) object_prototype_names
              then VObj [] else VUndef
          end
  end.

(** [`${config.keyId}:${config.keySecret}`] *)
Definition credentials (config : value) : result string :=
  match Js.to_string (Js.prop config "keyId"),
        Js.to_string (Js.prop config "keySecret") with
  | inr i, inr s => inr (i ++ ":" ++ s)
  | inl e, _ => inl e
  | _, inl e => inl e
  end.

(** ** The inspection of [next], written out alike in three handlers *)

(** [next.find(action => action.action === 'redirect')] *)
Fixpoint find_redirect (next : list value) : result value :=
  match next with
  | [] => inr VUndef
  | action :: rest =>
      match Js.get action "action" with
      | inl e => inl e
      | inr a => if Js.is_string "redirect" a then inr action else find_redirect rest
      end
  end.

(** The [next] inspection of a parsed payment response: the url to redirect
    to, when [data.next] is an array whose first redirect entry has a
    truthy url. *)
Definition redirect_url (data : value) : result (option value) :=
  match Js.get data "next" with
  | inl e => inl e
  | inr (VArr next) =>
      match find_redirect next with
      | inl e => inl e
      | inr redirectAction =>
          if Js.truthy redirectAction && Js.truthy (Js.prop redirectAction "url")
          then inr (Some (Js.prop redirectAction "url"))
          else inr None
      end
  | inr _ => inr None
  end.

(** ** server.js *)

Module Server.

Definition API_BASE_URL : string := "https://api.razorpay.com/v1".

(** [process.env.NAME || ''] *)
Definition env_or_empty (w : World) (k : string) : value :=
  Js.or_else (env_value w k) (VStr "").

Definition RAZORPAY_CONFIGS (w : World) : list (string * value) :=
  [("MY", region (env_or_empty w "RAZORPAY_KEY_ID_MY")
                 (env_or_empty w "RAZORPAY_KEY_SECRET_MY") "MYR");
   ("SG", region (env_or_empty w "RAZORPAY_KEY_ID_SG")
                 (env_or_empty w "RAZORPAY_KEY_SECRET_SG") "SGD");
   ("US", region (env_or_empty w "RAZORPAY_KEY_ID_US")
                 (env_or_empty w "RAZORPAY_KEY_SECRET_US") "USD");
   ("IN", region (env_or_empty w "RAZORPAY_KEY_ID_IN")
                 (env_or_empty w "RAZORPAY_KEY_SECRET_IN") "INR")].

(** A parameter declared [country = 'MY']. *)
Definition default_MY (country : value) : value :=
  match country with VUndef => VStr "MY" | _ => country end.

(** [function getConfig(country = 'MY')] *)
Definition getConfig (w : World) (country : value) : result value :=
  let country := default_MY country in
  match index (RAZORPAY_CONFIGS w) country with
  | inl e => inl e
  | inr config =>
      if negb (Js.truthy config) || negb (Js.truthy (Js.prop config "keySecret"))
      then match Js.to_string country with
           | inl e => inl e
           | inr c => inl (Error ("Invalid or unconfigured country: " ++ c))
           end
      else inr config
  end.

(** [function getAuthHeader(country = 'MY')] *)
Definition getAuthHeader (w : World) (country : value) : result string :=
  let country := default_MY country in
  match index (RAZORPAY_CONFIGS w) country with
  | inl e => inl e
  | inr config =>
      if negb (Js.truthy config) || negb (Js.truthy (Js.prop config "keySecret"))
      then match Js.to_string country with
           | inl e => inl e
           | inr c => inl (Error ("Invalid or unconfigured country: " ++ c))
           end
      else match credentials config with
           | inl e => inl e
           | inr c => inr ("Basic " ++ base64 w c)
           end
  end.

(** [card.number.slice(-4)], evaluated for the log line; only strings and
    arrays have a [slice] method. *)
Definition slice_last4 (number : value) : result unit :=
  match number with
  | VUndef | VNull => inl (TypeError_read number "slice")
  | VStr _ | VArr _ => inr tt
  | _ => inl (TypeError_call "slice")
  end.

(** [if (expiryYear.length === 2) expiryYear = '20' + expiryYear;] *)
Definition four_digit_year (expiryYear : value) : result value :=
  match Js.get expiryYear "length" with
  | inl e => inl e
  | inr len =>
      if Js.is_number 2 len then
        match Js.to_string expiryYear with
        | inl e => inl e
        | inr s => inr (VStr ("20" ++ s))
        end
      else inr expiryYear
  end.

(** The value captured by [/url=([^DQ]+)/], or null. *)
Definition redirect_target (textResponse : string) : value :=
  match Regex.exec Regex.url_target textResponse with
  | Some u => VStr u
  | None => VNull
  end.

(** [url ? url.match(/payments\/([^/]+)/) : null], then
    [match ? match[1] : null]. *)
Definition payment_id_of (url : value) : value :=
  match url with
  | VStr u =>
      if Js.truthy url then
        match Regex.exec Regex.payments_segment u with
        | Some i => VStr i
        | None => VNull
        end
      else VNull
  | _ => VNull
  end.

Definition catch_payment_failed (w : World) (e : exn) : reply :=
  respond 500 (VObj [("error", VObj [("code", VStr "PAYMENT_FAILED");
                                     ("description", VStr (message w e))])]).

(** The [paymentRequest] object of the card handler (lines 219-254). *)
Definition card_paymentRequest (req_body order_id expiryYear : value)
  : list (string * value) :=
  let card := Js.prop req_body "card" in
  let paymentRequest :=
    [("amount", Js.prop req_body "amount");
     ("currency", Js.prop req_body "currency");
     ("order_id", order_id);
     ("method", Js.prop req_body "method");
     ("contact", Js.prop req_body "contact");
     ("email", Js.prop req_body "email");
     ("card", VObj [("number", Js.prop card "number");
                    ("name", Js.prop card "name");
                    ("expiry_month", Js.prop card "expiry_month");
                    ("expiry_year", expiryYear);
                    ("cvv", Js.prop card "cvv")])] in
  let paymentRequest :=
    Js.set_if_truthy "authentication" (Js.prop req_body "authentication") paymentRequest in
  let paymentRequest :=
    Js.set_if_truthy "browser" (Js.prop req_body "browser") paymentRequest in
  let paymentRequest :=
    Js.set_if_truthy "device_fingerprint" (Js.prop req_body "device_fingerprint") paymentRequest in
  let paymentRequest := Js.set_if_truthy "ip" (Js.prop req_body "ip") paymentRequest in
  let paymentRequest := Js.set_if_truthy "referer" (Js.prop req_body "referer") paymentRequest in
  Js.set_if_truthy "user_agent" (Js.prop req_body "user_agent") paymentRequest.

(** The [paymentRequest] object of the wallet handler (lines 544-554). *)
Definition applepay_paymentRequest (req_body order_id : value) : value :=
  VObj [("amount", Js.prop req_body "amount");
        ("currency", Js.prop req_body "currency");
        ("order_id", order_id);
        ("method", VStr "card");
        ("contact", Js.or_else (Js.prop req_body "contact") (VStr "+60123456789"));
        ("email", Js.or_else (Js.prop req_body "email") (VStr "applepay@example.com"));
        ("app", VObj [("name", VStr "apple_pay")])].

(** The end of the card handler, from the content-type test on the payment
    response to the reply (lines 276-343). *)
Definition card_outcome (orderData order_id : value) (paymentResponse : response)
  : result reply :=
  if is_json paymentResponse then
    match json_of paymentResponse with
    | inl e => inl e
    | inr paymentData =>
        if negb (ok paymentResponse) then
          inr (respond (status paymentResponse) paymentData)
        else
          match Js.get paymentData "id" with
          | inl e => inl e
          | inr _ =>
              inr (respond 200 (VObj (Js.set "order" orderData (Js.spread paymentData))))
          end
    end
  else
    let textResponse := text paymentResponse in
    let authenticationUrl := redirect_target textResponse in
    let paymentId := payment_id_of authenticationUrl in
    if Js.truthy authenticationUrl then
      inr (respond 200
             (VObj [("id", paymentId);
                    ("status", VStr "authorized");
                    ("order_id", order_id);
                    ("authentication",
                     VObj [("authentication_url", authenticationUrl)]);
                    ("requires_3ds", VBool true)]))
    else
      inr (respond (status paymentResponse)
             (VObj [("error",
                     VObj [("code", VStr "INVALID_RESPONSE");
                           ("description",
                            VStr "Received HTML response but could not extract authentication URL");
                           ("details", VStr (Str.substring0 200 textResponse))])])).

(** The end of the wallet handler (lines 569-647). *)
Definition applepay_outcome (orderData order_id : value) (paymentResponse : response)
  : result reply :=
  if is_json paymentResponse then
    match json_of paymentResponse with
    | inl e => inl e
    | inr paymentResponseData =>
        match redirect_url paymentResponseData with
        | inl e => inl e
        | inr (Some url) =>
            inr (respond 200
                   (VObj [("id", Js.prop paymentResponseData "razorpay_payment_id");
                          ("status", VStr "created");
                          ("order_id", order_id);
                          ("apple_pay_url", url);
                          ("requires_apple_pay", VBool true);
                          ("message",
                           VStr "Redirect user to apple_pay_url to complete payment")]))
        | inr None =>
            if negb (ok paymentResponse) then
              inr (respond (status paymentResponse) paymentResponseData)
            else
              inr (respond 200
                     (VObj (Js.set "order" orderData (Js.spread paymentResponseData))))
        end
    end
  else
    let textResponse := text paymentResponse in
    let applePayUrl := redirect_target textResponse in
    let paymentId := payment_id_of applePayUrl in
    if Js.truthy applePayUrl then
      inr (respond 200
             (VObj [("id", paymentId);
                    ("status", VStr "created");
                    ("order_id", order_id);
                    ("apple_pay_url", applePayUrl);
                    ("requires_apple_pay", VBool true);
                    ("message",
                     VStr "Redirect user to apple_pay_url to complete payment")]))
    else
      inr (respond (status paymentResponse)
             (VObj [("error",
                     VObj [("code", VStr "INVALID_RESPONSE");
                           ("description",
                            VStr "Received HTML response but could not extract Apple Pay URL");
                           ("details", VStr (Str.substring0 200 textResponse))])])).

(** [app.post('/api/create-payment', ...)]; the argument is [req.body]. *)
Definition create_payment (w : World) (req_body : value) : list call * reply :=
  try_catch
    (amount <- lift (Js.get req_body "amount") ;;
     let currency := Js.prop req_body "currency" in
     let country := Js.prop req_body "country" in
     let method := Js.prop req_body "method" in
     let card := Js.prop req_body "card" in
     if negb (Js.truthy amount) || negb (Js.truthy currency)
        || negb (Js.truthy method) || negb (Js.truthy card)
        || negb (Js.truthy country)
     then
       ret (respond 400
              (VObj [("error",
                      VObj [("code", VStr "BAD_REQUEST");
                            ("description",
                             VStr "Missing required fields: amount, currency, country, method, card")])]))
     else
       auth <- lift (getAuthHeader w country) ;;
       orderResponse <-
         fetch w (Call (API_BASE_URL ++ "/orders") auth
                    (Js.stringify
                       (VObj [("amount", amount);
                              ("currency", currency);
                              ("receipt", VStr ("s2s_" ++ Js.decimal (now w)));
                              ("notes", VObj [("integration", VStr "s2s_card")])]))) ;;
       orderData <- lift (json_of orderResponse) ;;
       if negb (ok orderResponse) then
         ret (respond (status orderResponse) orderData)
       else
         order_id <- lift (Js.get orderData "id") ;;
         expiryYear <- lift (four_digit_year (Js.prop card "expiry_year")) ;;
         let paymentRequest := card_paymentRequest req_body order_id expiryYear in
         lift (slice_last4 (Js.prop card "number")) ;;;
         auth <- lift (getAuthHeader w country) ;;
         paymentResponse <-
           fetch w (Call (API_BASE_URL ++ "/payments/create/json") auth
                      (Js.stringify (VObj paymentRequest))) ;;
         lift (card_outcome orderData order_id paymentResponse))
    (catch_payment_failed w).

(** [app.post('/api/create-applepay-payment', ...)]; the argument is
    [req.body]. *)
Definition create_applepay_payment (w : World) (req_body : value) : list call * reply :=
  try_catch
    (amount <- lift (Js.get req_body "amount") ;;
     let currency := Js.prop req_body "currency" in
     let country := Js.prop req_body "country" in
     if negb (Js.truthy amount) || negb (Js.truthy currency)
        || negb (Js.truthy country)
     then
       ret (respond 400
              (VObj [("error",
                      VObj [("code", VStr "BAD_REQUEST");
                            ("description",
                             VStr "Missing required fields: amount, currency, country")])]))
     else
       auth <- lift (getAuthHeader w country) ;;
       orderResponse <-
         fetch w (Call (API_BASE_URL ++ "/orders") auth
                    (Js.stringify
                       (VObj [("amount", amount);
                              ("currency", currency);
                              ("receipt", VStr ("s2s_applepay_" ++ Js.decimal (now w)));
                              ("notes", VObj [("integration", VStr "s2s_applepay")])]))) ;;
       orderData <- lift (json_of orderResponse) ;;
       if negb (ok orderResponse) then
         ret (respond (status orderResponse) orderData)
       else
         order_id <- lift (Js.get orderData "id") ;;
         let paymentRequest := applepay_paymentRequest req_body order_id in
         auth <- lift (getAuthHeader w country) ;;
         paymentResponse <-
           fetch w (Call (API_BASE_URL ++ "/payments/create/json") auth
                      (Js.stringify paymentRequest)) ;;
         lift (applepay_outcome orderData order_id paymentResponse))
    (catch_payment_failed w).

End Server.

(** ** api/create-payment.js and api/create-applepay-payment.js *)

Module Api.

Definition RAZORPAY_API_BASE : string := "https://api.razorpay.com".

Definition RAZORPAY_CONFIGS (w : World) : list (string * value) :=
  [("MY", region (env_value w "RAZORPAY_KEY_ID_MY")
                 (env_value w "RAZORPAY_KEY_SECRET_MY") "MYR");
   ("SG", region (env_value w "RAZORPAY_KEY_ID_SG")
                 (env_value w "RAZORPAY_KEY_SECRET_SG") "SGD");
   ("US", region (env_value w "RAZORPAY_KEY_ID_US")
                 (env_value w "RAZORPAY_KEY_SECRET_US") "USD");
   ("IN", region (env_value w "RAZORPAY_KEY_ID_IN")
                 (env_value w "RAZORPAY_KEY_SECRET_IN") "INR")].

(** [const config = RAZORPAY_CONFIGS[country];
     if (!config || !config.keyId || !config.keySecret) ...]:
    the configuration, or [None] where the handler answers 400. *)
Definition resolve (w : World) (country : value) : result (option value) :=
  match index (RAZORPAY_CONFIGS w) country with
  | inl e => inl e
  | inr config =>
      if negb (Js.truthy config) || negb (Js.truthy (Js.prop config "keyId"))
         || negb (Js.truthy (Js.prop config "keySecret"))
      then inr None
      else inr (Some config)
  end.

Definition invalid_country : reply :=
  respond 400
    (VObj [("error",
            VObj [("description", VStr "Invalid country or missing credentials")])]).

Definition catch_error (w : World) (e : exn) : reply :=
  respond 500 (VObj [("error", VObj [("description", VStr (message w e))])]).

(** The method dispatch that opens both handlers. *)
Definition post_only (req : request) (handle : list call * reply) : list call * reply :=
  if String.eqb (http_method req) "OPTIONS" then ([], Reply 200 None)
  else if negb (String.eqb (http_method req) "POST") then
    ([], respond 405 (VObj [("error", VStr "Method not allowed")]))
  else handle.

(** The value captured by [/url=([^DQ]+)DQ/] when [urlMatch && urlMatch[1]]
    holds. *)
Definition redirect_target (htmlText : string) : option string :=
  match Regex.exec Regex.url_target_quoted htmlText with
  | Some u => if Js.truthy (VStr u) then Some u else None
  | None => None
  end.

(** [paymentIdMatch ? paymentIdMatch[1] : 'unknown'] *)
Definition payment_id_of (htmlText : string) : value :=
  match Regex.exec Regex.payment_id_key htmlText with
  | Some i => VStr i
  | None => VStr "unknown"
  end.

(** The [paymentPayload] object of api/create-payment.js (lines 77-94). *)
Definition card_paymentPayload (req_body order_id : value) : list (string * value) :=
  let paymentPayload :=
    [("amount", Js.prop req_body "amount");
     ("currency", Js.prop req_body "currency");
     ("order_id", order_id);
     ("method", Js.prop req_body "method");
     ("card", Js.prop req_body "card");
     ("contact", Js.prop req_body "contact");
     ("email", Js.prop req_body "email");
     ("authentication", Js.prop req_body "authentication");
     ("browser", Js.prop req_body "browser");
     ("ip", Js.prop req_body "ip");
     ("referer", Js.prop req_body "referer");
     ("user_agent", Js.prop req_body "user_agent")] in
  Js.set_if_truthy "device_fingerprint" (Js.prop req_body "device_fingerprint")
    paymentPayload.

(** The [paymentPayload] object of api/create-applepay-payment.js
    (lines 75-85). *)
Definition applepay_paymentPayload (req_body order_id : value) : value :=
  VObj [("amount", Js.prop req_body "amount");
        ("currency", Js.prop req_body "currency");
        ("order_id", order_id);
        ("method", VStr "card");
        ("app", VObj [("name", VStr "apple_pay")]);
        ("contact", Js.prop req_body "contact");
        ("email", Js.prop req_body "email")].

(** The end of api/create-payment.js, from the content-type test on the
    payment response to the reply (lines 105-144). *)
Definition card_outcome (paymentResponse : response) : result reply :=
  if is_json paymentResponse then
    match json_of paymentResponse with
    | inl e => inl e
    | inr paymentResponseData =>
        match redirect_url paymentResponseData with
        | inl e => inl e
        | inr (Some url) =>
            inr (respond 200
                   (VObj [("id", Js.prop paymentResponseData "razorpay_payment_id");
                          ("authentication",
                           VObj [("authentication_url", url)])]))
        | inr None => inr (respond 200 paymentResponseData)
        end
    end
  else
    let htmlText := text paymentResponse in
    match redirect_target htmlText with
    | Some authUrl =>
        inr (respond 200
               (VObj [("id", payment_id_of htmlText);
                      ("authentication",
                       VObj [("authentication_url", VStr authUrl)])]))
    | None =>
        inr (respond 500
               (VObj [("error",
                       VObj [("description",
                              VStr "Failed to parse payment response")])]))
    end.

(** The end of api/create-applepay-payment.js (lines 96-133). *)
Definition applepay_outcome (paymentResponse : response) : result reply :=
  if is_json paymentResponse then
    match json_of paymentResponse with
    | inl e => inl e
    | inr paymentResponseData =>
        match redirect_url paymentResponseData with
        | inl e => inl e
        | inr (Some url) =>
            inr (respond 200
                   (VObj [("id", Js.prop paymentResponseData "razorpay_payment_id");
                          ("apple_pay_url", url);
                          ("requires_apple_pay", VBool true)]))
        | inr None => inr (respond 200 paymentResponseData)
        end
    end
  else
    let htmlText := text paymentResponse in
    match redirect_target htmlText with
    | Some applePayUrl =>
        inr (respond 200
               (VObj [("id", payment_id_of htmlText);
                      ("apple_pay_url", VStr applePayUrl);
                      ("requires_apple_pay", VBool true)]))
    | None =>
        inr (respond 500
               (VObj [("error",
                       VObj [("description",
                              VStr "Failed to parse Apple Pay response")])]))
    end.

(** [module.exports] of api/create-payment.js *)
Definition create_payment (w : World) (req : request) : list call * reply :=
  post_only req
    (try_catch
       (amount <- lift (Js.get (body req) "amount") ;;
        let currency := Js.prop (body req) "currency" in
        let country := Js.prop (body req) "country" in
        resolved <- lift (resolve w country) ;;
        match resolved with
        | None => ret invalid_country
        | Some config =>
            cred <- lift (credentials config) ;;
            let auth := "Basic " ++ base64 w cred in
            let orderPayload :=
              VObj [("amount", amount);
                    ("currency", currency);
                    ("payment_capture", VNum 1)] in
            orderResponse <-
              fetch w (Call (RAZORPAY_API_BASE ++ "/v1/orders") auth
                         (Js.stringify orderPayload)) ;;
            orderData <- lift (json_of orderResponse) ;;
            if negb (ok orderResponse) then
              ret (respond (status orderResponse) orderData)
            else
              order_id <- lift (Js.get orderData "id") ;;
              let paymentPayload := card_paymentPayload (body req) order_id in
              paymentResponse <-
                fetch w (Call (RAZORPAY_API_BASE ++ "/v1/payments/create/json") auth
                           (Js.stringify (VObj paymentPayload))) ;;
              lift (card_outcome paymentResponse)
        end)
       (catch_error w)).

(** [module.exports] of api/create-applepay-payment.js *)
Definition create_applepay_payment (w : World) (req : request) : list call * reply :=
  post_only req
    (try_catch
       (amount <- lift (Js.get (body req) "amount") ;;
        let currency := Js.prop (body req) "currency" in
        let country := Js.prop (body req) "country" in
        resolved <- lift (resolve w country) ;;
        match resolved with
        | None => ret invalid_country
        | Some config =>
            cred <- lift (credentials config) ;;
            let auth := "Basic " ++ base64 w cred in
            let orderPayload :=
              VObj [("amount", amount);
                    ("currency", currency);
                    ("payment_capture", VNum 1)] in
            orderResponse <-
              fetch w (Call (RAZORPAY_API_BASE ++ "/v1/orders") auth
                         (Js.stringify orderPayload)) ;;
            orderData <- lift (json_of orderResponse) ;;
            if negb (ok orderResponse) then
              ret (respond (status orderResponse) orderData)
            else
              order_id <- lift (Js.get orderData "id") ;;
              let paymentPayload := applepay_paymentPayload (body req) order_id in
              paymentResponse <-
                fetch w (Call (RAZORPAY_API_BASE ++ "/v1/payments/create/json") auth
                           (Js.stringify paymentPayload)) ;;
              lift (applepay_outcome paymentResponse)
        end)
       (catch_error w)).

End Api.

(** ** server.js: the merchant-validation route and the health endpoint *)

Module Merchant.

(** [validationURL.substring(0, 50)], evaluated for the log line; only
    strings have a [substring] method. *)
Definition substring_50 (validationURL : value) : result unit :=
  match validationURL with
  | VUndef | VNull => inl (TypeError_read validationURL "substring")
  | VStr _ => inr tt
  | _ => inl (TypeError_call "substring")
  end.

(** [data.error?.description] *)
Definition error_description (data : value) : result value :=
  match Js.get data "error" with
  | inl e => inl e
  | inr err => if Js.is_nullish err then inr VUndef else inr (Js.prop err "description")
  end.

(** [throw new Error(m)]: the message is the string of [m]. *)
Definition throw_Error {A} (m : value) : result A :=
  match Js.to_string m with
  | inl e => inl e
  | inr s => inl (Error s)
  end.

(** The [validationRequest] object (lines 406-418). *)
Definition validationRequest (req_body : value) : value :=
  VObj [("method", VStr "app");
        ("amount", Js.prop req_body "amount");
        ("contact", VStr "+910000000000");
        ("email", VStr "applepay@example.com");
        ("currency", Js.prop req_body "currency");
        ("app", VObj [("name", VStr "apple_pay")]);
        ("initiative_context_url", Js.prop req_body "domain");
        ("merchant_validation_url", Js.prop req_body "validationURL");
        ("save", VNum 0)].

(** The end of the route, from the status test on the gateway's answer to
    the reply (lines 433-449). *)
Definition session_of (response : response) (data : value) : result reply :=
  if negb (ok response) then
    match error_description data with
    | inl e => inl e
    | inr d => throw_Error (Js.or_else d (VStr "Merchant validation failed"))
    end
  else
    match Js.get data "data" with
    | inl e => inl e
    | inr inner =>
        if negb (Js.truthy inner) || negb (Js.truthy (Js.prop inner "session_data"))
        then inl (Error "No merchant session received from Razorpay")
        else inr (respond 200 (Js.prop inner "session_data"))
    end.

Definition catch_validation_failed (w : World) (e : exn) : reply :=
  respond 500 (VObj [("error", VObj [("code", VStr "VALIDATION_FAILED");
                                     ("description", VStr (message w e))])]).

(** [app.post('/api/validate-apple-merchant', ...)]; the argument is
    [req.body]. *)
Definition validate_apple_merchant (w : World) (req_body : value) : list call * reply :=
  try_catch
    (validationURL <- lift (Js.get req_body "validationURL") ;;
     let domain := Js.prop req_body "domain" in
     let amount := Js.prop req_body "amount" in
     let currency := Js.prop req_body "currency" in
     if negb (Js.truthy validationURL) || negb (Js.truthy domain)
        || negb (Js.truthy amount) || negb (Js.truthy currency)
     then
       ret (respond 400
              (VObj [("error",
                      VObj [("code", VStr "BAD_REQUEST");
                            ("description",
                             VStr "Missing required fields: validationURL, domain, amount, currency")])]))
     else
       lift (substring_50 validationURL) ;;;
       auth <- lift (Server.getAuthHeader w VUndef) ;;
       response <-
         fetch w (Call (Server.API_BASE_URL ++ "/payments/create/ajax") auth
                    (Js.stringify (validationRequest req_body))) ;;
       data <- lift (json_of response) ;;
       lift (session_of response data))
    (catch_validation_failed w).

End Merchant.

Module Health.

(** One entry of [configuredCountries] (lines 667-671). *)
Definition country_entry (config : value) : value :=
  VObj [("configured", VBool (Js.truthy (Js.prop config "keySecret")));
        ("keyId", Js.prop config "keyId");
        ("currency", Js.prop config "currency")].

(** [app.get('/health', ...)] of server.js; [timestamp] is
    [new Date().toISOString()]. *)
Definition server_health (w : World) (timestamp : string) : reply :=
  respond 200
    (VObj [("status", VStr "ok");
           ("timestamp", VStr timestamp);
           ("countries",
            VObj (map (fun kv => (fst kv, country_entry (snd kv)))
                    (Server.RAZORPAY_CONFIGS w)))]).

(** [!!process.env.ID && !!process.env.SECRET] *)
Definition both_set (w : World) (id secret : string) : value :=
  VBool (Js.truthy (env_value w id) && Js.truthy (env_value w secret)).

(** [module.exports] of the serverless health function; [timestamp] is
    [new Date().toISOString()]. *)
Definition api_health (w : World) (timestamp : string) : reply :=
  respond 200
    (VObj [("status", VStr "ok");
           ("message", VStr "Razorpay S2S Payment API");
           ("timestamp", VStr timestamp);
           ("environment",
            if Js.truthy (env_value w "VERCEL") then VStr "vercel" else VStr "local");
           ("configured_geographies",
            VObj [("MY", both_set w "RAZORPAY_KEY_ID_MY" "RAZORPAY_KEY_SECRET_MY");
                  ("SG", both_set w "RAZORPAY_KEY_ID_SG" "RAZORPAY_KEY_SECRET_SG");
                  ("US", both_set w "RAZORPAY_KEY_ID_US" "RAZORPAY_KEY_SECRET_US");
                  ("IN", both_set w "RAZORPAY_KEY_ID_IN" "RAZORPAY_KEY_SECRET_IN")])]).

End Health.

(** * Vocabulary of the statements, concrete worlds and requests *)

(** ** Concrete worlds *)

Module Demo.

Definition dq : string := String Regex.dquote EmptyString.

(** [process.env] holding exactly the listed variables. *)
Definition env_with (vars : list (string * string)) (k : string) : option string :=
  (fix find (l : list (string * string)) : option string :=
     match l with
     | [] => None
     | (k', v) :: r => if String.eqb k k' then Some v else find r
     end) vars.

Definition india : list (string * string) :=
  [("RAZORPAY_KEY_ID_IN", "rzp_in"); ("RAZORPAY_KEY_SECRET_IN", "secret_in")].

(** A gateway that answers the order endpoint with [order] and the payment
    endpoint with [payment], on either base URL. *)
Definition gateway_of (order payment : fetched) (c : call) : fetched :=
  if String.eqb (endpoint c) "https://api.razorpay.com/v1/orders" then order
  else if String.eqb (endpoint c) "https://api.razorpay.com/v1/payments/create/json"
       then payment
       else Unreachable "no such endpoint".

Definition world (vars : list (string * string)) (order payment : fetched) : World :=
  {| env := env_with vars;
     gateway := gateway_of order payment;
     now := 1700000000000;
     base64 := fun s => s;
     engine_message := fun _ => "runtime error" |}.

Definition json_response (st : Z) (doc : value) : response :=
  Response st (Some "application/json; charset=utf-8") "" (Some doc).

Definition html_response (st : Z) (html : string) : response :=
  Response st (Some "text/html; charset=UTF-8") html None.

(** The document of an accepted order. *)
Definition order_doc : value := VObj [("id", VStr "order_abc")].

Definition order_abc : fetched := Answer (json_response 200 order_doc).

(** A 502 page of a proxy in front of the gateway. *)
Definition bad_gateway : response :=
  html_response 502 "<html><body>502 Bad Gateway</body></html>".

Definition card (year : string) : value :=
  VObj [("number", VStr "4111111111111111"); ("name", VStr "A");
        ("expiry_month", VStr "12"); ("expiry_year", VStr year);
        ("cvv", VStr "123")].

Definition card_request (country : string) (card : value) : value :=
  VObj [("amount", VNum 1000); ("currency", VStr "INR");
        ("country", VStr country); ("method", VStr "card"); ("card", card)].

Definition post (b : value) : request := Request "POST" b.

(** India configured; the gateway accepts the order and completes the
    payment. *)
Definition w_india : World :=
  world india order_abc
    (Answer (json_response 200
               (VObj [("razorpay_payment_id", VStr "pay_1");
                      ("status", VStr "captured")]))).

End Demo.

(** ** JSON documents *)

(** A value that was parsed from JSON holds no [undefined]. *)
Fixpoint document (v : value) : bool :=
  match v with
  | VUndef => false
  | VArr l => forallb document l
  | VObj fs => forallb (fun kv => document (snd kv)) fs
  | _ => true
  end.

(** Induction on values through the items of arrays and the fields of
    objects. *)
Section ValueInduction.

Variable P : value -> Prop.
Hypothesis P_undef : P VUndef.
Hypothesis P_null : P VNull.
Hypothesis P_bool : forall b, P (VBool b).
Hypothesis P_num : forall n, P (VNum n).
Hypothesis P_str : forall s, P (VStr s).
Hypothesis P_arr : forall l, Forall P l -> P (VArr l).
Hypothesis P_obj : forall fs, Forall (fun kv => P (snd kv)) fs -> P (VObj fs).

Fixpoint value_nested_ind (v : value) : P v :=
  match v with
  | VUndef => P_undef
  | VNull => P_null
  | VBool b => P_bool b
  | VNum n => P_num n
  | VStr s => P_str s
  | VArr l =>
      P_arr l
        ((fix items (l : list value) : Forall P l :=
            match l with
            | [] => Forall_nil _
            | x :: r => Forall_cons x (value_nested_ind x) (items r)
            end) l)
  | VObj fs =>
      P_obj fs
        ((fix fields (fs : list (string * value))
            : Forall (fun kv => P (snd kv)) fs :=
            match fs with
            | [] => Forall_nil _
            | kv :: r => Forall_cons kv (value_nested_ind (snd kv)) (fields r)
            end) fs)
  end.

End ValueInduction.

(** ** Predicates of the statements *)

(** No proper suffix of the literal is a prefix of it: a match of the
    literal cannot begin before an occurrence and end inside it. *)
Definition unbordered (L : string) : Prop :=
  forall pre X, pre <> "" -> Str.starts_with L pre = false ->
    Str.starts_with L (pre ++ L ++ X) = false.

(** The two endpoints of the gateway, the same in server.js and in the api
    handlers. *)
Definition orders_url : string := "https://api.razorpay.com/v1/orders".
Definition payments_url : string := "https://api.razorpay.com/v1/payments/create/json".

(** The gateway answers every call to [ep] with [r]. *)
Definition answers (w : World) (ep : string) (r : response) : Prop :=
  forall c, endpoint c = ep -> gateway w c = Answer r.

(** The reply of a handler whose last step returned or threw. *)
Definition finish (handler : exn -> reply) (r : result reply) : reply :=
  match r with
  | inr x => x
  | inl e => handler e
  end.

(** The required fields of the card route are all truthy. *)
Definition card_fields (req_body : value) : Prop :=
  Js.truthy (Js.prop req_body "amount") = true /\
  Js.truthy (Js.prop req_body "currency") = true /\
  Js.truthy (Js.prop req_body "method") = true /\
  Js.truthy (Js.prop req_body "card") = true /\
  Js.truthy (Js.prop req_body "country") = true.

(** The required fields of the wallet route are all truthy. *)
Definition applepay_fields (req_body : value) : Prop :=
  Js.truthy (Js.prop req_body "amount") = true /\
  Js.truthy (Js.prop req_body "currency") = true /\
  Js.truthy (Js.prop req_body "country") = true.

(** A request that gets past the method dispatch and the region check of
    the serverless handlers. *)
Definition api_ready (w : World) (req : request) (cred : string) : Prop :=
  http_method req = "POST" /\
  Js.is_nullish (body req) = false /\
  exists config,
    Api.resolve w (Js.prop (body req) "country") = inr (Some config) /\
    credentials config = inr cred.

(** The regions of the table. *)
Definition known_region (c : string) : bool :=
  existsb (String.eqb c) ["MY"; "SG"; "US"; "IN"].

(** The environment variable is set to a non-empty string. *)
Definition is_set (w : World) (k : string) : bool :=
  match env w k with
  | Some s => negb (Str.is_empty s)
  | None => false
  end.

Definition has_id (w : World) (c : string) : bool :=
  is_set w ("RAZORPAY_KEY_ID_" ++ c).

Definition has_secret (w : World) (c : string) : bool :=
  is_set w ("RAZORPAY_KEY_SECRET_" ++ c).

(** What [getAuthHeader] and [getConfig] throw. *)
Definition unconfigured (c : string) : exn :=
  Error ("Invalid or unconfigured country: " ++ c).

(** ** Requests, answers and worlds of the examples *)

Module C3.

(** India with its secret but without an identifier. *)
Definition w_secret_only : World :=
  Demo.world [("RAZORPAY_KEY_SECRET_IN", "secret_in")] Demo.order_abc Demo.order_abc.

Definition request_FR : value := Demo.card_request "FR" (Demo.card "2027").

End C3.

(** A property of the document a handler replied with. *)
Definition field (r : reply) (k : string) : value :=
  match payload r with
  | Some v => Js.prop v k
  | None => VUndef
  end.

(** The status a handler's last step replied with, when it did not throw. *)
Definition code_of (r : result reply) : option Z :=
  match r with
  | inr x => Some (code x)
  | inl _ => None
  end.

(** A property of the document a handler's last step replied with. *)
Definition field_of (r : result reply) (k : string) : value :=
  match r with
  | inr x => field x k
  | inl _ => VUndef
  end.

(** An entry of [next] that [find] steps over: an object (or any value but
    null) whose action is not "redirect". *)
Definition passed_over (entry : value) : Prop :=
  Js.is_nullish entry = false /\
  Js.is_string "redirect" (Js.prop entry "action") = false.

Module C1.

Definition redirect (url : string) : value :=
  VObj [("action", VStr "redirect"); ("url", VStr url)].

(** A JSON payment response with status 402 whose second next-action is a
    redirect. *)
Definition step_up : value :=
  VObj [("razorpay_payment_id", VStr "pay_1");
        ("next", VArr [VObj [("action", VStr "otp_generate")];
                       redirect "https://x/y"])].

(** A redirect entry without url ahead of one with a url. *)
Definition shadowed : value :=
  VObj [("razorpay_payment_id", VStr "pay_1");
        ("next", VArr [redirect ""; redirect "https://x/y"])].

End C1.

(** The order call was answered with a success status and a JSON body. *)
Definition order_accepted (w : World) (oc : call) : Prop :=
  endpoint oc = orders_url /\
  exists ro orderData,
    gateway w oc = Answer ro /\ ok ro = true /\ json ro = Some orderData.

(** The shapes of a handler's log: no call, the order call alone, or an
    accepted order call followed by the payment call. *)
Definition gated (w : World) (log : list call) : Prop :=
  log = [] \/
  (exists oc, log = [oc] /\ endpoint oc = orders_url) \/
  (exists oc pc, log = [oc; pc] /\ order_accepted w oc /\ endpoint pc = payments_url).

(** The order answer carries a status outside 200..299 and a JSON document. *)
Definition order_refused (w : World) (ro : response) (payload : value) : Prop :=
  answers w orders_url ro /\ ok ro = false /\
  json ro = Some payload /\ document payload = true.

Module C2.

Definition bad_amount : value :=
  VObj [("error", VObj [("code", VStr "BAD_REQUEST_ERROR");
                        ("description", VStr "The amount must be atleast INR 1.00")])].

(** The gateway refuses the order with status 400. *)
Definition w_refused : World :=
  Demo.world Demo.india (Answer (Demo.json_response 400 bad_amount)) Demo.order_abc.

(** The gateway accepts the order with a document that holds no id. *)
Definition w_no_id : World :=
  Demo.world Demo.india (Answer (Demo.json_response 200 (VObj []))) Demo.order_abc.

(** The order call is answered 502 with a page that is no JSON document. *)
Definition w_bad_gateway : World :=
  Demo.world Demo.india
    (Answer (Demo.html_response 502 "<html>502 Bad Gateway</html>")) Demo.order_abc.

Definition request : value := Demo.card_request "IN" (Demo.card "2027").

End C2.

Module C10.

Definition card_without_year : value :=
  VObj [("number", VStr "4111111111111111"); ("name", VStr "A");
        ("expiry_month", VStr "12"); ("cvv", VStr "123")].

Definition request : value := Demo.card_request "IN" card_without_year.

Definition refused : value :=
  VObj [("error", VObj [("code", VStr "BAD_REQUEST_ERROR");
                        ("description", VStr "The amount must be atleast INR 1.00")])].

(** India configured; the gateway refuses the order with status 400 and a
    JSON error document. *)
Definition w_order_refused : World :=
  Demo.world Demo.india (Answer (Demo.json_response 400 refused)) Demo.order_abc.

(** No region configured. *)
Definition w_unconfigured : World := Demo.world [] Demo.order_abc Demo.order_abc.

End C10.

Module C5.

Definition request (year : string) : value := Demo.card_request "IN" (Demo.card year).

End C5.

Module C8.

(** A wallet request that supplies an empty contact and an empty email. *)
Definition request_empty : value :=
  VObj [("amount", VNum 1000); ("currency", VStr "INR"); ("country", VStr "IN");
        ("contact", VStr ""); ("email", VStr "")].

(** A wallet request that supplies a contact and no email. *)
Definition request_contact : value :=
  VObj [("amount", VNum 1000); ("currency", VStr "INR"); ("country", VStr "IN");
        ("contact", VStr "+919999999999")].

End C8.

Module C9.

Definition captured : value :=
  VObj [("razorpay_payment_id", VStr "pay_1"); ("status", VStr "captured")].

Definition request : value := Demo.card_request "IN" (Demo.card "2027").

End C9.

(** [cap] is the non-empty run of characters other than [stop] that follows
    the first occurrence of [lit] in [s], up to the next [stop] or to the
    end of [s]. *)
Definition first_capture (lit : string) (stop : ascii) (s cap : string) : Prop :=
  exists pre post,
    s = pre ++ lit ++ cap ++ post /\
    Str.includes pre lit = false /\
    cap <> "" /\
    Str.all_chars (Regex.not_char stop) cap = true /\
    Str.stops_at (Ascii.eqb stop) post = true.

(** The same, and the run does end at a [stop]. *)
Definition first_capture_closed (lit : string) (stop : ascii) (s cap : string) : Prop :=
  exists pre post,
    s = pre ++ lit ++ cap ++ String stop post /\
    Str.includes pre lit = false /\
    cap <> "" /\
    Str.all_chars (Regex.not_char stop) cap = true.

Module C6.

(** The reply of the card route of server.js to a redirect page. *)
Definition server_card_reply (id order_id : value) (target : string) : reply :=
  respond 200
    (VObj [("id", id);
           ("status", VStr "authorized");
           ("order_id", order_id);
           ("authentication", VObj [("authentication_url", VStr target)]);
           ("requires_3ds", VBool true)]).

(** The reply of the wallet route of server.js to a redirect page. *)
Definition server_applepay_reply (id order_id : value) (target : string) : reply :=
  respond 200
    (VObj [("id", id);
           ("status", VStr "created");
           ("order_id", order_id);
           ("apple_pay_url", VStr target);
           ("requires_apple_pay", VBool true);
           ("message", VStr "Redirect user to apple_pay_url to complete payment")]).

(** The reply of api/create-payment.js to a redirect page. *)
Definition api_card_reply (id : value) (target : string) : reply :=
  respond 200
    (VObj [("id", id);
           ("authentication", VObj [("authentication_url", VStr target)])]).

(** The reply of api/create-applepay-payment.js to a redirect page. *)
Definition api_applepay_reply (id : value) (target : string) : reply :=
  respond 200
    (VObj [("id", id);
           ("apple_pay_url", VStr target);
           ("requires_apple_pay", VBool true)]).

(** A meta-refresh page that sends the browser to [target]. *)
Definition page (target : string) : string :=
  "<meta http-equiv=" ++ Demo.dq ++ "refresh" ++ Demo.dq
  ++ " content=" ++ Demo.dq ++ "0;url=" ++ target ++ Demo.dq ++ ">".

Definition page_head : string :=
  "<meta http-equiv=" ++ Demo.dq ++ "refresh" ++ Demo.dq
  ++ " content=" ++ Demo.dq ++ "0;".

(** The target of the specification's example, with a query string. *)
Definition with_query : string := "https://example.com/payments/pay_123?x=1".

(** A target whose payment identifier is a path segment of its own. *)
Definition authenticate : string := "https://api.x/payments/pay_2/authenticate".

(** A target without a payments segment. *)
Definition hosted : string := "https://example.com/hosted/abc".

End C6.

Module C4.

Definition declined : value :=
  VObj [("error", VObj [("code", VStr "BAD_REQUEST_ERROR");
                        ("description", VStr "Your payment was declined")])].

(** The order is accepted; the payment is refused with status 400 and a
    JSON error document. *)
Definition w_declined : World :=
  Demo.world Demo.india Demo.order_abc (Answer (Demo.json_response 400 declined)).

Definition request : value := Demo.card_request "IN" (Demo.card "2027").

Definition wallet_request : value :=
  VObj [("amount", VNum 1000); ("currency", VStr "INR"); ("country", VStr "IN")].

(** The order itself is refused with status 400 and the same document. *)
Definition w_order_declined : World :=
  Demo.world Demo.india (Answer (Demo.json_response 400 declined)) Demo.order_abc.

End C4.

(** ** The calls of the handlers *)

(** The order call of the card route of server.js. *)
Definition server_card_order (w : World) (req_body : value) (auth : string) : call :=
  Call orders_url auth
    (Js.stringify
       (VObj [("amount", Js.prop req_body "amount");
              ("currency", Js.prop req_body "currency");
              ("receipt", VStr ("s2s_" ++ Js.decimal (now w)));
              ("notes", VObj [("integration", VStr "s2s_card")])])).

(** The payment call of the card route of server.js. *)
Definition server_card_pay (req_body : value) (auth : string) (order_id year : value)
  : call :=
  Call payments_url auth
    (Js.stringify (VObj (Server.card_paymentRequest req_body order_id year))).

(** The order call of the wallet route of server.js. *)
Definition server_applepay_order (w : World) (req_body : value) (auth : string) : call :=
  Call orders_url auth
    (Js.stringify
       (VObj [("amount", Js.prop req_body "amount");
              ("currency", Js.prop req_body "currency");
              ("receipt", VStr ("s2s_applepay_" ++ Js.decimal (now w)));
              ("notes", VObj [("integration", VStr "s2s_applepay")])])).

(** The payment call of the wallet route of server.js. *)
Definition server_applepay_pay (req_body : value) (auth : string) (order_id : value)
  : call :=
  Call payments_url auth
    (Js.stringify (Server.applepay_paymentRequest req_body order_id)).

(** The order call of the two api handlers. *)
Definition api_order (req_body : value) (auth : string) : call :=
  Call orders_url auth
    (Js.stringify
       (VObj [("amount", Js.prop req_body "amount");
              ("currency", Js.prop req_body "currency");
              ("payment_capture", VNum 1)])).

(** The payment call of api/create-payment.js. *)
Definition api_card_pay (req_body : value) (auth : string) (order_id : value) : call :=
  Call payments_url auth
    (Js.stringify (VObj (Api.card_paymentPayload req_body order_id))).

(** The payment call of api/create-applepay-payment.js. *)
Definition api_applepay_pay (req_body : value) (auth : string) (order_id : value)
  : call :=
  Call payments_url auth
    (Js.stringify (Api.applepay_paymentPayload req_body order_id)).

(** The endpoint of the merchant-validation route. *)
Definition ajax_url : string := "https://api.razorpay.com/v1/payments/create/ajax".

(** The call of the merchant-validation route. *)
Definition merchant_call (req_body : value) (auth : string) : call :=
  Call ajax_url auth (Js.stringify (Merchant.validationRequest req_body)).

(** A log that begins with the call [order]: that call alone, or that call,
    answered with a success status and a JSON document that is not null,
    followed by one payment call built from the id of that document. *)
Inductive after_order (w : World) (order : call) (pays : value -> call -> Prop)
  : list call -> Prop :=
| only_order : after_order w order pays [order]
| order_and_payment (ro : response) (orderData : value) (pc : call) :
    gateway w order = Answer ro -> ok ro = true -> json ro = Some orderData ->
    Js.is_nullish orderData = false ->
    pays (Js.prop orderData "id") pc ->
    after_order w order pays [order; pc].

(** The logs of the card route of server.js. *)
Definition server_card_log (w : World) (req_body : value) (log : list call) : Prop :=
  log = [] \/
  exists auth,
    Server.getAuthHeader w (Js.prop req_body "country") = inr auth /\
    after_order w (server_card_order w req_body auth)
      (fun order_id pc =>
         exists year,
           Server.four_digit_year (Js.prop (Js.prop req_body "card") "expiry_year")
           = inr year /\
           pc = server_card_pay req_body auth order_id year)
      log.

(** The logs of the wallet route of server.js. *)
Definition server_applepay_log (w : World) (req_body : value) (log : list call) : Prop :=
  log = [] \/
  exists auth,
    Server.getAuthHeader w (Js.prop req_body "country") = inr auth /\
    after_order w (server_applepay_order w req_body auth)
      (fun order_id pc => pc = server_applepay_pay req_body auth order_id)
      log.

(** The logs of an api handler whose payment call is built by [pay]. *)
Definition api_log (w : World) (req : request)
    (pay : value -> string -> value -> call) (log : list call) : Prop :=
  log = [] \/
  exists config cred,
    http_method req = "POST" /\
    Api.resolve w (Js.prop (body req) "country") = inr (Some config) /\
    credentials config = inr cred /\
    after_order w (api_order (body req) ("Basic " ++ base64 w cred))
      (fun order_id pc => pc = pay (body req) ("Basic " ++ base64 w cred) order_id)
      log.

(** ** Further predicates *)

(** The value of an environment variable, the empty string when it is not
    set. *)
Definition env_or (w : World) (k : string) : string :=
  match env w k with
  | Some s => s
  | None => ""
  end.

(** The Authorization header made of the identifier and the secret of
    region [r]. *)
Definition region_header (w : World) (r : string) : string :=
  "Basic " ++ base64 w (env_or w ("RAZORPAY_KEY_ID_" ++ r) ++ ":"
                        ++ env_or w ("RAZORPAY_KEY_SECRET_" ++ r)).

(** The gateway cannot be reached at [ep]. *)
Definition unreachable (w : World) (ep reason : string) : Prop :=
  forall c, endpoint c = ep -> gateway w c = Unreachable reason.

(** The names that the card route of server.js copies into the payment
    request only when their value is truthy. *)
Definition optional_names : list string :=
  ["authentication"; "browser"; "device_fingerprint"; "ip"; "referer"; "user_agent"].

(** The names that api/create-payment.js copies into the payment payload as
    they are. *)
Definition forwarded_names : list string :=
  ["amount"; "currency"; "method"; "card"; "contact"; "email";
   "authentication"; "browser"; "ip"; "referer"; "user_agent"].

(** The required fields of the merchant-validation route are all truthy. *)
Definition merchant_fields (req_body : value) : Prop :=
  Js.truthy (Js.prop req_body "validationURL") = true /\
  Js.truthy (Js.prop req_body "domain") = true /\
  Js.truthy (Js.prop req_body "amount") = true /\
  Js.truthy (Js.prop req_body "currency") = true.

(** The validation errors of the three routes of server.js. *)
Definition bad_request (fields : string) : reply :=
  Reply 400
    (Some (VObj [("error",
                  VObj [("code", VStr "BAD_REQUEST");
                        ("description",
                         VStr ("Missing required fields: " ++ fields))])])).

(** The reply of a catch-all of server.js. *)
Definition failed (code_name description : string) : reply :=
  Reply 500
    (Some (VObj [("error",
                  VObj [("code", VStr code_name);
                        ("description", VStr description)])])).

(** The reply of the catch-all of an api handler. *)
Definition api_failed (description : string) : reply :=
  Reply 500 (Some (VObj [("error", VObj [("description", VStr description)])])).

(** What the two calls of one request have in common: amount and currency
    of the request in both, and in the payment call the id of the document
    that answered the order call. *)
Definition consistent (w : World) (req_body : value) (oc pc : call) : Prop :=
  (forall k, In k ["amount"; "currency"] ->
     Js.prop (sent oc) k = Js.stringify (Js.prop req_body k) /\
     Js.prop (sent pc) k = Js.stringify (Js.prop req_body k)) /\
  exists ro orderData,
    gateway w oc = Answer ro /\ json ro = Some orderData /\
    Js.prop (sent pc) "order_id" = Js.stringify (Js.prop orderData "id").

(** Two environments that agree on the identifiers of the four regions and
    on which secrets are set, and may differ in the values of the secrets. *)
Definition same_but_secrets (w1 w2 : World) : Prop :=
  forall r, known_region r = true ->
    env_or w1 ("RAZORPAY_KEY_ID_" ++ r) = env_or w2 ("RAZORPAY_KEY_ID_" ++ r) /\
    has_secret w1 r = has_secret w2 r.

(** Two environments that agree on which identifiers and secrets of the
    four regions are set and on whether VERCEL is set. *)
Definition same_flags (w1 w2 : World) : Prop :=
  is_set w1 "VERCEL" = is_set w2 "VERCEL" /\
  forall r, known_region r = true ->
    has_id w1 r = has_id w2 r /\ has_secret w1 r = has_secret w2 r.

(** The status [c] was received from the gateway in answer to a call of
    [log]. *)
Definition relayed (w : World) (log : list call) (c : Z) : Prop :=
  exists k r, In k log /\ gateway w k = Answer r /\ status r = c.

(** [log] is one call, which the gateway answered with the status [c],
    outside 200..299. *)
Definition refusal_relayed (w : World) (log : list call) (c : Z) : Prop :=
  exists k r, log = [k] /\ gateway w k = Answer r /\ ok r = false /\ status r = c.







Module Extra.

(** The gateway cannot be reached at all. *)
Definition w_down : World :=
  Demo.world Demo.india (Unreachable "connect ECONNREFUSED")
    (Unreachable "connect ECONNREFUSED").

(** The order is accepted, the payment endpoint cannot be reached. *)
Definition w_payment_down : World :=
  Demo.world Demo.india Demo.order_abc (Unreachable "socket hang up").

Definition card_request : value := Demo.card_request "IN" (Demo.card "2027").

(** A card request with a browser object, an empty ip and no other optional
    field. *)
Definition card_request_browser : value :=
  VObj [("amount", VNum 1000); ("currency", VStr "INR");
        ("country", VStr "IN"); ("method", VStr "card");
        ("card", Demo.card "2027");
        ("browser", VObj [("language", VStr "en")]);
        ("ip", VStr "")].

Definition wallet_request : value :=
  VObj [("amount", VNum 1000); ("currency", VStr "INR"); ("country", VStr "IN")].

(** Malaysia configured; the ajax endpoint answers like [answer]. *)
Definition merchant_world (answer : fetched) : World :=
  {| env := Demo.env_with [("RAZORPAY_KEY_ID_MY", "rzp_my");
                           ("RAZORPAY_KEY_SECRET_MY", "secret_my")];
     gateway := fun c => if String.eqb (endpoint c) ajax_url then answer
                         else Unreachable "no such endpoint";
     now := 1700000000000;
     base64 := fun s => s;
     engine_message := fun _ => "runtime error" |}.

Definition merchant_request : value :=
  VObj [("validationURL", VStr "https://apple-pay-gateway.apple.com/paymentservices/startSession");
        ("domain", VStr "shop.example");
        ("displayName", VStr "Shop");
        ("amount", VNum 1000); ("currency", VStr "MYR");
        ("country", VStr "IN")].

Definition session : value :=
  VObj [("merchantSessionIdentifier", VStr "SSH1");
        ("epochTimestamp", VNum 1700000000000)].

Definition session_answer : response :=
  Demo.json_response 200 (VObj [("data", VObj [("session_data", session)])]).

(** India configured as in [Demo.india], with another secret. *)
Definition w_other_secret : World :=
  Demo.world [("RAZORPAY_KEY_ID_IN", "rzp_in"); ("RAZORPAY_KEY_SECRET_IN", "rotated")]
    Demo.order_abc Demo.order_abc.

(** The order is accepted; the payment is answered with a document whose
    [next] holds null. *)
Definition w_null_entry : World :=
  Demo.world Demo.india Demo.order_abc
    (Answer (Demo.json_response 200 (VObj [("next", VArr [VNull])]))).

(** A proxy in front of the gateway answers the order call with a page. *)
Definition w_order_page : World :=
  Demo.world Demo.india (Answer Demo.bad_gateway) Demo.order_abc.

(** The gateway turns the merchant validation down. *)
Definition refusal_answer : response :=
  Demo.json_response 400
    (VObj [("error", VObj [("code", VStr "BAD_REQUEST_ERROR");
                           ("description", VStr "Apple Pay is not enabled")])]).

End Extra.

(** * Properties *)

(** ** JSON documents *)

(** What is sent as JSON and parsed again is the document itself. *)
Lemma stringify_document (v : value) :
  document v = true -> Js.stringify v = v.
Proof.
  induction v using value_nested_ind; simpl; intros D; try reflexivity.
  - f_equal. induction l as [|x r IH]; simpl in *; [reflexivity|].
    apply andb_true_iff in D as [Dx Dr]. inversion H; subst.
    rewrite IH by assumption.
    destruct x; try discriminate; f_equal; auto.
  - f_equal. induction fs as [|[k x] r IH]; simpl in *; [reflexivity|].
    apply andb_true_iff in D as [Dx Dr]. inversion H; subst. simpl in *.
    rewrite IH by assumption.
    destruct x; try discriminate; do 2 f_equal; auto.
Qed.

(** ** Objects *)

Lemma lookup_set_same k v fs : Js.lookup k (Js.set k v fs) = Some v.
Proof.
  induction fs as [|[k' x] fs IH]; simpl.
  - now rewrite String.eqb_refl.
  - destruct (String.eqb k k') eqn:E; simpl.
    + now rewrite String.eqb_refl.
    + now rewrite E.
Qed.

Lemma lookup_set_other k k' v fs :
  k <> k' -> Js.lookup k (Js.set k' v fs) = Js.lookup k fs.
Proof.
  intros N. apply String.eqb_neq in N.
  induction fs as [|[k2 x] fs IH]; simpl.
  - now rewrite N.
  - destruct (String.eqb k' k2) eqn:E; simpl.
    + apply String.eqb_eq in E; subst. now rewrite N.
    + now rewrite IH.
Qed.

Lemma lookup_set_if_truthy_other k k' v fs :
  k <> k' -> Js.lookup k (Js.set_if_truthy k' v fs) = Js.lookup k fs.
Proof.
  intros N. unfold Js.set_if_truthy.
  destruct (Js.truthy v); [now apply lookup_set_other | reflexivity].
Qed.

Lemma document_set k v fs :
  document v = true -> document (VObj fs) = true ->
  document (VObj (Js.set k v fs)) = true.
Proof.
  intros Dv. simpl. induction fs as [|[k' x] fs IH]; simpl; intros D.
  - now rewrite Dv.
  - apply andb_true_iff in D as [Dx Dr].
    destruct (String.eqb k k'); simpl.
    + now rewrite Dv, Dr.
    + now rewrite Dx, IH.
Qed.

(** A property that is set and defined survives [JSON.stringify]. *)
Lemma prop_stringify fs k x :
  Js.lookup k fs = Some x -> x <> VUndef ->
  Js.prop (Js.stringify (VObj fs)) k = Js.stringify x.
Proof.
  intros L N. simpl.
  induction fs as [|[k' y] fs IH]; simpl in *; [discriminate|].
  destruct (String.eqb k k') eqn:E.
  - injection L as ->. destruct x; try congruence; simpl; now rewrite E.
  - specialize (IH L).
    destruct y; simpl; rewrite ?E; exact IH.
Qed.

Lemma truthy_prop_get v k :
  Js.truthy (Js.prop v k) = true -> Js.get v k = inr (Js.prop v k).
Proof. destruct v; simpl; intros T; try discriminate; reflexivity. Qed.

(** ** Regular expressions *)

#[local] Arguments Ascii.eqb : simpl nomatch.

Lemma atoms_chars_app (L rest : string) :
  Regex.atoms (Regex.chars L) (L ++ rest) = Some rest.
Proof.
  induction L as [|a L IH]; simpl; [reflexivity|].
  rewrite Ascii.eqb_refl. exact IH.
Qed.

Lemma atoms_chars_none (L s : string) :
  Str.starts_with L s = false -> Regex.atoms (Regex.chars L) s = None.
Proof.
  revert s. induction L as [|a L IH]; intros s; simpl; [discriminate|].
  destruct s as [|b s]; [reflexivity|].
  destruct (Ascii.eqb a b); simpl; [apply IH | reflexivity].
Qed.

(** The run takes every character of the class up to the first character
    outside of it, or up to the end. *)
Lemma run_to_stop (p : ascii -> bool) (cap post : string) :
  cap <> "" -> Str.all_chars p cap = true ->
  Str.stops_at (fun c => negb (p c)) post = true ->
  Regex.run p [] (cap ++ post) = Some cap.
Proof.
  induction cap as [|a cap IH]; [congruence|].
  intros _ A S. simpl in A. apply andb_true_iff in A as [Pa A].
  simpl. rewrite Pa. destruct cap as [|b cap].
  - simpl. destruct post as [|c post]; simpl; [reflexivity|].
    simpl in S. apply negb_true_iff in S. now rewrite S.
  - rewrite IH; [reflexivity|discriminate|assumption|assumption].
Qed.

(** With the closing character [q] in the tail, the run must end right
    before a [q]. *)
Lemma run_to_quote (p : ascii -> bool) (q : ascii) (cap post : string) :
  cap <> "" -> Str.all_chars p cap = true -> p q = false ->
  Regex.run p [Regex.Chr q] (cap ++ String q post) = Some cap.
Proof.
  induction cap as [|a cap IH]; [congruence|].
  intros _ A Q. simpl in A. apply andb_true_iff in A as [Pa A].
  simpl. rewrite Pa. destruct cap as [|b cap].
  - simpl. now rewrite Q, Ascii.eqb_refl.
  - rewrite IH; [reflexivity|discriminate|assumption|assumption].
Qed.

Lemma run_nonempty (p : ascii -> bool) tl s cap :
  Regex.run p tl s = Some cap -> cap <> "".
Proof.
  destruct s as [|c s]; simpl; [discriminate|].
  destruct (p c); [|discriminate].
  destruct (Regex.run p tl s); [intros [= <-]; discriminate|].
  destruct (Regex.atoms tl s); [intros [= <-]; discriminate|discriminate].
Qed.

Lemma exec_nonempty r s cap : Regex.exec r s = Some cap -> cap <> "".
Proof.
  induction s as [|c s IH]; simpl; unfold Regex.here.
  - destruct (Regex.atoms (Regex.lit r) ""); [|discriminate].
    destruct (Regex.run _ _ _) eqn:R; [|discriminate].
    intros [= <-]. eapply run_nonempty; eauto.
  - destruct (Regex.atoms (Regex.lit r) (String c s)).
    + destruct (Regex.run _ _ _) eqn:R; [|exact IH].
      intros [= <-]. eapply run_nonempty; eauto.
    + exact IH.
Qed.

Lemma exec_here r s cap : Regex.here r s = Some cap -> Regex.exec r s = Some cap.
Proof. intros H. destruct s; simpl; now rewrite H. Qed.

Lemma exec_skip r c s :
  Regex.here r (String c s) = None -> Regex.exec r (String c s) = Regex.exec r s.
Proof. intros H. simpl. now rewrite H. Qed.

Lemma unbordered_url : unbordered "url=".
Proof.
  intros pre X N S.
  destruct pre as [|a1 [|a2 [|a3 [|a4 pre]]]];
    simpl in *; try congruence; rewrite ?andb_false_r; auto.
Qed.

Lemma unbordered_payments : unbordered "payments/".
Proof.
  intros pre X N S.
  destruct pre as [|a1 [|a2 [|a3 [|a4 [|a5 [|a6 [|a7 [|a8 [|a9 pre]]]]]]]]];
    simpl in *; try congruence; rewrite ?andb_false_r; auto.
Qed.

(** The leftmost match begins at the first occurrence of the literal when
    the expression matches there. *)
Lemma exec_leftmost r L pre X cap :
  Regex.lit r = Regex.chars L -> unbordered L ->
  Str.includes pre L = false ->
  Regex.here r (L ++ X) = Some cap ->
  Regex.exec r (pre ++ L ++ X) = Some cap.
Proof.
  intros HL U. induction pre as [|c pre IH]; intros I H.
  - now apply exec_here.
  - simpl in I. apply orb_false_iff in I as [S I].
    change (String c pre ++ L ++ X) with (String c (pre ++ L ++ X)).
    rewrite exec_skip; [now apply IH|].
    unfold Regex.here. rewrite HL.
    rewrite atoms_chars_none; [reflexivity|].
    apply (U (String c pre) X); [discriminate|exact S].
Qed.

(** Without the literal anywhere in the text there is no match. *)
Lemma exec_without_literal r L s :
  Regex.lit r = Regex.chars L -> Str.includes s L = false -> Regex.exec r s = None.
Proof.
  intros HL. induction s as [|c s IH]; simpl; intros I;
    apply orb_false_iff in I as [S I]; unfold Regex.here; rewrite HL;
    rewrite atoms_chars_none by exact S; auto.
Qed.

(** ** Running the handlers *)

Lemma bind_lift_inr {A B} (x : A) (k : A -> M B) log :
  bind (lift (inr x)) k log = k x log.
Proof. reflexivity. Qed.

Lemma bind_fetch {B} w c r (k : response -> M B) log :
  gateway w c = Answer r ->
  bind (fetch w c) k log = k r (log ++ [c])%list.
Proof. intros G. unfold bind, fetch. now rewrite G. Qed.

Lemma lift_run {A} (r : result A) log : lift r log = (log, r).
Proof. destruct r; reflexivity. Qed.

Lemma try_catch_eq (c : M reply) handler log r :
  c [] = (log, r) -> try_catch c handler = (log, finish handler r).
Proof. intros E. unfold try_catch. rewrite E. now destruct r. Qed.

Lemma server_card_order_refused w req_body auth ro orderData :
  card_fields req_body ->
  Server.getAuthHeader w (Js.prop req_body "country") = inr auth ->
  answers w orders_url ro -> json ro = Some orderData -> ok ro = false ->
  exists oc, endpoint oc = orders_url /\
    Server.create_payment w req_body = ([oc], respond (status ro) orderData).
Proof.
  intros (Ta & Tc & Tm & Tk & Tr) HA G J O.
  eexists. split; cycle 1.
  - unfold Server.create_payment.
    apply try_catch_eq with (r := inr _).
    rewrite (truthy_prop_get _ _ Ta), bind_lift_inr.
    rewrite Ta, Tc, Tm, Tk, Tr. cbn [negb orb].
    rewrite HA, bind_lift_inr.
    rewrite bind_fetch with (r := ro) by (apply G; reflexivity).
    unfold json_of. rewrite J, bind_lift_inr, O. cbn [negb].
    reflexivity.
  - reflexivity.
Qed.

Ltac run_order Ta HA G ro J O :=
  rewrite (truthy_prop_get _ _ Ta), bind_lift_inr;
  repeat match goal with
         | T : Js.truthy _ = true |- _ => rewrite T; clear T
         end;
  cbn [negb orb];
  rewrite HA, bind_lift_inr;
  rewrite bind_fetch with (r := ro) by (apply G; reflexivity);
  unfold json_of; rewrite J, bind_lift_inr, O; cbn [negb].

Lemma server_card_run w req_body auth ro orderData order_id year rp :
  card_fields req_body ->
  Server.getAuthHeader w (Js.prop req_body "country") = inr auth ->
  answers w orders_url ro -> json ro = Some orderData -> ok ro = true ->
  Js.get orderData "id" = inr order_id ->
  Server.four_digit_year (Js.prop (Js.prop req_body "card") "expiry_year") = inr year ->
  Server.slice_last4 (Js.prop (Js.prop req_body "card") "number") = inr tt ->
  answers w payments_url rp ->
  exists oc pc,
    endpoint oc = orders_url /\ endpoint pc = payments_url /\
    sent pc = Js.stringify (VObj (Server.card_paymentRequest req_body order_id year)) /\
    Server.create_payment w req_body
    = ([oc; pc],
       finish (Server.catch_payment_failed w)
         (Server.card_outcome orderData order_id rp)).
Proof.
  intros (Ta & Tc & Tm & Tk & Tr) HA G J O I Y S GP.
  do 2 eexists. split; [|split; [|split]]; cycle 3.
  - unfold Server.create_payment. apply try_catch_eq.
    run_order Ta HA G ro J O.
    rewrite I, bind_lift_inr, Y, bind_lift_inr, S, !bind_lift_inr.
    rewrite bind_fetch with (r := rp) by (apply GP; reflexivity).
    apply lift_run.
  - reflexivity.
  - reflexivity.
  - reflexivity.
Qed.

Lemma server_applepay_order_refused w req_body auth ro orderData :
  applepay_fields req_body ->
  Server.getAuthHeader w (Js.prop req_body "country") = inr auth ->
  answers w orders_url ro -> json ro = Some orderData -> ok ro = false ->
  exists oc, endpoint oc = orders_url /\
    Server.create_applepay_payment w req_body = ([oc], respond (status ro) orderData).
Proof.
  intros (Ta & Tc & Tr) HA G J O.
  eexists. split; cycle 1.
  - unfold Server.create_applepay_payment.
    apply try_catch_eq with (r := inr _).
    run_order Ta HA G ro J O. reflexivity.
  - reflexivity.
Qed.

Lemma server_applepay_run w req_body auth ro orderData order_id rp :
  applepay_fields req_body ->
  Server.getAuthHeader w (Js.prop req_body "country") = inr auth ->
  answers w orders_url ro -> json ro = Some orderData -> ok ro = true ->
  Js.get orderData "id" = inr order_id ->
  answers w payments_url rp ->
  exists oc pc,
    endpoint oc = orders_url /\ endpoint pc = payments_url /\
    sent pc = Js.stringify (Server.applepay_paymentRequest req_body order_id) /\
    Server.create_applepay_payment w req_body
    = ([oc; pc],
       finish (Server.catch_payment_failed w)
         (Server.applepay_outcome orderData order_id rp)).
Proof.
  intros (Ta & Tc & Tr) HA G J O I GP.
  do 2 eexists. split; [|split; [|split]]; cycle 3.
  - unfold Server.create_applepay_payment. apply try_catch_eq.
    run_order Ta HA G ro J O.
    rewrite I, !bind_lift_inr.
    rewrite bind_fetch with (r := rp) by (apply GP; reflexivity).
    apply lift_run.
  - reflexivity.
  - reflexivity.
  - reflexivity.
Qed.

Lemma get_defined v k : Js.is_nullish v = false -> Js.get v k = inr (Js.prop v k).
Proof. unfold Js.get. now intros ->. Qed.

Lemma post_only_post req handle :
  http_method req = "POST" -> Api.post_only req handle = handle.
Proof. unfold Api.post_only. now intros ->. Qed.

Ltac run_api_order HM HB HR HC G ro J O :=
  rewrite (post_only_post _ _ HM);
  apply try_catch_eq;
  rewrite (get_defined _ _ HB), bind_lift_inr;
  rewrite HR, bind_lift_inr, HC, bind_lift_inr;
  rewrite bind_fetch with (r := ro) by (apply G; reflexivity);
  unfold json_of; rewrite J, bind_lift_inr, O; cbn [negb].

Lemma api_card_order_refused w req cred ro orderData :
  api_ready w req cred ->
  answers w orders_url ro -> json ro = Some orderData -> ok ro = false ->
  exists oc, endpoint oc = orders_url /\
    Api.create_payment w req = ([oc], respond (status ro) orderData).
Proof.
  intros (HM & HB & config & HR & HC) G J O.
  eexists. split; cycle 1.
  - unfold Api.create_payment.
    change (respond (status ro) orderData)
      with (finish (Api.catch_error w) (inr (respond (status ro) orderData))).
    run_api_order HM HB HR HC G ro J O. reflexivity.
  - reflexivity.
Qed.

Lemma api_card_run w req cred ro orderData order_id rp :
  api_ready w req cred ->
  answers w orders_url ro -> json ro = Some orderData -> ok ro = true ->
  Js.get orderData "id" = inr order_id ->
  answers w payments_url rp ->
  exists oc pc,
    endpoint oc = orders_url /\ endpoint pc = payments_url /\
    sent pc = Js.stringify (VObj (Api.card_paymentPayload (body req) order_id)) /\
    Api.create_payment w req
    = ([oc; pc], finish (Api.catch_error w) (Api.card_outcome rp)).
Proof.
  intros (HM & HB & config & HR & HC) G J O I GP.
  do 2 eexists. split; [|split; [|split]]; cycle 3.
  - unfold Api.create_payment.
    run_api_order HM HB HR HC G ro J O.
    rewrite I, bind_lift_inr.
    rewrite bind_fetch with (r := rp) by (apply GP; reflexivity).
    apply lift_run.
  - reflexivity.
  - reflexivity.
  - reflexivity.
Qed.

Lemma api_applepay_order_refused w req cred ro orderData :
  api_ready w req cred ->
  answers w orders_url ro -> json ro = Some orderData -> ok ro = false ->
  exists oc, endpoint oc = orders_url /\
    Api.create_applepay_payment w req = ([oc], respond (status ro) orderData).
Proof.
  intros (HM & HB & config & HR & HC) G J O.
  eexists. split; cycle 1.
  - unfold Api.create_applepay_payment.
    change (respond (status ro) orderData)
      with (finish (Api.catch_error w) (inr (respond (status ro) orderData))).
    run_api_order HM HB HR HC G ro J O. reflexivity.
  - reflexivity.
Qed.

Lemma api_applepay_run w req cred ro orderData order_id rp :
  api_ready w req cred ->
  answers w orders_url ro -> json ro = Some orderData -> ok ro = true ->
  Js.get orderData "id" = inr order_id ->
  answers w payments_url rp ->
  exists oc pc,
    endpoint oc = orders_url /\ endpoint pc = payments_url /\
    sent pc = Js.stringify (Api.applepay_paymentPayload (body req) order_id) /\
    Api.create_applepay_payment w req
    = ([oc; pc], finish (Api.catch_error w) (Api.applepay_outcome rp)).
Proof.
  intros (HM & HB & config & HR & HC) G J O I GP.
  do 2 eexists. split; [|split; [|split]]; cycle 3.
  - unfold Api.create_applepay_payment.
    run_api_order HM HB HR HC G ro J O.
    rewrite I, bind_lift_inr.
    rewrite bind_fetch with (r := rp) by (apply GP; reflexivity).
    apply lift_run.
  - reflexivity.
  - reflexivity.
  - reflexivity.
Qed.

(** ** Regions and credentials *)

Lemma truthy_env_value w k : Js.truthy (env_value w k) = is_set w k.
Proof. unfold env_value, is_set. now destruct (env w k). Qed.

Lemma truthy_env_or_empty w k : Js.truthy (Server.env_or_empty w k) = is_set w k.
Proof.
  unfold Server.env_or_empty, Js.or_else. rewrite truthy_env_value.
  destruct (is_set w k) eqn:E; [|reflexivity].
  now rewrite truthy_env_value.
Qed.

Ltac by_region c :=
  destruct (String.eqb c "MY") eqn:EMY;
  [apply String.eqb_eq in EMY; subst c|
   destruct (String.eqb c "SG") eqn:ESG;
   [apply String.eqb_eq in ESG; subst c|
    destruct (String.eqb c "US") eqn:EUS;
    [apply String.eqb_eq in EUS; subst c|
     destruct (String.eqb c "IN") eqn:EIN;
     [apply String.eqb_eq in EIN; subst c|]]]].

(** api/create-payment.js and api/create-applepay-payment.js resolve a
    region exactly when it is known and both of its variables are set. *)
Lemma api_resolve_spec w c :
  Api.resolve w (VStr c)
  = inr (if known_region c && has_id w c && has_secret w c
         then Some (region (env_value w ("RAZORPAY_KEY_ID_" ++ c))
                      (env_value w ("RAZORPAY_KEY_SECRET_" ++ c))
                      (match c with
                       | "MY" => "MYR" | "SG" => "SGD" | "US" => "USD" | _ => "INR"
                       end))
         else None).
Proof.
  unfold Api.resolve, index, Api.RAZORPAY_CONFIGS, known_region, has_id, has_secret.
  cbn [Js.to_string Js.lookup existsb].
  by_region c; cbn [Js.lookup String.eqb Ascii.eqb Bool.eqb orb andb region Js.prop Js.truthy negb append];
    rewrite ?truthy_env_value.
  1-4: repeat match goal with
              | |- context [is_set ?w0 ?a] => destruct (is_set w0 a)
              end; reflexivity.
  destruct (existsb _ _); reflexivity.
Qed.

(** server.js looks at the secret alone. *)
Lemma server_getConfig_spec w c :
  Server.getConfig w (VStr c)
  = if known_region c && has_secret w c
    then index (Server.RAZORPAY_CONFIGS w) (VStr c)
    else inl (unconfigured c).
Proof.
  unfold Server.getConfig, index, Server.RAZORPAY_CONFIGS, known_region, has_secret,
    unconfigured.
  cbn [Server.default_MY Js.to_string Js.lookup existsb].
  by_region c; cbn [Js.lookup String.eqb Ascii.eqb Bool.eqb orb andb region Js.prop Js.truthy negb append];
    rewrite ?truthy_env_or_empty.
  1-4: repeat match goal with
              | |- context [is_set ?w0 ?a] => destruct (is_set w0 a)
              end; reflexivity.
  destruct (existsb _ _); reflexivity.
Qed.

Lemma server_getAuthHeader_spec w c :
  if known_region c && has_secret w c
  then exists h, Server.getAuthHeader w (VStr c) = inr h
  else Server.getAuthHeader w (VStr c) = inl (unconfigured c).
Proof.
  unfold Server.getAuthHeader, index, Server.RAZORPAY_CONFIGS, known_region, has_secret,
    unconfigured, credentials.
  cbn [Server.default_MY Js.to_string Js.lookup existsb].
  by_region c; cbn [Js.lookup String.eqb Ascii.eqb Bool.eqb orb andb region Js.prop Js.truthy negb append];
    rewrite ?truthy_env_or_empty.
  1-4: match goal with
       | |- context [is_set ?w0 ?a] => destruct (is_set w0 a) eqn:E
       end; cbn [negb orb andb]; [|reflexivity];
       unfold Server.env_or_empty, Js.or_else, env_value, is_set in *;
       repeat match goal with
              | |- context [env ?w0 ?a] => destruct (env w0 a)
              end; cbn; try discriminate;
       repeat match goal with
              | |- context [Str.is_empty ?s] => destruct (Str.is_empty s)
              end; cbn; eauto.
  destruct (existsb _ _); reflexivity.
Qed.

Lemma server_card_unconfigured w req_body e :
  card_fields req_body ->
  Server.getAuthHeader w (Js.prop req_body "country") = inl e ->
  Server.create_payment w req_body = ([], Server.catch_payment_failed w e).
Proof.
  intros (Ta & Tc & Tm & Tk & Tr) HA.
  unfold Server.create_payment. apply try_catch_eq with (r := inl e).
  rewrite (truthy_prop_get _ _ Ta), bind_lift_inr.
  rewrite Ta, Tc, Tm, Tk, Tr. cbn [negb orb].
  now rewrite HA.
Qed.

Lemma server_applepay_unconfigured w req_body e :
  applepay_fields req_body ->
  Server.getAuthHeader w (Js.prop req_body "country") = inl e ->
  Server.create_applepay_payment w req_body = ([], Server.catch_payment_failed w e).
Proof.
  intros (Ta & Tc & Tr) HA.
  unfold Server.create_applepay_payment. apply try_catch_eq with (r := inl e).
  rewrite (truthy_prop_get _ _ Ta), bind_lift_inr.
  rewrite Ta, Tc, Tr. cbn [negb orb].
  now rewrite HA.
Qed.

Lemma api_unresolved w req :
  http_method req = "POST" -> Js.is_nullish (body req) = false ->
  Api.resolve w (Js.prop (body req) "country") = inr None ->
  Api.create_payment w req = ([], Api.invalid_country) /\
  Api.create_applepay_payment w req = ([], Api.invalid_country).
Proof.
  intros HM HB HR. split.
  - unfold Api.create_payment. rewrite (post_only_post _ _ HM).
    apply try_catch_eq with (r := inr _).
    rewrite (get_defined _ _ HB), bind_lift_inr. now rewrite HR.
  - unfold Api.create_applepay_payment. rewrite (post_only_post _ _ HM).
    apply try_catch_eq with (r := inr _).
    rewrite (get_defined _ _ HB), bind_lift_inr. now rewrite HR.
Qed.

Lemma prop_defined v k x : Js.prop v k = x -> x <> VUndef -> Js.is_nullish v = false.
Proof. destruct v; simpl; intros <- N; congruence. Qed.

(** ** C3: credential resolution *)

(** C3 (as amended).  For a region string [c]:
    - in api/create-payment.js and api/create-applepay-payment.js the
      region resolves if and only if it is one of MY, SG, US, IN and both
      its identifier and its secret are set and non-empty; otherwise the
      handler answers 400 and issues no gateway call;
    - in server.js [getConfig] and [getAuthHeader] succeed if and only if
      the region is one of the four and its secret is set and non-empty
      (the identifier is not examined); otherwise they throw, and a request
      that passed validation is answered 500 PAYMENT_FAILED with no gateway
      call. *)
Theorem C3_region_resolution (w : World) (c : string) :
  ((exists config, Api.resolve w (VStr c) = inr (Some config))
   <-> known_region c && has_id w c && has_secret w c = true) /\
  (known_region c && has_id w c && has_secret w c = false ->
   forall req,
     http_method req = "POST" -> Js.prop (body req) "country" = VStr c ->
     Api.create_payment w req = ([], Api.invalid_country) /\
     Api.create_applepay_payment w req = ([], Api.invalid_country)) /\
  code Api.invalid_country = 400 /\
  ((exists config, Server.getConfig w (VStr c) = inr config)
   <-> known_region c && has_secret w c = true) /\
  ((exists h, Server.getAuthHeader w (VStr c) = inr h)
   <-> known_region c && has_secret w c = true) /\
  (known_region c && has_secret w c = false ->
   forall req_body,
     Js.prop req_body "country" = VStr c ->
     (card_fields req_body ->
      Server.create_payment w req_body
      = ([], Server.catch_payment_failed w (unconfigured c))) /\
     (applepay_fields req_body ->
      Server.create_applepay_payment w req_body
      = ([], Server.catch_payment_failed w (unconfigured c)))) /\
  code (Server.catch_payment_failed w (unconfigured c)) = 500.
Proof.
  pose proof (api_resolve_spec w c) as RA.
  pose proof (server_getConfig_spec w c) as RC.
  pose proof (server_getAuthHeader_spec w c) as RH.
  repeat split.
  - intros [config E]. rewrite E in RA.
    destruct (known_region c && has_id w c && has_secret w c); congruence.
  - intros T. rewrite T in RA. eauto.
  - rewrite H in RA. apply api_unresolved; [assumption| |now rewrite H1].
    apply prop_defined with (1 := H1). discriminate.
  - rewrite H in RA. apply api_unresolved; [assumption| |now rewrite H1].
    apply prop_defined with (1 := H1). discriminate.
  - intros [config E]. rewrite E in RC.
    destruct (known_region c && has_secret w c); [reflexivity|discriminate].
  - intros T. rewrite T in RC. rewrite RC. unfold index. cbn. eauto.
  - intros [h E]. destruct (known_region c && has_secret w c); congruence.
  - intros T. now rewrite T in RH.
  - intros F. apply server_card_unconfigured; [assumption|].
    rewrite H0. now rewrite H in RH.
  - intros F. apply server_applepay_unconfigured; [assumption|].
    rewrite H0. now rewrite H in RH.
Qed.

(** At region FR nothing is configured: the serverless handler answers 400
    and server.js answers 500, both without a gateway call. *)
Lemma C3_region_resolution_witness :
  Api.create_payment Demo.w_india (Demo.post C3.request_FR) = ([], Api.invalid_country) /\
  Server.create_payment Demo.w_india C3.request_FR
  = ([], Server.catch_payment_failed Demo.w_india (unconfigured "FR")).
Proof.
  destruct (C3_region_resolution Demo.w_india "FR") as (_ & A & _ & _ & _ & S & _).
  split.
  - apply (A eq_refl (Demo.post C3.request_FR) eq_refl eq_refl).
  - apply (S eq_refl C3.request_FR eq_refl). repeat split.
Defined.

(** C3 fails as stated: on server.js the unknown region FR is answered 500,
    not 400, and region IN resolves although its identifier is not set. *)
Lemma C3_counterexample :
  known_region "FR" = false /\
  code (snd (Server.create_payment Demo.w_india C3.request_FR)) = 500 /\
  has_id C3.w_secret_only "IN" = false /\
  Server.getConfig C3.w_secret_only (VStr "IN")
  = inr (region (VStr "") (VStr "secret_in") "INR").
Proof. repeat split. Qed.

(** ** C1: redirect instructions in a JSON payment response *)

Lemma find_redirect_first before entry after :
  Forall passed_over before ->
  Js.prop entry "action" = VStr "redirect" ->
  find_redirect (before ++ entry :: after) = inr entry.
Proof.
  intros F A. induction F as [|b before [N S] F IH]; simpl.
  - rewrite (get_defined entry "action").
    + now rewrite A.
    + apply prop_defined with (1 := A). discriminate.
  - now rewrite (get_defined b "action" N), S.
Qed.

Lemma redirect_url_first data before entry after url :
  Js.prop data "next" = VArr (before ++ entry :: after) ->
  Forall passed_over before ->
  Js.prop entry "action" = VStr "redirect" ->
  Js.prop entry "url" = VStr url -> url <> "" ->
  redirect_url data = inr (Some (VStr url)).
Proof.
  intros N F A U NE. unfold redirect_url.
  rewrite (get_defined data "next").
  - rewrite N, (find_redirect_first _ _ _ F A), U.
    assert (Js.truthy entry = true) as ->
      by (destruct entry; simpl in A; try discriminate; reflexivity).
    destruct url; [congruence|reflexivity].
  - apply prop_defined with (1 := N). discriminate.
Qed.

(** C1 (as amended).  A payment response whose content type includes
    application/json carries a document whose [next] is an array; the
    entries ahead of the first one with action "redirect" are not null, and
    that first redirect entry has a non-empty url.  Then, whatever the HTTP
    status, api/create-payment.js, api/create-applepay-payment.js and the
    wallet route of server.js reply 200 with that url and the document's
    razorpay_payment_id. *)
Theorem C1_json_redirect (r : response) (data : value)
    (before : list value) (entry : value) (after : list value) (url : string) :
  is_json r = true -> json r = Some data ->
  Js.prop data "next" = VArr (before ++ entry :: after) ->
  Forall passed_over before ->
  Js.prop entry "action" = VStr "redirect" ->
  Js.prop entry "url" = VStr url -> url <> "" ->
  Api.card_outcome r
  = inr (respond 200
           (VObj [("id", Js.prop data "razorpay_payment_id");
                  ("authentication", VObj [("authentication_url", VStr url)])])) /\
  Api.applepay_outcome r
  = inr (respond 200
           (VObj [("id", Js.prop data "razorpay_payment_id");
                  ("apple_pay_url", VStr url);
                  ("requires_apple_pay", VBool true)])) /\
  (forall orderData order_id,
     Server.applepay_outcome orderData order_id r
     = inr (respond 200
              (VObj [("id", Js.prop data "razorpay_payment_id");
                     ("status", VStr "created");
                     ("order_id", order_id);
                     ("apple_pay_url", VStr url);
                     ("requires_apple_pay", VBool true);
                     ("message",
                      VStr "Redirect user to apple_pay_url to complete payment")]))).
Proof.
  intros HJ J N F A U NE.
  pose proof (redirect_url_first _ _ _ _ _ N F A U NE) as R.
  unfold Api.card_outcome, Api.applepay_outcome, Server.applepay_outcome, json_of.
  rewrite HJ, J, R. repeat split.
Qed.

(** The amended claim at a response with status 402. *)
Lemma C1_json_redirect_witness :
  Api.card_outcome (Demo.json_response 402 C1.step_up)
  = inr (respond 200
           (VObj [("id", VStr "pay_1");
                  ("authentication",
                   VObj [("authentication_url", VStr "https://x/y")])])).
Proof.
  refine (proj1 (C1_json_redirect (Demo.json_response 402 C1.step_up) C1.step_up
                   [VObj [("action", VStr "otp_generate")]]
                   (C1.redirect "https://x/y") [] "https://x/y"
                   eq_refl eq_refl eq_refl _ eq_refl eq_refl _)).
  - repeat constructor.
  - discriminate.
Defined.

(** C1 fails as stated: in api/create-payment.js a redirect entry with a
    non-empty url is not used when a redirect entry without url stands
    before it; the document is passed through. *)
Lemma C1_counterexample :
  is_json (Demo.json_response 200 C1.shadowed) = true /\
  Js.prop C1.shadowed "next" = VArr [C1.redirect ""; C1.redirect "https://x/y"] /\
  Js.prop (C1.redirect "https://x/y") "action" = VStr "redirect" /\
  Js.prop (C1.redirect "https://x/y") "url" = VStr "https://x/y" /\
  Api.card_outcome (Demo.json_response 200 C1.shadowed)
  = inr (Reply 200 (Some C1.shadowed)).
Proof. repeat split. Qed.

(** ** C2: order creation gates payment creation *)

Ltac innermost_destruct :=
  match goal with
  | |- context [match ?x with _ => _ end] =>
      lazymatch x with
      | context [match _ with _ => _ end] => fail
      | _ => destruct x eqn:?
      end
  end.

Lemma json_of_inr r v : json_of r = inr v -> json r = Some v.
Proof. unfold json_of. destruct (json r); congruence. Qed.

Ltac gated_close :=
  cbn [fst app];
  first
    [ left; reflexivity
    | right; left; eexists; split; reflexivity
    | right; right; do 2 eexists; split; [reflexivity|];
      split; [|reflexivity];
      split; [reflexivity|];
      do 2 eexists; split; [eassumption|];
      split; [apply negb_false_iff; assumption | apply json_of_inr; eassumption] ].

Ltac gated_paths :=
  unfold try_catch, bind, lift, fetch, ret, throw;
  repeat (innermost_destruct; cbn beta iota zeta);
  gated_close.

Lemma server_card_gated w req_body :
  gated w (fst (Server.create_payment w req_body)).
Proof. unfold Server.create_payment. gated_paths. Qed.

Lemma server_applepay_gated w req_body :
  gated w (fst (Server.create_applepay_payment w req_body)).
Proof. unfold Server.create_applepay_payment. gated_paths. Qed.

Lemma api_card_gated w req :
  gated w (fst (Api.create_payment w req)).
Proof. unfold Api.create_payment, Api.post_only. gated_paths. Qed.

Lemma api_applepay_gated w req :
  gated w (fst (Api.create_applepay_payment w req)).
Proof. unfold Api.create_applepay_payment, Api.post_only. gated_paths. Qed.

Lemma gated_payment w log pc :
  gated w log -> In pc log -> endpoint pc = payments_url ->
  exists oc, log = [oc; pc] /\ order_accepted w oc.
Proof.
  intros [->|[(oc & -> & E)|(oc & pc' & -> & A & E)]] I P.
  - destruct I.
  - destruct I as [<-|[]]. rewrite E in P. discriminate.
  - destruct I as [<-|[<-|[]]].
    + destruct A as [A _]. rewrite A in P. discriminate.
    + eauto.
Qed.

Lemma demo_answers_order vars ro p :
  answers (Demo.world vars (Answer ro) p) orders_url ro.
Proof. intros c E. simpl. unfold Demo.gateway_of. rewrite E. reflexivity. Defined.

Lemma demo_answers_payment vars o rp :
  answers (Demo.world vars o (Answer rp)) payments_url rp.
Proof. intros c E. simpl. unfold Demo.gateway_of. rewrite E. reflexivity. Defined.

(** C2 (as amended).  In each of the four handlers:
    - a call to the payment endpoint is issued only as the second call,
      after a call to the order endpoint that was answered with a success
      status and a JSON body (whether that body holds an id is not
      examined);
    - when the order endpoint answers with a status outside 200..299 and a
      JSON document, a request that got as far as the order call is
      answered with that status and that document unchanged, and the order
      call is the only call issued. *)
Theorem C2_order_gate (w : World) :
  (forall pc,
     endpoint pc = payments_url ->
     (forall req_body,
        In pc (fst (Server.create_payment w req_body)) ->
        exists oc, fst (Server.create_payment w req_body) = [oc; pc]
                   /\ order_accepted w oc) /\
     (forall req_body,
        In pc (fst (Server.create_applepay_payment w req_body)) ->
        exists oc, fst (Server.create_applepay_payment w req_body) = [oc; pc]
                   /\ order_accepted w oc) /\
     (forall req,
        In pc (fst (Api.create_payment w req)) ->
        exists oc, fst (Api.create_payment w req) = [oc; pc]
                   /\ order_accepted w oc) /\
     (forall req,
        In pc (fst (Api.create_applepay_payment w req)) ->
        exists oc, fst (Api.create_applepay_payment w req) = [oc; pc]
                   /\ order_accepted w oc)) /\
  (forall ro payload,
     order_refused w ro payload ->
     (forall req_body auth,
        card_fields req_body ->
        Server.getAuthHeader w (Js.prop req_body "country") = inr auth ->
        exists oc, endpoint oc = orders_url /\
          Server.create_payment w req_body
          = ([oc], Reply (status ro) (Some payload))) /\
     (forall req_body auth,
        applepay_fields req_body ->
        Server.getAuthHeader w (Js.prop req_body "country") = inr auth ->
        exists oc, endpoint oc = orders_url /\
          Server.create_applepay_payment w req_body
          = ([oc], Reply (status ro) (Some payload))) /\
     (forall req cred,
        api_ready w req cred ->
        exists oc, endpoint oc = orders_url /\
          Api.create_payment w req = ([oc], Reply (status ro) (Some payload))) /\
     (forall req cred,
        api_ready w req cred ->
        exists oc, endpoint oc = orders_url /\
          Api.create_applepay_payment w req
          = ([oc], Reply (status ro) (Some payload)))).
Proof.
  split.
  - intros pc P. repeat split; intros req I.
    + eapply gated_payment; eauto using server_card_gated.
    + eapply gated_payment; eauto using server_applepay_gated.
    + eapply gated_payment; eauto using api_card_gated.
    + eapply gated_payment; eauto using api_applepay_gated.
  - intros ro payload (G & O & J & D).
    assert (forall st, respond st payload = Reply st (Some payload)) as E
      by (intros st; unfold respond; now rewrite stringify_document).
    repeat split; intros req x R.
    + intros HA. rewrite <- E. eapply server_card_order_refused; eauto.
    + intros HA. rewrite <- E. eapply server_applepay_order_refused; eauto.
    + rewrite <- E. eapply api_card_order_refused; eauto.
    + rewrite <- E. eapply api_applepay_order_refused; eauto.
Qed.

(** An order refused with status 400: the card route of server.js hands
    the status and the error document on and stops. *)
Lemma C2_order_gate_witness :
  exists oc, endpoint oc = orders_url /\
    Server.create_payment C2.w_refused C2.request
    = ([oc], Reply 400 (Some C2.bad_amount)).
Proof.
  refine (proj1 (proj2 (C2_order_gate C2.w_refused)
                   (Demo.json_response 400 C2.bad_amount) C2.bad_amount _)
            C2.request "Basic rzp_in:secret_in" _ eq_refl).
  - split; [apply demo_answers_order | repeat split].
  - repeat split.
Defined.

(** C2 fails as stated.  An order answered 200 with a document that holds
    no id is followed by a payment call that carries no order_id; and an
    order answered 502 with a body that is no JSON document is answered
    500, not 502. *)
Lemma C2_counterexample :
  (map endpoint (fst (Api.create_payment C2.w_no_id (Demo.post C2.request)))
   = [orders_url; payments_url] /\
   map (fun c => Js.prop (sent c) "order_id")
     (fst (Api.create_payment C2.w_no_id (Demo.post C2.request)))
   = [VUndef; VUndef]) /\
  (map endpoint (fst (Server.create_payment C2.w_bad_gateway C2.request))
   = [orders_url] /\
   code (snd (Server.create_payment C2.w_bad_gateway C2.request)) = 500).
Proof. repeat split. Qed.

(** ** C10: a card without expiry_year *)

(** The validation of the card route looks at the card object as a whole:
    with the five required fields truthy, no request is answered by the
    validation error, whatever the card holds. *)
Lemma server_card_validation w req_body :
  Js.is_nullish req_body = false ->
  (card_fields req_body <->
   Server.create_payment w req_body
   <> ([], respond 400
             (VObj [("error",
                     VObj [("code", VStr "BAD_REQUEST");
                           ("description",
                            VStr "Missing required fields: amount, currency, country, method, card")])]))).
Proof.
  intros N. split.
  - intros (Ta & Tc & Tm & Tk & Tr).
    unfold Server.create_payment, try_catch.
    rewrite (get_defined _ _ N), bind_lift_inr.
    rewrite Ta, Tc, Tm, Tk, Tr. cbn [negb orb].
    unfold bind, lift, fetch, ret, throw.
    repeat (innermost_destruct; cbn beta iota zeta);
      unfold Server.catch_payment_failed, respond; cbn [app]; congruence.
  - intros NE. unfold card_fields.
    unfold Server.create_payment, try_catch in NE.
    rewrite (get_defined _ _ N), bind_lift_inr in NE.
    destruct (Js.truthy (Js.prop req_body "amount")),
      (Js.truthy (Js.prop req_body "currency")),
      (Js.truthy (Js.prop req_body "method")),
      (Js.truthy (Js.prop req_body "card")),
      (Js.truthy (Js.prop req_body "country"));
      cbn [negb orb] in NE; try (exfalso; apply NE; reflexivity).
    repeat split.
Qed.

(** C10 (as amended).  In the card route of server.js, for a request whose
    amount, currency, method and country are truthy:
    - validation looks at the card as a whole and at none of its
      properties: a request whose card is missing or falsy is answered 400
      BAD_REQUEST without any gateway call, and a request whose card is
      truthy gets past validation whatever the card holds;
    - when the card is truthy and holds no expiry_year, the region of the
      request is configured, and the gateway answers the order call of the
      request with a success status and a JSON document other than null,
      reading [expiry_year.length] throws: the caller receives 500 with
      error code PAYMENT_FAILED and the message of that TypeError, not the
      400 validation error; the order call of the request is the only
      gateway call issued, so the order was created and no payment call
      was made. *)
Theorem C10_missing_expiry_year (w : World) (req_body : value) :
  Js.truthy (Js.prop req_body "amount") = true ->
  Js.truthy (Js.prop req_body "currency") = true ->
  Js.truthy (Js.prop req_body "method") = true ->
  Js.truthy (Js.prop req_body "country") = true ->
  (Js.truthy (Js.prop req_body "card") = false ->
   Server.create_payment w req_body
   = ([], bad_request "amount, currency, country, method, card")) /\
  (Js.truthy (Js.prop req_body "card") = true ->
   Js.prop (Js.prop req_body "card") "expiry_year" = VUndef ->
   forall auth ro orderData,
     Server.getAuthHeader w (Js.prop req_body "country") = inr auth ->
     gateway w (server_card_order w req_body auth) = Answer ro ->
     ok ro = true -> json ro = Some orderData -> Js.is_nullish orderData = false ->
     Server.four_digit_year (Js.prop (Js.prop req_body "card") "expiry_year")
     = inl (TypeError_read VUndef "length") /\
     Server.create_payment w req_body
     = ([server_card_order w req_body auth],
        failed "PAYMENT_FAILED" (engine_message w (TypeError_read VUndef "length")))).
Proof.
  intros Ta Tc Tm Tr. split.
  - intros Tk. unfold Server.create_payment, try_catch.
    rewrite (truthy_prop_get _ _ Ta), bind_lift_inr.
    rewrite Ta, Tc, Tm, Tk, Tr. reflexivity.
  - intros Tk Y auth ro orderData HA G O J N.
    assert (Server.four_digit_year (Js.prop (Js.prop req_body "card") "expiry_year")
            = inl (TypeError_read VUndef "length")) as T by now rewrite Y.
    split; [exact T|].
    unfold Server.create_payment.
    apply try_catch_eq with (r := inl (TypeError_read VUndef "length")).
    rewrite (truthy_prop_get _ _ Ta), bind_lift_inr.
    rewrite Ta, Tc, Tm, Tk, Tr. cbn [negb orb].
    rewrite HA, bind_lift_inr.
    rewrite bind_fetch with (r := ro) by exact G.
    unfold json_of. rewrite J, bind_lift_inr, O. cbn [negb].
    rewrite (get_defined _ _ N), bind_lift_inr, T. reflexivity.
Qed.

(** The amended claim at a card with number, name, month and cvv only, for
    India, with the order accepted. *)
Lemma C10_missing_expiry_year_witness :
  Server.create_payment Demo.w_india C10.request
  = ([server_card_order Demo.w_india C10.request "Basic rzp_in:secret_in"],
     failed "PAYMENT_FAILED" "runtime error").
Proof.
  exact (proj2 (proj2 (C10_missing_expiry_year Demo.w_india C10.request
                         eq_refl eq_refl eq_refl eq_refl)
                  eq_refl eq_refl
                  "Basic rzp_in:secret_in"
                  (Demo.json_response 200 Demo.order_doc) Demo.order_doc
                  eq_refl eq_refl eq_refl eq_refl eq_refl)).
Defined.

(** C10 fails as stated, for every request whose card lacks expiry_year:
    the same request, with its five required fields truthy, is answered
    with the gateway's status 400 and document when the gateway refuses the
    order, and is answered 500 before any order call is made when its
    region is not configured. *)
Lemma C10_counterexample :
  card_fields C10.request /\
  Js.prop (Js.prop C10.request "card") "expiry_year" = VUndef /\
  Server.create_payment C10.w_order_refused C10.request
  = ([server_card_order C10.w_order_refused C10.request "Basic rzp_in:secret_in"],
     Reply 400 (Some C10.refused)) /\
  Server.create_payment C10.w_unconfigured C10.request
  = ([], failed "PAYMENT_FAILED" "Invalid or unconfigured country: IN").
Proof. repeat split. Qed.

(** ** C5: the expiry year *)

Lemma four_digit_year_string (year : string) :
  Server.four_digit_year (VStr year)
  = inr (VStr (if (String.length year =? 2)%nat then "20" ++ year else year)).
Proof.
  unfold Server.four_digit_year, Js.get, Js.is_number, Js.str_length.
  cbn [Js.is_nullish Js.prop String.eqb Ascii.eqb Bool.eqb andb Js.to_string].
  unfold Js.str_length.
  destruct (String.length year =? 2)%nat eqn:E.
  - apply Nat.eqb_eq in E. now rewrite E.
  - apply Nat.eqb_neq in E.
    destruct (Z.of_nat (String.length year) =? 2) eqn:Z2; [|reflexivity].
    apply Z.eqb_eq in Z2. lia.
Qed.

Lemma server_card_request_card req_body order_id year :
  Js.lookup "card" (Server.card_paymentRequest req_body order_id year)
  = Some (VObj [("number", Js.prop (Js.prop req_body "card") "number");
                ("name", Js.prop (Js.prop req_body "card") "name");
                ("expiry_month", Js.prop (Js.prop req_body "card") "expiry_month");
                ("expiry_year", year);
                ("cvv", Js.prop (Js.prop req_body "card") "cvv")]).
Proof.
  unfold Server.card_paymentRequest. cbn zeta.
  rewrite !lookup_set_if_truthy_other by discriminate. reflexivity.
Qed.

Lemma api_card_payload_card req_body order_id :
  Js.lookup "card" (Api.card_paymentPayload req_body order_id)
  = Some (Js.prop req_body "card").
Proof.
  unfold Api.card_paymentPayload. cbn zeta.
  rewrite !lookup_set_if_truthy_other by discriminate. reflexivity.
Qed.

Lemma prop_stringify_string v k s :
  Js.prop v k = VStr s -> k <> "length" -> Js.prop (Js.stringify v) k = VStr s.
Proof.
  intros P NL. apply String.eqb_neq in NL.
  destruct v; simpl in P; rewrite ?NL in P; try discriminate.
  destruct (Js.lookup k fields) as [x|] eqn:L; [|discriminate]. subst x.
  now rewrite (prop_stringify _ _ _ L) by discriminate.
Qed.

(** C5 (as amended).  A card request whose card.expiry_year is a string,
    for which the order was accepted and the payment call is answered:
    - the card route of server.js sends the year with "20" put in front
      when it has exactly two characters, and sends every other year (a
      four-digit one in particular) as it is;
    - api/create-payment.js sends the year as it is, whatever its length. *)
Theorem C5_expiry_year (w : World) (req_body : value) (year : string)
    (ro : response) (orderData order_id : value) (rp : response) :
  Js.prop (Js.prop req_body "card") "expiry_year" = VStr year ->
  answers w orders_url ro -> ok ro = true -> json ro = Some orderData ->
  Js.get orderData "id" = inr order_id ->
  answers w payments_url rp ->
  (forall auth,
     card_fields req_body ->
     Server.getAuthHeader w (Js.prop req_body "country") = inr auth ->
     Server.slice_last4 (Js.prop (Js.prop req_body "card") "number") = inr tt ->
     exists oc pc reply,
       Server.create_payment w req_body = ([oc; pc], reply) /\
       endpoint pc = payments_url /\
       Js.prop (Js.prop (sent pc) "card") "expiry_year"
       = VStr (if (String.length year =? 2)%nat then "20" ++ year else year)) /\
  (forall http cred,
     api_ready w (Request http req_body) cred ->
     exists oc pc reply,
       Api.create_payment w (Request http req_body) = ([oc; pc], reply) /\
       endpoint pc = payments_url /\
       Js.prop (Js.prop (sent pc) "card") "expiry_year" = VStr year).
Proof.
  intros Y G O J I GP. split.
  - intros auth F HA S.
    destruct (server_card_run w req_body auth ro orderData order_id _ rp
                F HA G J O I (eq_trans (f_equal _ Y) (four_digit_year_string year)) S GP)
      as (oc & pc & _ & EP & ES & R).
    exists oc, pc. eexists. split; [exact R|]. split; [exact EP|].
    rewrite ES.
    rewrite (prop_stringify _ _ _ (server_card_request_card _ _ _)) by discriminate.
    match goal with
    | |- _ = ?v => now rewrite prop_stringify with (x := v)
    end.
  - intros http cred A.
    destruct (api_card_run w (Request http req_body) cred ro orderData order_id rp
                A G J O I GP) as (oc & pc & _ & EP & ES & R).
    exists oc, pc. eexists. split; [exact R|]. split; [exact EP|].
    rewrite ES. cbn [body].
    assert (Js.prop req_body "card" <> VUndef) as NU
      by (intros U; rewrite U in Y; discriminate).
    rewrite (prop_stringify _ _ _ (api_card_payload_card _ _) NU).
    apply prop_stringify_string; [exact Y|discriminate].
Qed.

(** The year "27" on the card route of server.js. *)
Lemma C5_expiry_year_witness :
  exists oc pc reply,
    Server.create_payment Demo.w_india (C5.request "27") = ([oc; pc], reply) /\
    endpoint pc = payments_url /\
    Js.prop (Js.prop (sent pc) "card") "expiry_year" = VStr "2027".
Proof.
  refine (proj1 (C5_expiry_year Demo.w_india (C5.request "27") "27"
                   (Demo.json_response 200 (VObj [("id", VStr "order_abc")]))
                   (VObj [("id", VStr "order_abc")]) (VStr "order_abc")
                   (Demo.json_response 200
                      (VObj [("razorpay_payment_id", VStr "pay_1");
                             ("status", VStr "captured")]))
                   eq_refl (demo_answers_order _ _ _) eq_refl eq_refl eq_refl
                   (demo_answers_payment _ _ _))
            "Basic rzp_in:secret_in" _ eq_refl eq_refl).
  repeat split.
Defined.

(** C5 fails as stated: api/create-payment.js sends the two-character year
    "27" to the payment endpoint as "27". *)
Lemma C5_counterexample :
  map endpoint (fst (Api.create_payment Demo.w_india (Demo.post (C5.request "27"))))
  = [orders_url; payments_url] /\
  map (fun c => Js.prop (Js.prop (sent c) "card") "expiry_year")
    (fst (Api.create_payment Demo.w_india (Demo.post (C5.request "27"))))
  = [VUndef; VStr "27"].
Proof. repeat split. Qed.

(** ** C8: contact and email of the wallet flow *)

Lemma lookup_stringify_absent k fs :
  ~ In k (map fst fs) ->
  Js.prop (Js.stringify (VObj fs)) k = VUndef.
Proof.
  simpl. induction fs as [|[k' y] fs IH]; simpl; intros NI; [reflexivity|].
  assert (String.eqb k k' = false) as E
    by (apply String.eqb_neq; intros ->; apply NI; now left).
  assert (~ In k (map fst fs)) as NI' by (intros I; apply NI; now right).
  destruct y; simpl; rewrite ?E; auto.
Qed.

(** With distinct property names, reading a property of the document that
    was sent gives what the object held, undefined included. *)
Lemma prop_stringify_nodup fs k :
  NoDup (map fst fs) ->
  Js.prop (Js.stringify (VObj fs)) k = Js.stringify (Js.prop (VObj fs) k).
Proof.
  induction fs as [|[k' y] fs IH]; intros ND; [reflexivity|].
  inversion ND as [|? ? NI ND']; subst.
  cbn [Js.prop Js.lookup]. destruct (String.eqb k k') eqn:E.
  - apply String.eqb_eq in E; subst k'.
    destruct y; try (simpl; now rewrite String.eqb_refl).
    apply (lookup_stringify_absent k fs NI).
  - specialize (IH ND'). cbn [Js.prop] in IH. rewrite <- IH.
    simpl. destruct y; simpl; rewrite ?E; reflexivity.
Qed.

Lemma document_prop v k :
  document v = true -> Js.prop v k = VUndef \/ document (Js.prop v k) = true.
Proof.
  destruct v; simpl; auto.
  - destruct (String.eqb k "length"); auto.
  - destruct (String.eqb k "length"); auto.
  - induction fields as [|[k' y] fs IH]; simpl; auto.
    intros D. apply andb_true_iff in D as [Dy D].
    destruct (String.eqb k k'); auto.
Qed.

Lemma stringify_prop v k :
  document v = true -> Js.stringify (Js.prop v k) = Js.prop v k.
Proof.
  intros D. destruct (document_prop v k D) as [->|D']; [reflexivity|].
  now apply stringify_document.
Qed.

Lemma applepay_names_server req_body order_id fs :
  Server.applepay_paymentRequest req_body order_id = VObj fs -> NoDup (map fst fs).
Proof.
  intros [= <-]. simpl.
  repeat (constructor; [simpl; intuition discriminate|]). constructor.
Qed.

Lemma applepay_names_api req_body order_id fs :
  Api.applepay_paymentPayload req_body order_id = VObj fs -> NoDup (map fst fs).
Proof.
  intros [= <-]. simpl.
  repeat (constructor; [simpl; intuition discriminate|]). constructor.
Qed.

(** C8 (as amended).  A wallet request (a JSON document) for which the
    order was accepted and the payment call is answered:
    - the wallet route of server.js sends the caller's contact when it is
      truthy and the placeholder "+60123456789" when it is absent, null,
      false, 0 or the empty string; likewise the email with the placeholder
      "applepay@example.com";
    - api/create-applepay-payment.js sends contact and email as the caller
      gave them and leaves them out when the caller did: it has no
      placeholders. *)
Theorem C8_placeholders (w : World) (req_body : value)
    (ro : response) (orderData order_id : value) (rp : response) :
  document req_body = true ->
  answers w orders_url ro -> ok ro = true -> json ro = Some orderData ->
  Js.get orderData "id" = inr order_id ->
  answers w payments_url rp ->
  (forall auth,
     applepay_fields req_body ->
     Server.getAuthHeader w (Js.prop req_body "country") = inr auth ->
     exists oc pc reply,
       Server.create_applepay_payment w req_body = ([oc; pc], reply) /\
       endpoint pc = payments_url /\
       Js.prop (sent pc) "contact"
       = (if Js.truthy (Js.prop req_body "contact")
          then Js.prop req_body "contact" else VStr "+60123456789") /\
       Js.prop (sent pc) "email"
       = (if Js.truthy (Js.prop req_body "email")
          then Js.prop req_body "email" else VStr "applepay@example.com")) /\
  (forall http cred,
     api_ready w (Request http req_body) cred ->
     exists oc pc reply,
       Api.create_applepay_payment w (Request http req_body) = ([oc; pc], reply) /\
       endpoint pc = payments_url /\
       Js.prop (sent pc) "contact" = Js.prop req_body "contact" /\
       Js.prop (sent pc) "email" = Js.prop req_body "email").
Proof.
  intros D G O J I GP. split.
  - intros auth F HA.
    destruct (server_applepay_run w req_body auth ro orderData order_id rp
                F HA G J O I GP) as (oc & pc & _ & EP & ES & R).
    exists oc, pc. eexists. split; [exact R|]. split; [exact EP|].
    rewrite ES. unfold Server.applepay_paymentRequest.
    rewrite !prop_stringify_nodup
      by (eapply applepay_names_server with (req_body := req_body); reflexivity).
    cbn [Js.prop Js.lookup String.eqb Ascii.eqb Bool.eqb andb]. unfold Js.or_else.
    split.
    + destruct (Js.truthy (Js.prop req_body "contact")); [|reflexivity].
      now apply stringify_prop.
    + destruct (Js.truthy (Js.prop req_body "email")); [|reflexivity].
      now apply stringify_prop.
  - intros http cred A.
    destruct (api_applepay_run w (Request http req_body) cred ro orderData order_id rp
                A G J O I GP) as (oc & pc & _ & EP & ES & R).
    exists oc, pc. eexists. split; [exact R|]. split; [exact EP|].
    rewrite ES. cbn [body]. unfold Api.applepay_paymentPayload.
    rewrite !prop_stringify_nodup
      by (eapply applepay_names_api with (req_body := req_body); reflexivity).
    cbn [Js.prop Js.lookup String.eqb Ascii.eqb Bool.eqb andb].
    split; now apply stringify_prop.
Qed.

(** A contact given and an email left out, on the wallet route of
    server.js. *)
Lemma C8_placeholders_witness :
  exists oc pc reply,
    Server.create_applepay_payment Demo.w_india C8.request_contact = ([oc; pc], reply) /\
    endpoint pc = payments_url /\
    Js.prop (sent pc) "contact" = VStr "+919999999999" /\
    Js.prop (sent pc) "email" = VStr "applepay@example.com".
Proof.
  refine (proj1 (C8_placeholders Demo.w_india C8.request_contact
                   (Demo.json_response 200 (VObj [("id", VStr "order_abc")]))
                   (VObj [("id", VStr "order_abc")]) (VStr "order_abc")
                   (Demo.json_response 200
                      (VObj [("razorpay_payment_id", VStr "pay_1");
                             ("status", VStr "captured")]))
                   eq_refl (demo_answers_order _ _ _) eq_refl eq_refl eq_refl
                   (demo_answers_payment _ _ _))
            "Basic rzp_in:secret_in" _ eq_refl).
  repeat split.
Defined.

(** C8 fails as stated: on the wallet route of server.js a contact and an
    email that the caller supplied as empty strings are replaced by the
    placeholders. *)
Lemma C8_counterexample :
  Js.prop C8.request_empty "contact" = VStr "" /\
  Js.prop C8.request_empty "email" = VStr "" /\
  map (fun c => (endpoint c, Js.prop (sent c) "contact", Js.prop (sent c) "email"))
    (fst (Server.create_applepay_payment Demo.w_india C8.request_empty))
  = [(orders_url, VUndef, VUndef);
     (payments_url, VStr "+60123456789", VStr "applepay@example.com")].
Proof. repeat split. Qed.

(** ** C9: the reply of a completed card payment *)

Lemma prop_set_same k v fs : Js.prop (VObj (Js.set k v fs)) k = v.
Proof. simpl. now rewrite lookup_set_same. Qed.

Lemma prop_set_other k k' v fs :
  k <> k' -> Js.prop (VObj (Js.set k' v fs)) k = Js.prop (VObj fs) k.
Proof. intros N. simpl. now rewrite lookup_set_other. Qed.

(** C9 (as amended).  A card request for which the order was accepted and
    the payment endpoint answers with a success status, a JSON content type
    and a JSON object:
    - the card route of server.js replies 200 with that object in which the
      property [order] is set to the document of the order answer, every
      other property being the gateway's;
    - api/create-payment.js, the object holding no redirect instruction,
      replies 200 with that object alone: the order is not merged in. *)
Theorem C9_completed_reply (w : World) (req_body : value)
    (ro : response) (orderData order_id : value)
    (rp : response) (fs : list (string * value)) :
  answers w orders_url ro -> ok ro = true -> json ro = Some orderData ->
  document orderData = true -> Js.get orderData "id" = inr order_id ->
  answers w payments_url rp -> is_json rp = true -> ok rp = true ->
  json rp = Some (VObj fs) -> document (VObj fs) = true ->
  (forall auth year,
     card_fields req_body ->
     Server.getAuthHeader w (Js.prop req_body "country") = inr auth ->
     Server.four_digit_year (Js.prop (Js.prop req_body "card") "expiry_year")
     = inr year ->
     Server.slice_last4 (Js.prop (Js.prop req_body "card") "number") = inr tt ->
     exists oc pc merged,
       Server.create_payment w req_body = ([oc; pc], Reply 200 (Some merged)) /\
       Js.prop merged "order" = orderData /\
       forall k, k <> "order" -> Js.prop merged k = Js.prop (VObj fs) k) /\
  (forall http cred,
     api_ready w (Request http req_body) cred ->
     redirect_url (VObj fs) = inr None ->
     exists oc pc,
       Api.create_payment w (Request http req_body)
       = ([oc; pc], Reply 200 (Some (VObj fs)))).
Proof.
  intros G O J DO I GP HJ OP JP DP. split.
  - intros auth year F HA Y S.
    destruct (server_card_run w req_body auth ro orderData order_id year rp
                F HA G J O I Y S GP) as (oc & pc & _ & _ & _ & R).
    exists oc, pc, (VObj (Js.set "order" orderData fs)).
    split; [|split].
    + rewrite R. unfold Server.card_outcome, json_of.
      rewrite HJ, JP, OP. cbn [negb Js.get Js.is_nullish finish Js.spread].
      unfold respond. now rewrite stringify_document by now apply document_set.
    + apply prop_set_same.
    + intros k N. now apply prop_set_other.
  - intros http cred A NR.
    destruct (api_card_run w (Request http req_body) cred ro orderData order_id rp
                A G J O I GP) as (oc & pc & _ & _ & _ & R).
    exists oc, pc. rewrite R. unfold Api.card_outcome, json_of.
    rewrite HJ, JP, NR. cbn [finish]. unfold respond.
    now rewrite stringify_document.
Qed.

(** Scenario 1 of the specification on the card route of server.js. *)
Lemma C9_completed_reply_witness :
  exists oc pc merged,
    Server.create_payment Demo.w_india C9.request = ([oc; pc], Reply 200 (Some merged)) /\
    Js.prop merged "order" = VObj [("id", VStr "order_abc")] /\
    forall k, k <> "order" -> Js.prop merged k = Js.prop C9.captured k.
Proof.
  refine (proj1 (C9_completed_reply Demo.w_india C9.request
                   (Demo.json_response 200 (VObj [("id", VStr "order_abc")]))
                   (VObj [("id", VStr "order_abc")]) (VStr "order_abc")
                   (Demo.json_response 200 C9.captured)
                   [("razorpay_payment_id", VStr "pay_1"); ("status", VStr "captured")]
                   (demo_answers_order _ _ _) eq_refl eq_refl eq_refl eq_refl
                   (demo_answers_payment _ _ _) eq_refl eq_refl eq_refl eq_refl)
            "Basic rzp_in:secret_in" (VStr "2027") _ eq_refl eq_refl eq_refl).
  repeat split.
Defined.

(** C9 fails as stated: on scenario 1 api/create-payment.js replies with
    the payment result alone; the reply holds no order. *)
Lemma C9_counterexample :
  snd (Api.create_payment Demo.w_india (Demo.post C9.request))
  = Reply 200 (Some C9.captured) /\
  field (snd (Api.create_payment Demo.w_india (Demo.post C9.request))) "status"
  = VStr "captured" /\
  field (snd (Api.create_payment Demo.w_india (Demo.post C9.request))) "order"
  = VUndef.
Proof. repeat split. Qed.

(** ** C7: a body without a redirect target *)

Lemma substring0_length n s : (String.length (Str.substring0 n s) <= n)%nat.
Proof.
  revert s. induction n as [|n IH]; intros [|c s]; simpl; try lia.
  specialize (IH s). lia.
Qed.

Lemma substring0_prefix n s : exists rest, s = Str.substring0 n s ++ rest.
Proof.
  revert s. induction n as [|n IH]; intros [|c s]; simpl; eauto.
  destruct (IH s) as [rest E]. exists rest. now rewrite <- E.
Qed.

Lemma no_target_server s :
  Str.includes s "url=" = false -> Server.redirect_target s = VNull.
Proof.
  intros I. unfold Server.redirect_target.
  now rewrite (exec_without_literal Regex.url_target "url=" s eq_refl I).
Qed.

Lemma no_target_api s :
  Str.includes s "url=" = false -> Api.redirect_target s = None.
Proof.
  intros I. unfold Api.redirect_target.
  now rewrite (exec_without_literal Regex.url_target_quoted "url=" s eq_refl I).
Qed.

(** C7 (as amended).  For a payment response whose content type does not
    include application/json and whose body does not contain [url=]:
    - both routes of server.js reply with the status of that response and
      an INVALID_RESPONSE error whose details are the first 200 characters
      of the body (the whole body when it is shorter);
    - api/create-payment.js and api/create-applepay-payment.js reply 500
      with a fixed description, and neither the status of the response nor
      any part of its body. *)
Theorem C7_unparseable (rp : response) :
  is_json rp = false -> Str.includes (text rp) "url=" = false ->
  (forall orderData order_id,
     Server.card_outcome orderData order_id rp
     = inr (Reply (status rp)
              (Some (VObj [("error",
                            VObj [("code", VStr "INVALID_RESPONSE");
                                  ("description",
                                   VStr "Received HTML response but could not extract authentication URL");
                                  ("details", VStr (Str.substring0 200 (text rp)))])])))) /\
  (forall orderData order_id,
     Server.applepay_outcome orderData order_id rp
     = inr (Reply (status rp)
              (Some (VObj [("error",
                            VObj [("code", VStr "INVALID_RESPONSE");
                                  ("description",
                                   VStr "Received HTML response but could not extract Apple Pay URL");
                                  ("details", VStr (Str.substring0 200 (text rp)))])])))) /\
  (String.length (Str.substring0 200 (text rp)) <= 200)%nat /\
  (exists rest, text rp = Str.substring0 200 (text rp) ++ rest) /\
  Api.card_outcome rp
  = inr (Reply 500
           (Some (VObj [("error",
                         VObj [("description",
                                VStr "Failed to parse payment response")])]))) /\
  Api.applepay_outcome rp
  = inr (Reply 500
           (Some (VObj [("error",
                         VObj [("description",
                                VStr "Failed to parse Apple Pay response")])]))).
Proof.
  intros NJ I.
  unfold Server.card_outcome, Server.applepay_outcome, Api.card_outcome,
    Api.applepay_outcome.
  rewrite NJ, (no_target_server _ I), (no_target_api _ I).
  repeat split; auto using substring0_length, substring0_prefix.
Qed.

(** A 502 page on the card route of server.js: the status is kept and the
    page is quoted. *)
Lemma C7_unparseable_witness :
  Server.card_outcome (VObj [("id", VStr "order_abc")]) (VStr "order_abc") Demo.bad_gateway
  = inr (Reply 502
           (Some (VObj [("error",
                         VObj [("code", VStr "INVALID_RESPONSE");
                               ("description",
                                VStr "Received HTML response but could not extract authentication URL");
                               ("details",
                                VStr "<html><body>502 Bad Gateway</body></html>")])]))).
Proof.
  exact (proj1 (C7_unparseable Demo.bad_gateway eq_refl eq_refl)
           (VObj [("id", VStr "order_abc")]) (VStr "order_abc")).
Defined.

(** C7 fails as stated: api/create-payment.js answers the 502 page with
    status 500 and without any part of the body. *)
Lemma C7_counterexample :
  is_json Demo.bad_gateway = false /\
  Str.includes (text Demo.bad_gateway) "url=" = false /\
  status Demo.bad_gateway = 502 /\
  Api.card_outcome Demo.bad_gateway
  = inr (Reply 500
           (Some (VObj [("error",
                         VObj [("description",
                                VStr "Failed to parse payment response")])]))).
Proof. repeat split. Qed.

(** ** C6: the redirect target of a body that is no JSON *)

Lemma stops_at_not_char stop post :
  Str.stops_at (Ascii.eqb stop) post = true ->
  Str.stops_at (fun c => negb (Regex.not_char stop c)) post = true.
Proof.
  destruct post as [|c post]; simpl; [reflexivity|].
  unfold Regex.not_char. now rewrite negb_involutive.
Qed.

Lemma exec_first_capture r lit stop s cap :
  Regex.lit r = Regex.chars lit -> Regex.class r = Regex.not_char stop ->
  Regex.tail r = [] -> unbordered lit ->
  first_capture lit stop s cap -> Regex.exec r s = Some cap.
Proof.
  intros HL HC HT U (pre & post & -> & I & NE & A & S).
  apply exec_leftmost with (1 := HL); [exact U|exact I|].
  unfold Regex.here. rewrite HL, atoms_chars_app, HC, HT.
  apply run_to_stop; [exact NE|exact A|now apply stops_at_not_char].
Qed.

Lemma exec_first_capture_closed r lit stop s cap :
  Regex.lit r = Regex.chars lit -> Regex.class r = Regex.not_char stop ->
  Regex.tail r = [Regex.Chr stop] -> unbordered lit ->
  first_capture_closed lit stop s cap -> Regex.exec r s = Some cap.
Proof.
  intros HL HC HT U (pre & post & -> & I & NE & A).
  apply exec_leftmost with (1 := HL); [exact U|exact I|].
  unfold Regex.here. rewrite HL, atoms_chars_app, HC, HT.
  apply run_to_quote; [exact NE|exact A|].
  unfold Regex.not_char. now rewrite Ascii.eqb_refl.
Qed.

Lemma server_target s target :
  first_capture "url=" Regex.dquote s target ->
  Server.redirect_target s = VStr target /\ Js.truthy (VStr target) = true.
Proof.
  intros C. unfold Server.redirect_target.
  rewrite (exec_first_capture Regex.url_target _ _ _ _
             eq_refl eq_refl eq_refl unbordered_url C).
  split; [reflexivity|].
  destruct C as (_ & _ & _ & _ & NE & _). now destruct target.
Qed.

Lemma api_target s target :
  first_capture_closed "url=" Regex.dquote s target ->
  Api.redirect_target s = Some target.
Proof.
  intros C. unfold Api.redirect_target.
  rewrite (exec_first_capture_closed Regex.url_target_quoted _ _ _ _
             eq_refl eq_refl eq_refl unbordered_url C).
  destruct C as (_ & _ & _ & _ & NE & _). now destruct target.
Qed.

Lemma server_payment_id target seg :
  target <> "" ->
  first_capture "payments/" "/" target seg ->
  Server.payment_id_of (VStr target) = VStr seg.
Proof.
  intros NE C. unfold Server.payment_id_of.
  rewrite (exec_first_capture Regex.payments_segment _ _ _ _
             eq_refl eq_refl eq_refl unbordered_payments C).
  now destruct target.
Qed.

Lemma server_payment_id_none target :
  Str.includes target "payments/" = false ->
  Server.payment_id_of (VStr target) = VNull.
Proof.
  intros I. unfold Server.payment_id_of.
  rewrite (exec_without_literal Regex.payments_segment "payments/" target eq_refl I).
  now destruct (Js.truthy (VStr target)).
Qed.

Lemma api_payment_id_unknown s :
  Str.includes s "razorpay_payment_id" = false ->
  Api.payment_id_of s = VStr "unknown".
Proof.
  intros I. unfold Api.payment_id_of.
  assert (Regex.exec Regex.payment_id_key s = None) as ->; [|reflexivity].
  induction s as [|c s IH]; [reflexivity|].
  simpl in I; apply orb_false_iff in I as [S I].
  - rewrite exec_skip; [now apply IH|].
    unfold Regex.here, Regex.payment_id_key. cbn [Regex.lit].
    assert (forall l t, Str.starts_with l t = false ->
              forall extra, Regex.atoms (Regex.chars l ++ extra) t = None) as K.
    { clear. induction l as [|a l IHl]; intros t; simpl; [discriminate|].
      destruct t as [|b t]; [reflexivity|].
      destruct (Ascii.eqb a b); simpl; [apply IHl|reflexivity]. }
    now rewrite K.
Qed.

(** C6 (as amended).  For a payment response whose content type does not
    include application/json:
    - server.js, both routes: when [target] is the run of characters other
      than the double quote after the first [url=] of the body, the reply
      is the 200 redirect reply with that target; its id is the run of
      characters other than [/] after the first [payments/] of the target,
      up to the next [/] or to the end of the target, and it is null when
      the target holds no [payments/];
    - api/create-payment.js and api/create-applepay-payment.js: when that
      run ends at a double quote, the reply is the 200 redirect reply with
      that target; its id is what
      [/razorpay_payment_id[=:]([a-zA-Z0-9_]+)/] captures in the body, and
      "unknown" when the body holds no [razorpay_payment_id]; the target's
      path is not looked at. *)
Theorem C6_html_redirect (rp : response) (target : string) :
  is_json rp = false ->
  (first_capture "url=" Regex.dquote (text rp) target ->
   forall orderData order_id,
     (forall seg,
        first_capture "payments/" "/" target seg ->
        Server.card_outcome orderData order_id rp
        = inr (C6.server_card_reply (VStr seg) order_id target) /\
        Server.applepay_outcome orderData order_id rp
        = inr (C6.server_applepay_reply (VStr seg) order_id target)) /\
     (Str.includes target "payments/" = false ->
      Server.card_outcome orderData order_id rp
      = inr (C6.server_card_reply VNull order_id target) /\
      Server.applepay_outcome orderData order_id rp
      = inr (C6.server_applepay_reply VNull order_id target))) /\
  (first_capture_closed "url=" Regex.dquote (text rp) target ->
   Api.card_outcome rp
   = inr (C6.api_card_reply (Api.payment_id_of (text rp)) target) /\
   Api.applepay_outcome rp
   = inr (C6.api_applepay_reply (Api.payment_id_of (text rp)) target) /\
   (Str.includes (text rp) "razorpay_payment_id" = false ->
    Api.payment_id_of (text rp) = VStr "unknown")).
Proof.
  intros NJ. split.
  - intros C orderData order_id.
    destruct (server_target _ _ C) as [T TT].
    assert (target <> "") as NE by (intros ->; discriminate).
    unfold Server.card_outcome, Server.applepay_outcome.
    rewrite NJ. cbn zeta. rewrite T, TT.
    split.
    + intros seg S. rewrite (server_payment_id _ _ NE S). split; reflexivity.
    + intros I. rewrite (server_payment_id_none _ I). split; reflexivity.
  - intros C. unfold Api.card_outcome, Api.applepay_outcome.
    rewrite NJ. cbn zeta. rewrite (api_target _ _ C).
    repeat split. apply api_payment_id_unknown.
Qed.

(** A page that redirects to .../payments/pay_2/authenticate, on the card
    route of server.js: the id is pay_2. *)
Lemma C6_html_redirect_witness :
  Server.card_outcome Demo.order_doc (VStr "order_abc")
    (Demo.html_response 200 (C6.page C6.authenticate))
  = inr (C6.server_card_reply (VStr "pay_2") (VStr "order_abc") C6.authenticate).
Proof.
  refine (proj1 (proj1 (proj1 (C6_html_redirect
                   (Demo.html_response 200 (C6.page C6.authenticate))
                   C6.authenticate eq_refl) _ Demo.order_doc (VStr "order_abc"))
            "pay_2" _)).
  - exists C6.page_head, (Demo.dq ++ ">"). repeat split. discriminate.
  - exists "https://api.x/", "/authenticate". repeat split. discriminate.
Defined.

(** C6 fails as stated.  On the page of the specification's example, whose
    target is .../payments/pay_123?x=1, server.js replies with the id
    pay_123?x=1 and api/create-payment.js with the id unknown; and on a
    page whose target holds no payments segment, server.js replies with
    the id null, not unknown. *)
Lemma C6_counterexample :
  Server.card_outcome Demo.order_doc (VStr "order_abc")
    (Demo.html_response 200 (C6.page C6.with_query))
  = inr (C6.server_card_reply (VStr "pay_123?x=1") (VStr "order_abc") C6.with_query) /\
  Api.card_outcome (Demo.html_response 200 (C6.page C6.with_query))
  = inr (C6.api_card_reply (VStr "unknown") C6.with_query) /\
  Server.card_outcome Demo.order_doc (VStr "order_abc")
    (Demo.html_response 200 (C6.page C6.hosted))
  = inr (C6.server_card_reply VNull (VStr "order_abc") C6.hosted).
Proof. repeat split. Qed.

(** ** C4: a payment refused by the gateway *)

(** The api handlers reply 200 to every JSON document without a redirect
    instruction, whatever the status it came under. *)
Lemma api_json_passthrough (rp : response) (data : value) :
  is_json rp = true -> json rp = Some data -> document data = true ->
  redirect_url data = inr None ->
  Api.card_outcome rp = inr (Reply 200 (Some data)) /\
  Api.applepay_outcome rp = inr (Reply 200 (Some data)).
Proof.
  intros HJ J D R.
  unfold Api.card_outcome, Api.applepay_outcome, json_of, respond.
  now rewrite HJ, J, R, (stringify_document _ D).
Qed.

(** The routes of server.js test the status of a JSON payment response:
    one outside 200..299 reaches the caller with the document unchanged
    (in the wallet route, when the document holds no redirect
    instruction). *)
Lemma server_json_refusal_relayed (rp : response) (data : value) :
  ok rp = false -> is_json rp = true -> json rp = Some data -> document data = true ->
  (forall orderData order_id,
     Server.card_outcome orderData order_id rp
     = inr (Reply (status rp) (Some data))) /\
  (redirect_url data = inr None ->
   forall orderData order_id,
     Server.applepay_outcome orderData order_id rp
     = inr (Reply (status rp) (Some data))).
Proof.
  intros O HJ J D.
  unfold Server.card_outcome, Server.applepay_outcome, json_of, respond.
  rewrite HJ, J, O, (stringify_document _ D). split.
  - reflexivity.
  - now intros ->.
Qed.

(** C4 (a defect of the code).  A card payment and a wallet payment for
    India, the order accepted, the payment call answered with status 400,
    content type application/json and an error document that holds no
    redirect instruction and no payment result.  api/create-payment.js and
    api/create-applepay-payment.js answer the caller with status 200 and
    that document: the gateway's status is replaced by 200, against the
    claim.  On the same request both routes of server.js answer 400 with
    the document, and the api handlers themselves answer 400 with the
    document when it is the order call that is refused in this way. *)
Theorem C4_refused_payment_answered_200 :
  ok (Demo.json_response 400 C4.declined) = false /\
  is_json (Demo.json_response 400 C4.declined) = true /\
  redirect_url C4.declined = inr None /\
  Api.create_payment C4.w_declined (Demo.post C4.request)
  = ([api_order C4.request "Basic rzp_in:secret_in";
      api_card_pay C4.request "Basic rzp_in:secret_in" (VStr "order_abc")],
     Reply 200 (Some C4.declined)) /\
  Api.create_applepay_payment C4.w_declined (Demo.post C4.wallet_request)
  = ([api_order C4.wallet_request "Basic rzp_in:secret_in";
      api_applepay_pay C4.wallet_request "Basic rzp_in:secret_in" (VStr "order_abc")],
     Reply 200 (Some C4.declined)) /\
  snd (Server.create_payment C4.w_declined C4.request)
  = Reply 400 (Some C4.declined) /\
  snd (Server.create_applepay_payment C4.w_declined C4.wallet_request)
  = Reply 400 (Some C4.declined) /\
  Api.create_payment C4.w_order_declined (Demo.post C4.request)
  = ([api_order C4.request "Basic rzp_in:secret_in"], Reply 400 (Some C4.declined)) /\
  Api.create_applepay_payment C4.w_order_declined (Demo.post C4.wallet_request)
  = ([api_order C4.wallet_request "Basic rzp_in:secret_in"],
     Reply 400 (Some C4.declined)).
Proof. repeat split. Qed.

(** ** The calls a handler issues *)

Ltac after_order_close :=
  cbn [fst app];
  first
    [ left; reflexivity
    | right; eexists; split; [reflexivity|]; apply only_order
    | right; eexists; split; [reflexivity|];
      eapply order_and_payment;
      [ match goal with H : gateway _ _ = Answer _ |- _ => exact H end
      | apply negb_false_iff; assumption
      | apply json_of_inr; eassumption
      | assumption
      | first [ reflexivity | eexists; split; [reflexivity|reflexivity] ] ]
    | right; do 2 eexists; split; [apply String.eqb_eq; apply negb_false_iff; assumption|];
      split; [reflexivity|]; split; [eassumption|]; apply only_order
    | right; do 2 eexists; split; [apply String.eqb_eq; apply negb_false_iff; assumption|];
      split; [reflexivity|]; split; [eassumption|];
      eapply order_and_payment;
      [ match goal with H : gateway _ _ = Answer _ |- _ => exact H end
      | apply negb_false_iff; assumption
      | apply json_of_inr; eassumption
      | assumption
      | reflexivity ] ].

Ltac log_paths :=
  unfold try_catch, bind, lift, fetch, ret, throw, Js.get;
  repeat (innermost_destruct; cbn beta iota zeta);
  after_order_close.

Lemma server_card_trace w req_body :
  server_card_log w req_body (fst (Server.create_payment w req_body)).
Proof. unfold Server.create_payment, server_card_log. log_paths. Qed.

Lemma server_applepay_trace w req_body :
  server_applepay_log w req_body (fst (Server.create_applepay_payment w req_body)).
Proof. unfold Server.create_applepay_payment, server_applepay_log. log_paths. Qed.

Lemma api_card_trace w req :
  api_log w req api_card_pay (fst (Api.create_payment w req)).
Proof. unfold Api.create_payment, Api.post_only, api_log. log_paths. Qed.

Lemma api_applepay_trace w req :
  api_log w req api_applepay_pay (fst (Api.create_applepay_payment w req)).
Proof. unfold Api.create_applepay_payment, Api.post_only, api_log. log_paths. Qed.

(** ** Further properties of the handlers *)

Lemma env_or_empty_string w k : Server.env_or_empty w k = VStr (env_or w k).
Proof.
  unfold Server.env_or_empty, Js.or_else, env_value, env_or.
  destruct (env w k) as [[|c s]|]; reflexivity.
Qed.

Lemma server_header_region w r h :
  Server.getAuthHeader w (VStr r) = inr h -> h = region_header w r.
Proof.
  unfold Server.getAuthHeader, index, Server.RAZORPAY_CONFIGS, credentials, region_header.
  rewrite !env_or_empty_string.
  cbn [Server.default_MY Js.to_string Js.lookup].
  by_region r;
    cbn [Js.lookup String.eqb Ascii.eqb Bool.eqb orb andb region Js.prop Js.truthy
         negb append Js.to_string].
  1-4: match goal with
       | |- context [Str.is_empty ?s] => destruct (Str.is_empty s)
       end; cbn [negb]; congruence.
  destruct (existsb _ _); cbn; discriminate.
Qed.

Lemma api_credentials_region w r config cred :
  Api.resolve w (VStr r) = inr (Some config) -> credentials config = inr cred ->
  "Basic " ++ base64 w cred = region_header w r.
Proof.
  rewrite api_resolve_spec. unfold has_id, has_secret, is_set, region_header, env_or.
  destruct (known_region r); cbn [andb]; [|discriminate].
  unfold env_value.
  destruct (env w ("RAZORPAY_KEY_ID_" ++ r)) as [i|]; cbn [andb]; [|discriminate].
  destruct (negb (Str.is_empty i)); cbn [andb]; [|discriminate].
  destruct (env w ("RAZORPAY_KEY_SECRET_" ++ r)) as [s|]; [|discriminate].
  destruct (negb (Str.is_empty s)); [|discriminate].
  intros [= <-]. unfold credentials. cbn. now intros [= <-].
Qed.

Lemma after_order_authorization w order pays log auth :
  authorization order = auth ->
  (forall order_id pc, pays order_id pc -> authorization pc = auth) ->
  after_order w order pays log ->
  forall c, In c log -> authorization c = auth.
Proof.
  intros AO AP [|ro od pc G O J N P] c I.
  - destruct I as [<-|[]]. exact AO.
  - destruct I as [<-|[<-|[]]]; [exact AO|eauto].
Qed.

(** Every gateway call of a request that names region [r] carries the
    Authorization header made of the identifier and the secret of [r]: a
    handler never uses the credentials of another region. *)
Theorem calls_carry_region_credentials (w : World) (req_body : value) (r : string) :
  Js.prop req_body "country" = VStr r ->
  (forall c, In c (fst (Server.create_payment w req_body)) ->
             authorization c = region_header w r) /\
  (forall c, In c (fst (Server.create_applepay_payment w req_body)) ->
             authorization c = region_header w r) /\
  (forall http c, In c (fst (Api.create_payment w (Request http req_body))) ->
                  authorization c = region_header w r) /\
  (forall http c, In c (fst (Api.create_applepay_payment w (Request http req_body))) ->
                  authorization c = region_header w r).
Proof.
  intros R. repeat split.
  - intros c I. destruct (server_card_trace w req_body) as [E|(auth & HA & T)].
    + rewrite E in I. destruct I.
    + rewrite R in HA. apply server_header_region in HA. subst auth.
      eapply after_order_authorization with (3 := T); [reflexivity| |exact I].
      intros order_id pc (year & _ & ->). reflexivity.
  - intros c I. destruct (server_applepay_trace w req_body) as [E|(auth & HA & T)].
    + rewrite E in I. destruct I.
    + rewrite R in HA. apply server_header_region in HA. subst auth.
      eapply after_order_authorization with (3 := T); [reflexivity| |exact I].
      intros order_id pc ->. reflexivity.
  - intros http c I.
    destruct (api_card_trace w (Request http req_body))
      as [E|(config & cred & _ & HR & HC & T)].
    + rewrite E in I. destruct I.
    + cbn [body] in *. rewrite R in HR.
      rewrite <- (api_credentials_region _ _ _ _ HR HC).
      eapply after_order_authorization with (3 := T); [reflexivity| |exact I].
      intros order_id pc ->. reflexivity.
  - intros http c I.
    destruct (api_applepay_trace w (Request http req_body))
      as [E|(config & cred & _ & HR & HC & T)].
    + rewrite E in I. destruct I.
    + cbn [body] in *. rewrite R in HR.
      rewrite <- (api_credentials_region _ _ _ _ HR HC).
      eapply after_order_authorization with (3 := T); [reflexivity| |exact I].
      intros order_id pc ->. reflexivity.
Qed.

(** Both calls of a card payment for India carry India's credentials. *)
Lemma calls_carry_region_credentials_witness :
  authorization (server_card_pay Extra.card_request "Basic rzp_in:secret_in"
                   (VStr "order_abc") (VStr "2027"))
  = region_header Demo.w_india "IN".
Proof.
  apply (proj1 (calls_carry_region_credentials Demo.w_india Extra.card_request "IN"
                  eq_refl)).
  right; left; reflexivity.
Defined.

Lemma keys_set k v fs k' :
  In k' (map fst (Js.set k v fs)) <-> k' = k \/ In k' (map fst fs).
Proof.
  induction fs as [|[k2 x] fs IH]; simpl.
  - intuition.
  - destruct (String.eqb k k2) eqn:E; simpl.
    + apply String.eqb_eq in E. subst. intuition.
    + rewrite IH. intuition.
Qed.

(** Assigning a property keeps the property names distinct. *)
Lemma NoDup_set k v fs :
  NoDup (map fst fs) -> NoDup (map fst (Js.set k v fs)).
Proof.
  induction fs as [|[k2 x] fs IH]; simpl; intros ND.
  - constructor; [intros []|constructor].
  - inversion ND as [|? ? NI ND']; subst.
    destruct (String.eqb k k2) eqn:E; simpl.
    + apply String.eqb_eq in E. subst. now constructor.
    + constructor; [|now apply IH].
      rewrite keys_set. intros [->|I]; [|contradiction].
      now rewrite String.eqb_refl in E.
Qed.

Lemma NoDup_set_if_truthy k v fs :
  NoDup (map fst fs) -> NoDup (map fst (Js.set_if_truthy k v fs)).
Proof.
  unfold Js.set_if_truthy. destruct (Js.truthy v); [apply NoDup_set|trivial].
Qed.

Lemma lookup_set_if_truthy_same k v fs :
  Js.lookup k fs = None ->
  Js.lookup k (Js.set_if_truthy k v fs) = if Js.truthy v then Some v else None.
Proof.
  intros L. unfold Js.set_if_truthy.
  destruct (Js.truthy v); [apply lookup_set_same|exact L].
Qed.

Ltac nodup_names :=
  repeat (constructor; [simpl; intuition discriminate|]); constructor.

Lemma server_card_names req_body order_id year :
  NoDup (map fst (Server.card_paymentRequest req_body order_id year)).
Proof.
  unfold Server.card_paymentRequest. cbn zeta.
  repeat apply NoDup_set_if_truthy. simpl. nodup_names.
Qed.

Lemma api_card_names req_body order_id :
  NoDup (map fst (Api.card_paymentPayload req_body order_id)).
Proof.
  unfold Api.card_paymentPayload. cbn zeta.
  apply NoDup_set_if_truthy. simpl. nodup_names.
Qed.

(** The properties of the payment request of the card route of server.js
    that come from the request as they are. *)
Lemma server_card_pay_base req_body auth order_id year k :
  In k ["amount"; "currency"; "method"; "contact"; "email"] ->
  Js.prop (sent (server_card_pay req_body auth order_id year)) k
  = Js.stringify (Js.prop req_body k).
Proof.
  intros I. cbn [sent server_card_pay].
  rewrite prop_stringify_nodup by apply server_card_names.
  f_equal. unfold Server.card_paymentRequest. cbn zeta. cbn [Js.prop].
  simpl in I.
  destruct I as [<-|[<-|[<-|[<-|[<-|[]]]]]];
    rewrite !lookup_set_if_truthy_other by discriminate; reflexivity.
Qed.

Lemma server_card_pay_order_id req_body auth order_id year :
  Js.prop (sent (server_card_pay req_body auth order_id year)) "order_id"
  = Js.stringify order_id.
Proof.
  cbn [sent server_card_pay].
  rewrite prop_stringify_nodup by apply server_card_names.
  f_equal. unfold Server.card_paymentRequest. cbn zeta. cbn [Js.prop].
  rewrite !lookup_set_if_truthy_other by discriminate; reflexivity.
Qed.

Lemma server_card_pay_optional req_body auth order_id year k :
  In k optional_names ->
  Js.prop (sent (server_card_pay req_body auth order_id year)) k
  = if Js.truthy (Js.prop req_body k) then Js.stringify (Js.prop req_body k)
    else VUndef.
Proof.
  intros I. cbn [sent server_card_pay].
  rewrite prop_stringify_nodup by apply server_card_names.
  unfold Server.card_paymentRequest. cbn zeta. cbn [Js.prop].
  simpl in I.
  destruct I as [<-|[<-|[<-|[<-|[<-|[<-|[]]]]]]];
    rewrite ?lookup_set_if_truthy_other by discriminate;
    (rewrite lookup_set_if_truthy_same;
     [match goal with
      | |- context [Js.truthy ?v] => destruct (Js.truthy v); reflexivity
      end
     | rewrite ?lookup_set_if_truthy_other by discriminate; reflexivity]).
Qed.

Lemma api_card_pay_forwarded req_body auth order_id k :
  In k forwarded_names ->
  Js.prop (sent (api_card_pay req_body auth order_id)) k
  = Js.stringify (Js.prop req_body k).
Proof.
  intros I. cbn [sent api_card_pay].
  rewrite prop_stringify_nodup by apply api_card_names.
  f_equal. unfold Api.card_paymentPayload. cbn zeta. cbn [Js.prop].
  rewrite lookup_set_if_truthy_other
    by (intros ->; simpl in I; intuition discriminate).
  simpl in I.
  destruct I as [<-|[<-|[<-|[<-|[<-|[<-|[<-|[<-|[<-|[<-|[<-|[]]]]]]]]]]]];
    reflexivity.
Qed.

Lemma api_card_pay_order_id req_body auth order_id :
  Js.prop (sent (api_card_pay req_body auth order_id)) "order_id"
  = Js.stringify order_id.
Proof.
  cbn [sent api_card_pay].
  rewrite prop_stringify_nodup by apply api_card_names.
  f_equal. unfold Api.card_paymentPayload. cbn zeta. cbn [Js.prop].
  now rewrite lookup_set_if_truthy_other by discriminate.
Qed.

Lemma api_card_pay_fingerprint req_body auth order_id :
  Js.prop (sent (api_card_pay req_body auth order_id)) "device_fingerprint"
  = if Js.truthy (Js.prop req_body "device_fingerprint")
    then Js.stringify (Js.prop req_body "device_fingerprint") else VUndef.
Proof.
  cbn [sent api_card_pay].
  rewrite prop_stringify_nodup by apply api_card_names.
  unfold Api.card_paymentPayload. cbn zeta. cbn [Js.prop].
  rewrite lookup_set_if_truthy_same by reflexivity.
  now destruct (Js.truthy _).
Qed.

Lemma order_amount_currency fs0 k a c rest :
  fs0 = ("amount", a) :: ("currency", c) :: rest ->
  NoDup (map fst fs0) ->
  In k ["amount"; "currency"] ->
  Js.prop (Js.stringify (VObj fs0)) k
  = Js.stringify (if String.eqb k "amount" then a else c).
Proof.
  intros -> ND I. rewrite prop_stringify_nodup by exact ND.
  simpl in I. destruct I as [<-|[<-|[]]]; reflexivity.
Qed.

Lemma after_order_two w order pays oc pc :
  after_order w order pays [oc; pc] ->
  oc = order /\
  exists ro orderData,
    gateway w order = Answer ro /\ json ro = Some orderData /\
    pays (Js.prop orderData "id") pc.
Proof. intros T. inversion T; subst. split; [reflexivity|]. eauto. Qed.

Ltac order_props :=
  intros k I; cbn [sent server_card_order server_applepay_order api_order];
  rewrite prop_stringify_nodup by (simpl; nodup_names);
  simpl in I; destruct I as [<-|[<-|[]]]; reflexivity.

(** Amount and currency of the payment call are those of the order call,
    and its order_id is the id of the document that answered the order
    call. *)
Theorem payment_matches_order (w : World) (req_body : value) (oc pc : call) :
  (fst (Server.create_payment w req_body) = [oc; pc] ->
   consistent w req_body oc pc) /\
  (fst (Server.create_applepay_payment w req_body) = [oc; pc] ->
   consistent w req_body oc pc) /\
  (forall http,
     fst (Api.create_payment w (Request http req_body)) = [oc; pc] ->
     consistent w req_body oc pc) /\
  (forall http,
     fst (Api.create_applepay_payment w (Request http req_body)) = [oc; pc] ->
     consistent w req_body oc pc).
Proof.
  repeat split.
  - destruct (server_card_trace w req_body) as [E|(auth & _ & T)]; [congruence|].
    rewrite H in T. apply after_order_two in T as (-> & ro & od & G & J & year & _ & ->).
    revert H0. revert k. order_props.
  - destruct (server_card_trace w req_body) as [E|(auth & _ & T)]; [congruence|].
    rewrite H in T. apply after_order_two in T as (-> & ro & od & G & J & year & _ & ->).
    apply server_card_pay_base. simpl in *. intuition.
  - destruct (server_card_trace w req_body) as [E|(auth & _ & T)]; [congruence|].
    rewrite H in T. apply after_order_two in T as (-> & ro & od & G & J & year & _ & ->).
    exists ro, od. repeat split; auto. apply server_card_pay_order_id.
  - destruct (server_applepay_trace w req_body) as [E|(auth & _ & T)]; [congruence|].
    rewrite H in T. apply after_order_two in T as (-> & ro & od & G & J & ->).
    revert H0. revert k. order_props.
  - destruct (server_applepay_trace w req_body) as [E|(auth & _ & T)]; [congruence|].
    rewrite H in T. apply after_order_two in T as (-> & ro & od & G & J & ->).
    cbn [sent server_applepay_pay]. unfold Server.applepay_paymentRequest.
    rewrite prop_stringify_nodup by (simpl; nodup_names).
    simpl in H0. destruct H0 as [<-|[<-|[]]]; reflexivity.
  - destruct (server_applepay_trace w req_body) as [E|(auth & _ & T)]; [congruence|].
    rewrite H in T. apply after_order_two in T as (-> & ro & od & G & J & ->).
    exists ro, od. repeat split; auto.
    cbn [sent server_applepay_pay]. unfold Server.applepay_paymentRequest.
    now rewrite prop_stringify_nodup by (simpl; nodup_names).
  - destruct (api_card_trace w (Request http req_body))
      as [E|(config & cred & _ & _ & _ & T)]; [congruence|].
    rewrite H in T. apply after_order_two in T as (-> & ro & od & G & J & ->).
    cbn [body]. revert H0. revert k. order_props.
  - destruct (api_card_trace w (Request http req_body))
      as [E|(config & cred & _ & _ & _ & T)]; [congruence|].
    rewrite H in T. apply after_order_two in T as (-> & ro & od & G & J & ->).
    cbn [body]. apply api_card_pay_forwarded. simpl in *. intuition.
  - destruct (api_card_trace w (Request http req_body))
      as [E|(config & cred & _ & _ & _ & T)]; [congruence|].
    rewrite H in T. apply after_order_two in T as (-> & ro & od & G & J & ->).
    exists ro, od. repeat split; auto. apply api_card_pay_order_id.
  - destruct (api_applepay_trace w (Request http req_body))
      as [E|(config & cred & _ & _ & _ & T)]; [congruence|].
    rewrite H in T. apply after_order_two in T as (-> & ro & od & G & J & ->).
    cbn [body]. revert H0. revert k. order_props.
  - destruct (api_applepay_trace w (Request http req_body))
      as [E|(config & cred & _ & _ & _ & T)]; [congruence|].
    rewrite H in T. apply after_order_two in T as (-> & ro & od & G & J & ->).
    cbn [body sent api_applepay_pay]. unfold Api.applepay_paymentPayload.
    rewrite prop_stringify_nodup by (simpl; nodup_names).
    simpl in H0. destruct H0 as [<-|[<-|[]]]; reflexivity.
  - destruct (api_applepay_trace w (Request http req_body))
      as [E|(config & cred & _ & _ & _ & T)]; [congruence|].
    rewrite H in T. apply after_order_two in T as (-> & ro & od & G & J & ->).
    exists ro, od. repeat split; auto.
    cbn [body sent api_applepay_pay]. unfold Api.applepay_paymentPayload.
    now rewrite prop_stringify_nodup by (simpl; nodup_names).
Qed.

Lemma payment_matches_order_witness :
  consistent Demo.w_india Extra.card_request
    (server_card_order Demo.w_india Extra.card_request "Basic rzp_in:secret_in")
    (server_card_pay Extra.card_request "Basic rzp_in:secret_in"
       (VStr "order_abc") (VStr "2027")).
Proof.
  exact (proj1 (payment_matches_order Demo.w_india Extra.card_request _ _) eq_refl).
Defined.

(** The card route of server.js sends each of authentication, browser,
    device_fingerprint, ip, referer and user_agent only when the request
    holds a truthy value for it, and leaves it out otherwise (also when the
    request holds null, false, 0 or the empty string).
    api/create-payment.js sends amount, currency, method, card, contact,
    email, authentication, browser, ip, referer and user_agent as the
    request holds them, falsy values included, and device_fingerprint only
    when it is truthy. *)
Theorem optional_fields_forwarding (w : World) (req_body : value) (oc pc : call) :
  (fst (Server.create_payment w req_body) = [oc; pc] ->
   forall k, In k optional_names ->
     Js.prop (sent pc) k
     = if Js.truthy (Js.prop req_body k) then Js.stringify (Js.prop req_body k)
       else VUndef) /\
  (forall http,
     fst (Api.create_payment w (Request http req_body)) = [oc; pc] ->
     (forall k, In k forwarded_names ->
        Js.prop (sent pc) k = Js.stringify (Js.prop req_body k)) /\
     Js.prop (sent pc) "device_fingerprint"
     = if Js.truthy (Js.prop req_body "device_fingerprint")
       then Js.stringify (Js.prop req_body "device_fingerprint") else VUndef).
Proof.
  split.
  - intros L k I.
    destruct (server_card_trace w req_body) as [E|(auth & _ & T)]; [congruence|].
    rewrite L in T. apply after_order_two in T as (_ & _ & od & _ & _ & year & _ & ->).
    now apply server_card_pay_optional.
  - intros http L.
    destruct (api_card_trace w (Request http req_body))
      as [E|(config & cred & _ & _ & _ & T)]; [congruence|].
    rewrite L in T. apply after_order_two in T as (_ & _ & od & _ & _ & ->).
    cbn [body]. split.
    + intros k I. now apply api_card_pay_forwarded.
    + apply api_card_pay_fingerprint.
Qed.

(** A request with a browser object and an empty ip: server.js sends the
    browser object and leaves ip out. *)
Lemma optional_fields_forwarding_witness :
  Js.prop (sent (server_card_pay Extra.card_request_browser "Basic rzp_in:secret_in"
                   (VStr "order_abc") (VStr "2027"))) "browser"
  = VObj [("language", VStr "en")] /\
  Js.prop (sent (server_card_pay Extra.card_request_browser "Basic rzp_in:secret_in"
                   (VStr "order_abc") (VStr "2027"))) "ip"
  = VUndef.
Proof.
  pose proof (proj1 (optional_fields_forwarding Demo.w_india Extra.card_request_browser
                       _ _) eq_refl) as H.
  split.
  - exact (H "browser" (or_intror (or_introl eq_refl))).
  - exact (H "ip" (or_intror (or_intror (or_intror (or_introl eq_refl))))).
Defined.

(** ** Transport failures, validation and method dispatch *)

Lemma bind_fetch_unreachable {B} w c reason (k : response -> M B) log :
  gateway w c = Unreachable reason ->
  bind (fetch w c) k log = ((log ++ [c])%list, inl (FetchError reason)).
Proof. intros G. unfold bind, fetch. now rewrite G. Qed.

Ltac run_to_order Ta HA :=
  rewrite (truthy_prop_get _ _ Ta), bind_lift_inr;
  repeat match goal with
         | T : Js.truthy _ = true |- _ => rewrite T; clear T
         end;
  cbn [negb orb];
  rewrite HA, bind_lift_inr.

(** When the gateway cannot be reached at the order endpoint, a request
    that got as far as the order call is answered 500 with the reason of
    the failure as description; the order call is issued once and no
    payment call is issued. *)
Theorem order_endpoint_unreachable (w : World) (reason : string) :
  unreachable w orders_url reason ->
  (forall req_body auth,
     card_fields req_body ->
     Server.getAuthHeader w (Js.prop req_body "country") = inr auth ->
     Server.create_payment w req_body
     = ([server_card_order w req_body auth], failed "PAYMENT_FAILED" reason)) /\
  (forall req_body auth,
     applepay_fields req_body ->
     Server.getAuthHeader w (Js.prop req_body "country") = inr auth ->
     Server.create_applepay_payment w req_body
     = ([server_applepay_order w req_body auth], failed "PAYMENT_FAILED" reason)) /\
  (forall req cred,
     api_ready w req cred ->
     Api.create_payment w req
     = ([api_order (body req) ("Basic " ++ base64 w cred)], api_failed reason) /\
     Api.create_applepay_payment w req
     = ([api_order (body req) ("Basic " ++ base64 w cred)], api_failed reason)).
Proof.
  intros U. repeat split.
  - intros req_body auth (Ta & Tc & Tm & Tk & Tr) HA.
    unfold Server.create_payment.
    apply try_catch_eq with (r := inl (FetchError reason)).
    run_to_order Ta HA.
    apply bind_fetch_unreachable. now apply U.
  - intros req_body auth (Ta & Tc & Tr) HA.
    unfold Server.create_applepay_payment.
    apply try_catch_eq with (r := inl (FetchError reason)).
    run_to_order Ta HA.
    apply bind_fetch_unreachable. now apply U.
  - destruct H as (HM & HB & config & HR & HC).
    unfold Api.create_payment. rewrite (post_only_post _ _ HM).
    apply try_catch_eq with (r := inl (FetchError reason)).
    rewrite (get_defined _ _ HB), bind_lift_inr.
    rewrite HR, bind_lift_inr, HC, bind_lift_inr.
    apply bind_fetch_unreachable. now apply U.
  - destruct H as (HM & HB & config & HR & HC).
    unfold Api.create_applepay_payment. rewrite (post_only_post _ _ HM).
    apply try_catch_eq with (r := inl (FetchError reason)).
    rewrite (get_defined _ _ HB), bind_lift_inr.
    rewrite HR, bind_lift_inr, HC, bind_lift_inr.
    apply bind_fetch_unreachable. now apply U.
Qed.

Lemma demo_unreachable_order vars reason p :
  unreachable (Demo.world vars (Unreachable reason) p) orders_url reason.
Proof. intros c E. simpl. unfold Demo.gateway_of. rewrite E. reflexivity. Defined.

Lemma order_endpoint_unreachable_witness :
  Server.create_payment Extra.w_down Extra.card_request
  = ([server_card_order Extra.w_down Extra.card_request "Basic rzp_in:secret_in"],
     failed "PAYMENT_FAILED" "connect ECONNREFUSED").
Proof.
  refine (proj1 (order_endpoint_unreachable Extra.w_down "connect ECONNREFUSED"
                   (demo_unreachable_order _ _ _))
            Extra.card_request "Basic rzp_in:secret_in" _ eq_refl).
  repeat split.
Defined.

(** When the order was accepted and the gateway cannot be reached at the
    payment endpoint, the request is answered 500 with the reason of the
    failure as description, after the order call and one payment call: the
    order stays created at the gateway, the payment call is not repeated,
    and the reply does not name the order. *)
Theorem payment_endpoint_unreachable (w : World) (ro : response) (orderData : value)
    (reason : string) :
  answers w orders_url ro -> ok ro = true -> json ro = Some orderData ->
  Js.is_nullish orderData = false ->
  unreachable w payments_url reason ->
  (forall req_body auth year,
     card_fields req_body ->
     Server.getAuthHeader w (Js.prop req_body "country") = inr auth ->
     Server.four_digit_year (Js.prop (Js.prop req_body "card") "expiry_year")
     = inr year ->
     Server.slice_last4 (Js.prop (Js.prop req_body "card") "number") = inr tt ->
     Server.create_payment w req_body
     = ([server_card_order w req_body auth;
         server_card_pay req_body auth (Js.prop orderData "id") year],
        failed "PAYMENT_FAILED" reason)) /\
  (forall req_body auth,
     applepay_fields req_body ->
     Server.getAuthHeader w (Js.prop req_body "country") = inr auth ->
     Server.create_applepay_payment w req_body
     = ([server_applepay_order w req_body auth;
         server_applepay_pay req_body auth (Js.prop orderData "id")],
        failed "PAYMENT_FAILED" reason)) /\
  (forall req cred,
     api_ready w req cred ->
     Api.create_payment w req
     = ([api_order (body req) ("Basic " ++ base64 w cred);
         api_card_pay (body req) ("Basic " ++ base64 w cred) (Js.prop orderData "id")],
        api_failed reason) /\
     Api.create_applepay_payment w req
     = ([api_order (body req) ("Basic " ++ base64 w cred);
         api_applepay_pay (body req) ("Basic " ++ base64 w cred)
           (Js.prop orderData "id")],
        api_failed reason)).
Proof.
  intros G O J N U.
  pose proof (get_defined orderData "id" N) as I.
  repeat split.
  - intros req_body auth year (Ta & Tc & Tm & Tk & Tr) HA Y S.
    unfold Server.create_payment.
    apply try_catch_eq with (r := inl (FetchError reason)).
    run_order Ta HA G ro J O.
    rewrite I, bind_lift_inr, Y, bind_lift_inr, S, !bind_lift_inr.
    apply bind_fetch_unreachable. now apply U.
  - intros req_body auth (Ta & Tc & Tr) HA.
    unfold Server.create_applepay_payment.
    apply try_catch_eq with (r := inl (FetchError reason)).
    run_order Ta HA G ro J O.
    rewrite I, !bind_lift_inr.
    apply bind_fetch_unreachable. now apply U.
  - destruct H as (HM & HB & config & HR & HC).
    unfold Api.create_payment.
    change (api_failed reason)
      with (finish (Api.catch_error w) (inl (FetchError reason))).
    run_api_order HM HB HR HC G ro J O.
    rewrite I, bind_lift_inr.
    apply bind_fetch_unreachable. now apply U.
  - destruct H as (HM & HB & config & HR & HC).
    unfold Api.create_applepay_payment.
    change (api_failed reason)
      with (finish (Api.catch_error w) (inl (FetchError reason))).
    run_api_order HM HB HR HC G ro J O.
    rewrite I, bind_lift_inr.
    apply bind_fetch_unreachable. now apply U.
Qed.

Lemma demo_unreachable_payment vars o reason :
  unreachable (Demo.world vars o (Unreachable reason)) payments_url reason.
Proof. intros c E. simpl. unfold Demo.gateway_of. rewrite E. reflexivity. Defined.

Lemma payment_endpoint_unreachable_witness :
  Server.create_applepay_payment Extra.w_payment_down Extra.wallet_request
  = ([server_applepay_order Extra.w_payment_down Extra.wallet_request
        "Basic rzp_in:secret_in";
      server_applepay_pay Extra.wallet_request "Basic rzp_in:secret_in"
        (VStr "order_abc")],
     failed "PAYMENT_FAILED" "socket hang up").
Proof.
  refine (proj1 (proj2 (payment_endpoint_unreachable Extra.w_payment_down
                          (Demo.json_response 200 Demo.order_doc) Demo.order_doc
                          "socket hang up"
                          (demo_answers_order _ _ _) eq_refl eq_refl eq_refl
                          (demo_unreachable_payment _ _ _)))
            Extra.wallet_request "Basic rzp_in:secret_in" _ eq_refl).
  repeat split.
Defined.

(** A request whose body is an object (or any value other than null and
    undefined) and that lacks one of the required fields of its route, or
    holds a falsy value for one (null, false, 0, the empty string), is
    answered 400 BAD_REQUEST by server.js with the fixed list of the
    route's required fields, whichever field is missing; no gateway call is
    issued and the environment is not consulted. *)
Theorem missing_fields (w : World) (req_body : value) :
  Js.is_nullish req_body = false ->
  (~ card_fields req_body ->
   Server.create_payment w req_body
   = ([], bad_request "amount, currency, country, method, card")) /\
  (~ applepay_fields req_body ->
   Server.create_applepay_payment w req_body
   = ([], bad_request "amount, currency, country")) /\
  (~ merchant_fields req_body ->
   Merchant.validate_apple_merchant w req_body
   = ([], bad_request "validationURL, domain, amount, currency")).
Proof.
  intros N. repeat split.
  - intros F. unfold Server.create_payment, card_fields in *.
    rewrite (get_defined _ _ N). unfold try_catch. rewrite bind_lift_inr.
    destruct (Js.truthy (Js.prop req_body "amount")),
             (Js.truthy (Js.prop req_body "currency")),
             (Js.truthy (Js.prop req_body "method")),
             (Js.truthy (Js.prop req_body "card")),
             (Js.truthy (Js.prop req_body "country"));
      try reflexivity.
    exfalso. apply F. repeat split.
  - intros F. unfold Server.create_applepay_payment, applepay_fields in *.
    rewrite (get_defined _ _ N). unfold try_catch. rewrite bind_lift_inr.
    destruct (Js.truthy (Js.prop req_body "amount")),
             (Js.truthy (Js.prop req_body "currency")),
             (Js.truthy (Js.prop req_body "country"));
      try reflexivity.
    exfalso. apply F. repeat split.
  - intros F. unfold Merchant.validate_apple_merchant, merchant_fields in *.
    rewrite (get_defined _ _ N). unfold try_catch. rewrite bind_lift_inr.
    destruct (Js.truthy (Js.prop req_body "validationURL")),
             (Js.truthy (Js.prop req_body "domain")),
             (Js.truthy (Js.prop req_body "amount")),
             (Js.truthy (Js.prop req_body "currency"));
      try reflexivity.
    exfalso. apply F. repeat split.
Qed.

(** A card request with amount 0. *)
Lemma missing_fields_witness :
  Server.create_payment Demo.w_india
    (VObj [("amount", VNum 0); ("currency", VStr "INR"); ("country", VStr "IN");
           ("method", VStr "card"); ("card", Demo.card "2027")])
  = ([], bad_request "amount, currency, country, method, card").
Proof.
  apply (missing_fields Demo.w_india); [reflexivity|].
  intros (A & _). discriminate A.
Defined.

(** A request without a body (req.body undefined or null) is not answered
    400: reading the first field throws, and the three routes of server.js
    and the two api handlers answer 500 with the message of that TypeError;
    no gateway call is issued. *)
Theorem missing_body (w : World) (req_body : value) :
  Js.is_nullish req_body = true ->
  Server.create_payment w req_body
  = ([], failed "PAYMENT_FAILED" (engine_message w (TypeError_read req_body "amount"))) /\
  Server.create_applepay_payment w req_body
  = ([], failed "PAYMENT_FAILED" (engine_message w (TypeError_read req_body "amount"))) /\
  Merchant.validate_apple_merchant w req_body
  = ([], failed "VALIDATION_FAILED"
           (engine_message w (TypeError_read req_body "validationURL"))) /\
  Api.create_payment w (Request "POST" req_body)
  = ([], api_failed (engine_message w (TypeError_read req_body "amount"))) /\
  Api.create_applepay_payment w (Request "POST" req_body)
  = ([], api_failed (engine_message w (TypeError_read req_body "amount"))).
Proof.
  intros N.
  unfold Server.create_payment, Server.create_applepay_payment,
    Merchant.validate_apple_merchant, Api.create_payment,
    Api.create_applepay_payment, Api.post_only, Js.get.
  cbn [http_method body String.eqb Ascii.eqb Bool.eqb negb].
  rewrite N. repeat split.
Qed.

Lemma missing_body_witness :
  Server.create_payment Demo.w_india VUndef
  = ([], failed "PAYMENT_FAILED" "runtime error").
Proof. exact (proj1 (missing_body Demo.w_india VUndef eq_refl)). Defined.

(** The two api handlers look at the HTTP method before anything else: an
    OPTIONS request is answered 200 with an empty body, every method other
    than OPTIONS and POST is answered 405, and in both cases no gateway
    call is issued, whatever the body and the environment are. *)
Theorem method_dispatch (w : World) (req : request) :
  (http_method req = "OPTIONS" ->
   Api.create_payment w req = ([], Reply 200 None) /\
   Api.create_applepay_payment w req = ([], Reply 200 None)) /\
  (http_method req <> "OPTIONS" -> http_method req <> "POST" ->
   Api.create_payment w req
   = ([], Reply 405 (Some (VObj [("error", VStr "Method not allowed")]))) /\
   Api.create_applepay_payment w req
   = ([], Reply 405 (Some (VObj [("error", VStr "Method not allowed")])))).
Proof.
  unfold Api.create_payment, Api.create_applepay_payment, Api.post_only.
  split.
  - intros ->. split; reflexivity.
  - intros NO NP.
    apply String.eqb_neq in NO, NP. rewrite NO, NP. split; reflexivity.
Qed.

Lemma method_dispatch_witness :
  Api.create_payment Demo.w_india (Request "GET" Extra.card_request)
  = ([], Reply 405 (Some (VObj [("error", VStr "Method not allowed")]))).
Proof.
  refine (proj1 (proj2 (method_dispatch Demo.w_india (Request "GET" Extra.card_request))
                   _ _)); discriminate.
Defined.

(** ** The merchant-validation route *)

Lemma truthy_prop_get_truthy v k :
  Js.truthy (Js.prop v k) = true -> Js.truthy v = true.
Proof.
  destruct v as [| | | |s| |]; simpl; try discriminate; try reflexivity.
  destruct (String.eqb k "length"); [|discriminate].
  destruct s; [discriminate|reflexivity].
Qed.

Lemma merchant_header w auth :
  Server.getAuthHeader w VUndef = inr auth -> auth = region_header w "MY".
Proof. exact (server_header_region w "MY" auth). Qed.

(** The merchant-validation route of server.js issues no call or one call,
    to the ajax endpoint, with the validation request built from the
    request's fields.  That call carries the credentials of MY whatever
    country the request names: the route calls getAuthHeader without an
    argument. *)
Theorem merchant_single_call (w : World) (req_body : value) :
  fst (Merchant.validate_apple_merchant w req_body) = [] \/
  fst (Merchant.validate_apple_merchant w req_body)
  = [merchant_call req_body (region_header w "MY")].
Proof.
  unfold Merchant.validate_apple_merchant.
  destruct (Server.getAuthHeader w VUndef) as [e|auth] eqn:HA.
  2: apply merchant_header in HA; subst auth.
  all: unfold try_catch, bind, lift, fetch, ret, throw, Js.get;
    repeat (innermost_destruct; cbn beta iota zeta);
    cbn [fst app]; first [left; reflexivity | right; reflexivity].
Qed.

Ltac run_merchant F U HA G r J :=
  let Tv := fresh in let Td := fresh in let Ta := fresh in let Tc := fresh in
  destruct F as (Tv & Td & Ta & Tc);
  unfold Merchant.validate_apple_merchant;
  rewrite (truthy_prop_get _ _ Tv), bind_lift_inr;
  rewrite Tv, Td, Ta, Tc; cbn [negb orb];
  rewrite U; cbn [Merchant.substring_50]; rewrite bind_lift_inr;
  rewrite HA, bind_lift_inr;
  rewrite bind_fetch with (r := r) by exact G;
  unfold json_of; rewrite J, bind_lift_inr.

(** Where the secret of MY is not set, the merchant-validation route
    answers 500 VALIDATION_FAILED to every well-formed request and issues
    no call, also when the request names a configured country. *)
Theorem merchant_needs_default_region (w : World) (req_body : value) (url : string) :
  has_secret w "MY" = false ->
  merchant_fields req_body -> Js.prop req_body "validationURL" = VStr url ->
  Merchant.validate_apple_merchant w req_body
  = ([], failed "VALIDATION_FAILED" "Invalid or unconfigured country: MY").
Proof.
  intros S (Tv & Td & Ta & Tc) U.
  pose proof (server_getAuthHeader_spec w "MY") as HA.
  rewrite S in HA. cbn [known_region existsb String.eqb Ascii.eqb Bool.eqb orb andb] in HA.
  unfold Merchant.validate_apple_merchant.
  apply try_catch_eq with (r := inl (unconfigured "MY")).
  rewrite (truthy_prop_get _ _ Tv), bind_lift_inr.
  rewrite Tv, Td, Ta, Tc. cbn [negb orb].
  rewrite U. cbn [Merchant.substring_50]. rewrite bind_lift_inr.
  change (Server.getAuthHeader w VUndef) with (Server.getAuthHeader w (VStr "MY")).
  rewrite HA. reflexivity.
Qed.

(** India alone is configured and the request names India. *)
Lemma merchant_needs_default_region_witness :
  Merchant.validate_apple_merchant Demo.w_india Extra.merchant_request
  = ([], failed "VALIDATION_FAILED" "Invalid or unconfigured country: MY").
Proof.
  apply (merchant_needs_default_region Demo.w_india Extra.merchant_request
           "https://apple-pay-gateway.apple.com/paymentservices/startSession").
  - reflexivity.
  - repeat split.
  - reflexivity.
Defined.

(** When the gateway answers the validation call with a success status and
    a JSON document, the route replies 200 with data.session_data of that
    document, unchanged and without a wrapper, when it is truthy, and 500
    VALIDATION_FAILED when the document holds no data or no session_data. *)
Theorem merchant_session_returned (w : World) (req_body : value) (url auth : string)
    (r : response) (data : value) :
  merchant_fields req_body -> Js.prop req_body "validationURL" = VStr url ->
  Server.getAuthHeader w VUndef = inr auth ->
  gateway w (merchant_call req_body auth) = Answer r ->
  ok r = true -> json r = Some data -> Js.is_nullish data = false ->
  Merchant.validate_apple_merchant w req_body
  = ([merchant_call req_body auth],
     if Js.truthy (Js.prop (Js.prop data "data") "session_data")
     then respond 200 (Js.prop (Js.prop data "data") "session_data")
     else failed "VALIDATION_FAILED" "No merchant session received from Razorpay").
Proof.
  intros F U HA G O J N.
  replace (if Js.truthy (Js.prop (Js.prop data "data") "session_data")
           then respond 200 (Js.prop (Js.prop data "data") "session_data")
           else failed "VALIDATION_FAILED" "No merchant session received from Razorpay")
    with (finish (Merchant.catch_validation_failed w) (Merchant.session_of r data)).
  - apply try_catch_eq.
    run_merchant F U HA G r J. apply lift_run.
  - unfold Merchant.session_of. rewrite O, (get_defined _ _ N). cbn [negb].
    destruct (Js.truthy (Js.prop (Js.prop data "data") "session_data")) eqn:T.
    + rewrite (truthy_prop_get_truthy _ _ T). reflexivity.
    + now rewrite orb_true_r.
Qed.

Lemma merchant_session_returned_witness :
  Merchant.validate_apple_merchant (Extra.merchant_world (Answer Extra.session_answer))
    Extra.merchant_request
  = ([merchant_call Extra.merchant_request "Basic rzp_my:secret_my"],
     respond 200 Extra.session).
Proof.
  refine (merchant_session_returned
            (Extra.merchant_world (Answer Extra.session_answer))
            Extra.merchant_request
            "https://apple-pay-gateway.apple.com/paymentservices/startSession"
            "Basic rzp_my:secret_my" Extra.session_answer _
            _ eq_refl eq_refl eq_refl eq_refl eq_refl eq_refl).
  repeat split.
Defined.

(** When the gateway answers the validation call with a status outside
    200..299 and a JSON document, the route replies 500 VALIDATION_FAILED,
    never the gateway's status and never the gateway's document: the
    description is error.description of the document when that is a
    non-empty string, and a fixed text when the document holds none. *)
Theorem merchant_refusal (w : World) (req_body : value) (url auth : string)
    (r : response) (data : value) :
  merchant_fields req_body -> Js.prop req_body "validationURL" = VStr url ->
  Server.getAuthHeader w VUndef = inr auth ->
  gateway w (merchant_call req_body auth) = Answer r ->
  ok r = false -> json r = Some data -> Js.is_nullish data = false ->
  (forall d, Js.prop (Js.prop data "error") "description" = VStr d -> d <> "" ->
     Merchant.validate_apple_merchant w req_body
     = ([merchant_call req_body auth], failed "VALIDATION_FAILED" d)) /\
  (Js.truthy (Js.prop (Js.prop data "error") "description") = false ->
   Merchant.validate_apple_merchant w req_body
   = ([merchant_call req_body auth],
      failed "VALIDATION_FAILED" "Merchant validation failed")).
Proof.
  intros F U HA G O J N.
  assert (Merchant.error_description data
          = inr (Js.prop (Js.prop data "error") "description")) as ED.
  { unfold Merchant.error_description. rewrite (get_defined _ _ N).
    destruct (Js.prop data "error"); reflexivity. }
  split.
  - intros d D NE.
    apply try_catch_eq with (r := inl (Error d)).
    run_merchant F U HA G r J.
    unfold Merchant.session_of. rewrite O, ED, D. cbn [negb].
    unfold Js.or_else. cbn [Js.truthy].
    destruct d; [congruence|reflexivity].
  - intros T.
    apply try_catch_eq with (r := inl (Error "Merchant validation failed")).
    run_merchant F U HA G r J.
    unfold Merchant.session_of. rewrite O, ED. cbn [negb].
    unfold Js.or_else. rewrite T. reflexivity.
Qed.

Lemma merchant_refusal_witness :
  Merchant.validate_apple_merchant (Extra.merchant_world (Answer Extra.refusal_answer))
    Extra.merchant_request
  = ([merchant_call Extra.merchant_request "Basic rzp_my:secret_my"],
     failed "VALIDATION_FAILED" "Apple Pay is not enabled").
Proof.
  refine (proj1 (merchant_refusal
                   (Extra.merchant_world (Answer Extra.refusal_answer))
                   Extra.merchant_request
                   "https://apple-pay-gateway.apple.com/paymentservices/startSession"
                   "Basic rzp_my:secret_my" Extra.refusal_answer _
                   _ eq_refl eq_refl eq_refl eq_refl eq_refl eq_refl)
            "Apple Pay is not enabled" eq_refl _).
  - repeat split.
  - discriminate.
Defined.

(** ** The health endpoints *)

Lemma truthy_env_or w k : Js.truthy (VStr (env_or w k)) = is_set w k.
Proof. rewrite <- env_or_empty_string. apply truthy_env_or_empty. Qed.

Lemma server_health_flag w timestamp r :
  known_region r = true ->
  Js.prop (Js.prop (field (Health.server_health w timestamp) "countries") r) "configured"
  = VBool (has_secret w r).
Proof.
  intros K. unfold Health.server_health, Server.RAZORPAY_CONFIGS, has_secret.
  rewrite !env_or_empty_string.
  rewrite <- truthy_env_or.
  by_region r; [reflexivity..|].
  unfold known_region in K. cbn [existsb] in K.
  rewrite EMY, ESG, EUS, EIN in K. discriminate.
Qed.

Lemma api_health_flag w timestamp r :
  known_region r = true ->
  Js.prop (field (Health.api_health w timestamp) "configured_geographies") r
  = VBool (has_id w r && has_secret w r).
Proof.
  intros K. unfold Health.api_health, Health.both_set, has_id, has_secret.
  rewrite !truthy_env_value.
  destruct (is_set w "VERCEL");
    (by_region r; [reflexivity..|];
     unfold known_region in K; cbn [existsb] in K;
     rewrite EMY, ESG, EUS, EIN in K; discriminate).
Qed.

(** For each of the four regions, the flag that a health endpoint reports
    is true exactly when the handlers of the same file accept the region:
    [configured] of /health of server.js when getConfig succeeds (the
    secret is set), and the entry of [configured_geographies] of the
    serverless health function when the api handlers resolve the region
    (identifier and secret are set). *)
Theorem health_reports_resolution (w : World) (timestamp r : string) :
  known_region r = true ->
  (Js.prop (Js.prop (field (Health.server_health w timestamp) "countries") r) "configured"
   = VBool true
   <-> exists config, Server.getConfig w (VStr r) = inr config) /\
  (Js.prop (field (Health.api_health w timestamp) "configured_geographies") r
   = VBool true
   <-> exists config, Api.resolve w (VStr r) = inr (Some config)).
Proof.
  intros K.
  rewrite (server_health_flag w timestamp r K), (api_health_flag w timestamp r K).
  rewrite server_getConfig_spec, api_resolve_spec, K. cbn [andb].
  split; split.
  - intros [= ->]. unfold index. cbn [Js.to_string]. eauto.
  - intros [config E]. destruct (has_secret w r); [reflexivity|discriminate].
  - intros [= ->]. eauto.
  - intros [config E]. destruct (has_id w r && has_secret w r); [reflexivity|discriminate].
Qed.

Lemma health_reports_resolution_witness :
  Js.prop (Js.prop (field (Health.server_health Demo.w_india "2024-01-01T00:00:00.000Z")
                      "countries") "IN") "configured"
  = VBool true
  <-> exists config, Server.getConfig Demo.w_india (VStr "IN") = inr config.
Proof.
  exact (proj1 (health_reports_resolution Demo.w_india "2024-01-01T00:00:00.000Z" "IN"
                  eq_refl)).
Defined.

(** The health endpoints do not reveal a secret: the reply of /health of
    server.js is the same in two environments that differ only in the
    values of the secrets that are set (it shows the identifiers), and the
    reply of the serverless health function is the same in two environments
    in which the same variables are set (it shows no identifier either). *)
Theorem health_hides_secrets (w1 w2 : World) (timestamp : string) :
  (same_but_secrets w1 w2 ->
   Health.server_health w1 timestamp = Health.server_health w2 timestamp) /\
  (same_flags w1 w2 ->
   Health.api_health w1 timestamp = Health.api_health w2 timestamp).
Proof.
  split.
  - intros S.
    destruct (S "MY" eq_refl) as [I1 S1], (S "SG" eq_refl) as [I2 S2],
             (S "US" eq_refl) as [I3 S3], (S "IN" eq_refl) as [I4 S4].
    unfold has_secret in *. rewrite <- !truthy_env_or in *.
    cbn [append] in *.
    unfold Health.server_health, Server.RAZORPAY_CONFIGS, Health.country_entry, region.
    rewrite !env_or_empty_string.
    cbn [map fst snd Js.prop Js.lookup String.eqb Ascii.eqb Bool.eqb].
    now rewrite I1, I2, I3, I4, S1, S2, S3, S4.
  - intros [V S].
    destruct (S "MY" eq_refl) as [I1 S1], (S "SG" eq_refl) as [I2 S2],
             (S "US" eq_refl) as [I3 S3], (S "IN" eq_refl) as [I4 S4].
    unfold has_id, has_secret in *. cbn [append] in *.
    unfold Health.api_health, Health.both_set.
    rewrite !truthy_env_value.
    now rewrite V, I1, I2, I3, I4, S1, S2, S3, S4.
Qed.

Lemma demo_same_but_secrets : same_but_secrets Demo.w_india Extra.w_other_secret.
Proof.
  intros r K.
  by_region r; [split; reflexivity..|].
  unfold known_region in K. cbn [existsb] in K.
  rewrite EMY, ESG, EUS, EIN in K. discriminate.
Defined.

Lemma health_hides_secrets_witness :
  Health.server_health Demo.w_india "2024-01-01T00:00:00.000Z"
  = Health.server_health Extra.w_other_secret "2024-01-01T00:00:00.000Z".
Proof.
  exact (proj1 (health_hides_secrets Demo.w_india Extra.w_other_secret
                  "2024-01-01T00:00:00.000Z") demo_same_but_secrets).
Defined.

(** ** The expiry-year shim and the inspection of next *)

Lemma two_long_nonempty v s :
  Js.is_number 2 (Js.prop v "length") = true -> Js.to_string v = inr s -> s <> "".
Proof.
  destruct v as [| |b|n|s0|l|fs]; cbn [Js.prop Js.is_number]; try discriminate.
  - cbn [String.eqb Ascii.eqb Bool.eqb andb Js.is_number Js.to_string].
    intros E [= <-] ->. discriminate.
  - cbn [String.eqb Ascii.eqb Bool.eqb andb Js.is_number].
    intros E. apply Z.eqb_eq in E.
    destruct l as [|a [|b [|c l]]]; cbn [List.length] in E; try lia.
    cbn [Js.to_string].
    destruct (if Js.is_nullish a then inr "" else Js.to_string a) as [e|sa];
      [discriminate|].
    destruct (if Js.is_nullish b then inr "" else Js.to_string b) as [e|sb];
      [discriminate|].
    intros [= <-]. destruct sa; discriminate.
  - intros _. cbn [Js.to_string].
    destruct (Js.has_key "toString" fs); [discriminate|].
    intros [= <-]. discriminate.
Qed.

(** Whatever the expiry year is, what the shim of the card route of
    server.js returns does not have a length of 2, and the shim applied to
    it changes nothing: a year is prefixed at most once. *)
Theorem expiry_year_shim_stable (v year : value) :
  Server.four_digit_year v = inr year ->
  Js.is_number 2 (Js.prop year "length") = false /\
  Server.four_digit_year year = inr year.
Proof.
  intros H.
  assert (Js.is_nullish year = false /\
          Js.is_number 2 (Js.prop year "length") = false) as [N E].
  { unfold Server.four_digit_year, Js.get in H.
    destruct (Js.is_nullish v) eqn:NV; [discriminate|].
    destruct (Js.is_number 2 (Js.prop v "length")) eqn:E.
    - destruct (Js.to_string v) as [e|s] eqn:TS; [discriminate|].
      injection H as <-. split; [reflexivity|].
      pose proof (two_long_nonempty v s E TS) as NE.
      cbn [Js.prop String.eqb Ascii.eqb Bool.eqb andb Js.is_number].
      unfold Js.str_length. apply Z.eqb_neq.
      destruct s as [|c s]; [congruence|]. cbn [append String.length]. lia.
    - injection H as <-. now split. }
  split; [exact E|].
  unfold Server.four_digit_year, Js.get. now rewrite N, E.
Qed.

Lemma expiry_year_shim_stable_witness :
  Js.is_number 2 (Js.prop (VStr "2027") "length") = false /\
  Server.four_digit_year (VStr "2027") = inr (VStr "2027").
Proof. exact (expiry_year_shim_stable (VStr "27") (VStr "2027") eq_refl). Defined.

Lemma find_redirect_null before entry after :
  Forall passed_over before -> Js.is_nullish entry = true ->
  find_redirect (before ++ entry :: after) = inl (TypeError_read entry "action").
Proof.
  intros F E. induction F as [|x l [N A] F IH]; cbn [app find_redirect]; unfold Js.get.
  - now rewrite E.
  - now rewrite N, A.
Qed.

Lemma redirect_url_null data before entry after :
  Js.prop data "next" = VArr (before ++ entry :: after) ->
  Forall passed_over before -> Js.is_nullish entry = true ->
  redirect_url data = inl (TypeError_read entry "action").
Proof.
  intros X F E. unfold redirect_url.
  rewrite (get_defined data "next") by (apply prop_defined with (1 := X); discriminate).
  rewrite X. now rewrite (find_redirect_null _ _ _ F E).
Qed.

(** The handlers that inspect [next] (api/create-payment.js,
    api/create-applepay-payment.js and the wallet route of server.js) read
    [action] of every entry up to the first redirect entry.  When the
    payment response is a JSON document whose [next] holds null ahead of
    any redirect entry, that read throws: the request is answered 500 with
    the message of the TypeError although the order call and the payment
    call were both issued and answered. *)
Theorem null_entry_in_next (w : World) (ro : response) (orderData : value)
    (rp : response) (data : value) (before : list value) (entry : value)
    (after : list value) :
  answers w orders_url ro -> ok ro = true -> json ro = Some orderData ->
  Js.is_nullish orderData = false ->
  answers w payments_url rp -> is_json rp = true -> json rp = Some data ->
  Js.prop data "next" = VArr (before ++ entry :: after) ->
  Forall passed_over before -> Js.is_nullish entry = true ->
  (forall req cred,
     api_ready w req cred ->
     Api.create_payment w req
     = ([api_order (body req) ("Basic " ++ base64 w cred);
         api_card_pay (body req) ("Basic " ++ base64 w cred) (Js.prop orderData "id")],
        api_failed (engine_message w (TypeError_read entry "action"))) /\
     Api.create_applepay_payment w req
     = ([api_order (body req) ("Basic " ++ base64 w cred);
         api_applepay_pay (body req) ("Basic " ++ base64 w cred)
           (Js.prop orderData "id")],
        api_failed (engine_message w (TypeError_read entry "action")))) /\
  (forall req_body auth,
     applepay_fields req_body ->
     Server.getAuthHeader w (Js.prop req_body "country") = inr auth ->
     Server.create_applepay_payment w req_body
     = ([server_applepay_order w req_body auth;
         server_applepay_pay req_body auth (Js.prop orderData "id")],
        failed "PAYMENT_FAILED" (engine_message w (TypeError_read entry "action")))).
Proof.
  intros G O J N GP HJ JP X F E.
  pose proof (get_defined orderData "id" N) as I.
  pose proof (redirect_url_null _ _ _ _ X F E) as R.
  assert (Api.card_outcome rp = inl (TypeError_read entry "action")) as OC
    by (unfold Api.card_outcome, json_of; now rewrite HJ, JP, R).
  assert (Api.applepay_outcome rp = inl (TypeError_read entry "action")) as OA
    by (unfold Api.applepay_outcome, json_of; now rewrite HJ, JP, R).
  assert (forall order_id,
             Server.applepay_outcome orderData order_id rp
             = inl (TypeError_read entry "action")) as OS
    by (intros; unfold Server.applepay_outcome, json_of; now rewrite HJ, JP, R).
  assert (api_failed (engine_message w (TypeError_read entry "action"))
          = finish (Api.catch_error w) (inl (TypeError_read entry "action"))) as ->
    by reflexivity.
  repeat split.
  - destruct H as (HM & HB & config & HR & HC).
    unfold Api.create_payment.
    run_api_order HM HB HR HC G ro J O.
    rewrite I, bind_lift_inr.
    rewrite bind_fetch with (r := rp) by (apply GP; reflexivity).
    rewrite OC. reflexivity.
  - destruct H as (HM & HB & config & HR & HC).
    unfold Api.create_applepay_payment.
    run_api_order HM HB HR HC G ro J O.
    rewrite I, bind_lift_inr.
    rewrite bind_fetch with (r := rp) by (apply GP; reflexivity).
    rewrite OA. reflexivity.
  - intros req_body auth (Ta & Tc & Tr) HA.
    unfold Server.create_applepay_payment.
    apply try_catch_eq with (r := inl (TypeError_read entry "action")).
    run_order Ta HA G ro J O.
    rewrite I, !bind_lift_inr.
    rewrite bind_fetch with (r := rp) by (apply GP; reflexivity).
    rewrite OS. reflexivity.
Qed.

Lemma null_entry_in_next_witness :
  Server.create_applepay_payment Extra.w_null_entry Extra.wallet_request
  = ([server_applepay_order Extra.w_null_entry Extra.wallet_request
        "Basic rzp_in:secret_in";
      server_applepay_pay Extra.wallet_request "Basic rzp_in:secret_in"
        (VStr "order_abc")],
     failed "PAYMENT_FAILED" "runtime error").
Proof.
  refine (proj2 (null_entry_in_next Extra.w_null_entry
                   (Demo.json_response 200 Demo.order_doc) Demo.order_doc
                   (Demo.json_response 200 (VObj [("next", VArr [VNull])]))
                   (VObj [("next", VArr [VNull])]) [] VNull []
                   (demo_answers_order _ _ _) eq_refl eq_refl eq_refl
                   (demo_answers_payment _ _ _) eq_refl eq_refl eq_refl
                   (Forall_nil _) eq_refl)
            Extra.wallet_request "Basic rzp_in:secret_in" _ eq_refl).
  repeat split.
Defined.

(** ** The statuses of the replies *)

Ltac status_close :=
  cbn [fst snd code respond app Api.invalid_country];
  first
    [ solve [left; cbn [In]; auto 6]
    | match goal with
      | H : gateway ?w0 ?k = Answer ?r |- _ \/ relayed _ _ (status ?r) =>
          right; exists k, r; split; [cbn [In]; auto|split; [exact H|reflexivity]]
      end
    | match goal with
      | H : gateway ?w0 ?k = Answer ?r |- _ \/ refusal_relayed _ _ (status ?r) =>
          right; exists k, r; split; [reflexivity|];
          split; [exact H|]; split; [apply negb_true_iff; assumption|reflexivity]
      end ].

Ltac status_paths :=
  unfold try_catch, bind, lift, fetch, ret, throw, Js.get, json_of;
  repeat (innermost_destruct; cbn beta iota zeta);
  status_close.

(** A handler does not make up a status.  A reply of a payment route of
    server.js carries 200, 400, 500 or the status that the gateway gave to
    one of the calls of the request; a reply of the merchant-validation
    route carries 200, 400 or 500 and never a status of the gateway; a
    reply of an api handler carries 200, 400, 405, 500 or the status of a
    refused order, and never the status of a payment response. *)
Theorem reply_statuses (w : World) :
  (forall req_body,
     In (code (snd (Server.create_payment w req_body))) [200; 400; 500] \/
     relayed w (fst (Server.create_payment w req_body))
       (code (snd (Server.create_payment w req_body)))) /\
  (forall req_body,
     In (code (snd (Server.create_applepay_payment w req_body))) [200; 400; 500] \/
     relayed w (fst (Server.create_applepay_payment w req_body))
       (code (snd (Server.create_applepay_payment w req_body)))) /\
  (forall req_body,
     In (code (snd (Merchant.validate_apple_merchant w req_body))) [200; 400; 500]) /\
  (forall req,
     In (code (snd (Api.create_payment w req))) [200; 400; 405; 500] \/
     refusal_relayed w (fst (Api.create_payment w req))
       (code (snd (Api.create_payment w req)))) /\
  (forall req,
     In (code (snd (Api.create_applepay_payment w req))) [200; 400; 405; 500] \/
     refusal_relayed w (fst (Api.create_applepay_payment w req))
       (code (snd (Api.create_applepay_payment w req)))).
Proof.
  repeat split; intros.
  - unfold Server.create_payment, Server.card_outcome, Server.catch_payment_failed.
    status_paths.
  - unfold Server.create_applepay_payment, Server.applepay_outcome,
      Server.catch_payment_failed.
    status_paths.
  - unfold Merchant.validate_apple_merchant, Merchant.session_of,
      Merchant.throw_Error, Merchant.catch_validation_failed.
    unfold try_catch, bind, lift, fetch, ret, throw, Js.get, json_of.
    repeat (innermost_destruct; cbn beta iota zeta).
    all: cbn [fst snd code respond]; cbn [In]; auto.
  - unfold Api.create_payment, Api.post_only, Api.card_outcome, Api.catch_error.
    status_paths.
  - unfold Api.create_applepay_payment, Api.post_only, Api.applepay_outcome,
      Api.catch_error.
    status_paths.
Qed.

(** ** An order answer that is no JSON document *)

Ltac run_to_order_answer Ta HA G ro J :=
  rewrite (truthy_prop_get _ _ Ta), bind_lift_inr;
  repeat match goal with
         | T : Js.truthy _ = true |- _ => rewrite T; clear T
         end;
  cbn [negb orb];
  rewrite HA, bind_lift_inr;
  rewrite bind_fetch with (r := ro) by (apply G; reflexivity);
  unfold json_of; rewrite J.

(** The handlers parse the answer to the order call as JSON before they
    look at its status.  When that answer is no JSON document (an error
    page of a proxy, an empty body), a request that got as far as the order
    call is answered 500 with the message of the parse error, whatever the
    status of the answer was; the order call is the only call issued and
    neither the status nor the body of the answer reaches the caller. *)
Theorem order_answer_not_json (w : World) (ro : response) :
  answers w orders_url ro -> json ro = None ->
  (forall req_body auth,
     card_fields req_body ->
     Server.getAuthHeader w (Js.prop req_body "country") = inr auth ->
     Server.create_payment w req_body
     = ([server_card_order w req_body auth],
        failed "PAYMENT_FAILED" (engine_message w (SyntaxError_json (text ro))))) /\
  (forall req_body auth,
     applepay_fields req_body ->
     Server.getAuthHeader w (Js.prop req_body "country") = inr auth ->
     Server.create_applepay_payment w req_body
     = ([server_applepay_order w req_body auth],
        failed "PAYMENT_FAILED" (engine_message w (SyntaxError_json (text ro))))) /\
  (forall req cred,
     api_ready w req cred ->
     Api.create_payment w req
     = ([api_order (body req) ("Basic " ++ base64 w cred)],
        api_failed (engine_message w (SyntaxError_json (text ro)))) /\
     Api.create_applepay_payment w req
     = ([api_order (body req) ("Basic " ++ base64 w cred)],
        api_failed (engine_message w (SyntaxError_json (text ro))))).
Proof.
  intros G J. repeat split.
  - intros req_body auth (Ta & Tc & Tm & Tk & Tr) HA.
    unfold Server.create_payment.
    apply try_catch_eq with (r := inl (SyntaxError_json (text ro))).
    run_to_order_answer Ta HA G ro J. reflexivity.
  - intros req_body auth (Ta & Tc & Tr) HA.
    unfold Server.create_applepay_payment.
    apply try_catch_eq with (r := inl (SyntaxError_json (text ro))).
    run_to_order_answer Ta HA G ro J. reflexivity.
  - destruct H as (HM & HB & config & HR & HC).
    unfold Api.create_payment. rewrite (post_only_post _ _ HM).
    apply try_catch_eq with (r := inl (SyntaxError_json (text ro))).
    rewrite (get_defined _ _ HB), bind_lift_inr.
    rewrite HR, bind_lift_inr, HC, bind_lift_inr.
    rewrite bind_fetch with (r := ro) by (apply G; reflexivity).
    unfold json_of. rewrite J. reflexivity.
  - destruct H as (HM & HB & config & HR & HC).
    unfold Api.create_applepay_payment. rewrite (post_only_post _ _ HM).
    apply try_catch_eq with (r := inl (SyntaxError_json (text ro))).
    rewrite (get_defined _ _ HB), bind_lift_inr.
    rewrite HR, bind_lift_inr, HC, bind_lift_inr.
    rewrite bind_fetch with (r := ro) by (apply G; reflexivity).
    unfold json_of. rewrite J. reflexivity.
Qed.

(** A 502 page in answer to the order call. *)
Lemma order_answer_not_json_witness :
  Server.create_payment Extra.w_order_page Extra.card_request
  = ([server_card_order Extra.w_order_page Extra.card_request "Basic rzp_in:secret_in"],
     failed "PAYMENT_FAILED" "runtime error").
Proof.
  refine (proj1 (order_answer_not_json Extra.w_order_page Demo.bad_gateway
                   (demo_answers_order _ _ _) eq_refl)
            Extra.card_request "Basic rzp_in:secret_in" _ eq_refl).
  repeat split.
Defined.

(** ** The fields that reach the gateway *)










